(** * Autoparts ETL pipeline: a shallow embedding of [data-pipeline.py]

    The development follows the class [AutopartsETL]:
    - binary64 arithmetic of the price columns ([F64]);
    - the tabular batch (a pandas DataFrame: labelled rows over a column list);
    - [extract_inventory_data], [transform_product_data], [load_to_database],
      [generate_stock_report] and [run_etl_pipeline], each as a function
      over the logger and the store connection the object holds;
    - the theorems about them, at the end of the file: first one method at a
      time, then the load followed by the report, and the whole run. *)

From Stdlib Require Import ZArith List String Lia Bool.
From Stdlib Require Import Floats.SpecFloat.
From stdpp Require Import base option gmap strings list sorting.

Open Scope string_scope.
Open Scope list_scope.
Open Scope Z_scope.

(** ** Binary64 arithmetic

    pandas keeps the price columns as float64.  The operations are those of
    the Standard Library's executable IEEE 754 specification, at precision 53
    and maximal exponent 1024. *)
Module F64.

Definition prec : Z := 53.
Definition emax : Z := 1024.

Definition t := spec_float.

Definition add : t -> t -> t := SFadd prec emax.
Definition sub : t -> t -> t := SFsub prec emax.
Definition mul : t -> t -> t := SFmul prec emax.
Definition div : t -> t -> t := SFdiv prec emax.
Definition leb : t -> t -> bool := SFleb.

Definition pos_inf : t := S754_infinity false.
Definition neg_inf : t := S754_infinity true.
Definition nan : t := S754_nan.
Definition zero : t := S754_zero false.

(** The float nearest to an integer (what [float(n)] computes). *)
Definition of_Z (n : Z) : t := binary_normalize prec emax n 0 false.

(** The float nearest to [n / 10^k], exact division correctly rounded: the
    value of a decimal literal such as [8.50] ([dec 850 2]). *)
Definition dec (n : Z) (k : nat) : t := div (of_Z n) (of_Z (10 ^ Z.of_nat k)).

(** [rint]: round to the nearest integer, ties to even (the default
    rounding mode), keeping the sign of a result that rounds to zero. *)
Definition rint (x : t) : t :=
  match x with
  | S754_finite s m e =>
      if 0 <=? e then x
      else
        let '(mrs, _) := shr (shr_record_of_loc (Zpos m) loc_Exact) e (- e) in
        match round_nearest_even (shr_m mrs) (loc_of_shr_record mrs) with
        | Zpos n => binary_round prec emax s n 0
        | _ => S754_zero s
        end
  | _ => x
  end.

(** [numpy.round(x, decimals)] for a float64 array and [decimals > 0]:
    multiply by [10^decimals], [rint], divide by [10^decimals]. *)
Definition np_round (x : t) (decimals : nat) : t :=
  let f := of_Z (10 ^ Z.of_nat decimals) in
  div (rint (mul x f)) f.

#[global] Instance t_eq_dec : EqDecision t.
Proof. solve_decision. Defined.

End F64.

(** ** Cells, rows and frames *)

(** A cell of the batch: a Python [int], a [float] or a [str]. *)
Inductive value :=
  | VInt (z : Z)
  | VFloat (f : F64.t)
  | VStr (s : string).

#[global] Instance value_eq_dec : EqDecision value.
Proof. solve_decision. Defined.

(** A row is a pandas Series indexed by column label. *)
Abbreviation Row := (gmap string value).

(** A DataFrame: its column index and its rows, in order. *)
Record DataFrame := mkDataFrame {
  columns : list string;
  rows : list Row
}.

(** ** Exceptions, results and the log *)

Inductive exn :=
  | KeyError (label : string)
  | ValueError (missing_columns : list string)
  | TypeError
  | AttributeError
  | DatabaseError (statement : nat).

Inductive result (A : Type) :=
  | Ok (a : A)
  | Raise (e : exn).
Arguments Ok {A} a.
Arguments Raise {A} e.

#[global] Instance result_ret : MRet result := fun A a => Ok a.
#[global] Instance result_bind : MBind result := fun A B k m =>
  match m with
  | Ok a => k a
  | Raise e => Raise e
  end.

#[global] Instance result_fmap : FMap result := fun A B f m =>
  match m with
  | Ok a => Ok (f a)
  | Raise e => Raise e
  end.

(** A comprehension over a list whose body may raise: the first exception
    ends it. *)
Fixpoint for_each {A B} (f : A -> result B) (l : list A) : result (list B) :=
  match l with
  | [] => Ok []
  | a :: l' => b ← f a; bs ← for_each f l'; Ok (b :: bs)
  end.

Inductive level := INFO | WARNING | ERROR.

(** The stock levels the pipeline assigns; the source writes them as the
    strings given by [nivel_label]. *)
Inductive NivelStock := SIN_STOCK | CRITICO | BAJO | NORMAL.

#[global] Instance NivelStock_eq_dec : EqDecision NivelStock.
Proof. solve_decision. Defined.

Definition nivel_label (n : NivelStock) : string :=
  match n with
  | SIN_STOCK => "SIN_STOCK"
  | CRITICO => "CRÍTICO"
  | BAJO => "BAJO"
  | NORMAL => "NORMAL"
  end.

(** The messages of the logger calls, with the data each one interpolates. *)
Inductive message :=
  | MConexionEstablecida
  | MErrorConectando
  | MExtrayendo (source_type : string)
  | MDatosEjemplo (n : nat)
  | MDatosCsv (n : nat)
  | MCsvNoEncontrado
  | MFuenteNoSoportada
  | MErrorExtrayendo (e : exn)
  | MTransformando
  | MSkusDuplicados
  | MPreciosInvalidos (n : nat)
  | MTransformacionCompletada
  | MErrorTransformando (e : exn)
  | MNoHayConexion
  | MCategoriaNoEncontrada (nombre : value)
  | MProveedorNoEncontrado (nombre : value)
  | MDatosCargados (nuevos actualizados : nat)
  | MNivel (nivel : value) (cantidad : nat)
  | MErrorCargando (e : exn)
  | MErrorReporte (e : exn)
  | MInicio
  | MFase (n : nat)
  | MCompletado
  | MTiempoTotal
  | MStockCritico (n : nat)
  | MAtencionInmediata
  | MItem (sku nombre : string) (stock_actual stock_minimo : Z) (ubicacion : string)
  | MProductosMas (n : nat)
  | MSinStockCritico
  | MErrorCritico (e : exn)
  | MFalloCarga
  | MConexionCerrada.

Definition LogEntry : Type := level * message.
Definition Log := list LogEntry.

(** Row access: [row[label]] raises [KeyError] on a missing label,
    [row.get(label, default)] does not. *)
Definition row_item (r : Row) (label : string) : result value :=
  match r !! label with
  | Some v => Ok v
  | None => Raise (KeyError label)
  end.

Definition row_get (r : Row) (label : string) (default : value) : value :=
  match r !! label with Some v => v | None => default end.

(** Cell conversions.  The embedding fixes the column types of the batch:
    text columns hold [str], the price columns hold floats (an [int] price is
    widened, as pandas does in a float64 column) and the stock columns hold
    Python integers.  A cell of another type stops the model with
    [TypeError]; every theorem below is about batches typed this way. *)
Definition as_float (v : value) : result F64.t :=
  match v with
  | VFloat f => Ok f
  | VInt z => Ok (F64.of_Z z)
  | VStr _ => Raise TypeError
  end.

Definition as_int (v : value) : result Z :=
  match v with
  | VInt z => Ok z
  | _ => Raise TypeError
  end.

Definition as_str (v : value) : result string :=
  match v with
  | VStr s => Ok s
  | _ => Raise TypeError
  end.

(** ** The store

    PostgreSQL behind a psycopg2 connection.  The tables are keyed as the
    [ON CONFLICT] targets of the two upserts say: [productos] by [sku],
    [inventario] by [producto_sku]. *)

Record Producto := mkProducto {
  p_nombre : string;
  p_numero_parte : string;
  p_categoria_id : Z;
  p_proveedor_id : Z;
  p_precio_compra : F64.t;
  p_precio_venta : F64.t;
  p_garantia_meses : Z;
  p_activo : bool;
  p_updated_at : Z
}.

Record Inventario := mkInventario {
  i_stock_actual : Z;
  i_stock_minimo : Z;
  i_stock_maximo : Z;
  i_ubicacion : string;
  i_updated_at : Z
}.

(** What the table definitions fix and the program relies on: the defaults of
    the columns the product upsert does not list, and the collation that
    orders [nombre].  (The DDL is not part of the program, so they are
    fields of the store.) *)
Record Schema := mkSchema {
  activo_default : bool;
  updated_at_default : Z -> Z;
  collate_le : string -> string -> bool
}.

Record Store := mkStore {
  ddl : Schema;
  categorias : list (Z * string);
  proveedores : list (Z * string);
  productos : gmap string Producto;
  inventario : gmap string Inventario
}.

(** What a connection did to its transaction, in order. *)
Inductive TxEvent := Commit | Rollback | Close.

(** A psycopg2 connection.  [committed] is the durable state, [pending] the
    state the open transaction sees; [commit] makes [pending] durable and
    [rollback] discards it.  [executed] counts the statements sent so far and
    [faults n] says whether the store raises on statement number [n] (a
    constraint of the schema, a lost connection: the table definitions are
    not part of the program).  [now] is [CURRENT_TIMESTAMP], the start time
    of the transaction. *)
Record Conn := mkConn {
  committed : Store;
  pending : Store;
  executed : nat;
  faults : nat -> bool;
  now : Z;
  trace : list TxEvent
}.

Definition conn_commit (c : Conn) : Conn :=
  mkConn (pending c) (pending c) (executed c) (faults c) (now c) (trace c ++ [Commit]).

Definition conn_rollback (c : Conn) : Conn :=
  mkConn (committed c) (committed c) (executed c) (faults c) (now c) (trace c ++ [Rollback]).

Definition conn_close (c : Conn) : Conn :=
  mkConn (committed c) (committed c) (executed c) (faults c) (now c) (trace c ++ [Close]).

(** ** The pipeline object and its monad *)

(** The fields of [AutopartsETL] that change: the connection and what the
    logger has received. *)
Record Etl := mkEtl {
  connection : option Conn;
  logger : Log
}.

(** A method body: it reads and updates the object, and returns or raises. *)
Definition M (A : Type) : Type := Etl -> Etl * result A.

#[global] Instance M_ret : MRet M := fun A a self => (self, Ok a).
#[global] Instance M_bind : MBind M := fun A B k m self =>
  match m self with
  | (self', Ok a) => k a self'
  | (self', Raise e) => (self', Raise e)
  end.

Definition raise {A} (e : exn) : M A := fun self => (self, Raise e).

Definition lift {A} (r : result A) : M A := fun self => (self, r).

Definition log (l : level) (m : message) : M unit := fun self =>
  (mkEtl (connection self) (logger self ++ [(l, m)]), Ok tt).

(** [try: body except Exception as e: handler e]. *)
Definition try_except {A} (body : M A) (handler : exn -> M A) : M A := fun self =>
  match body self with
  | (self', Ok a) => (self', Ok a)
  | (self', Raise e) => handler e self'
  end.

(** ** Transformation *)

Definition required_columns : list string :=
  ["sku"; "nombre"; "precio_compra"; "precio_venta"; "stock_actual"; "stock_minimo"].

(** [df[label]]: the column, or [KeyError]. *)
Definition frame_column (df : DataFrame) (label : string) : result (list (option value)) :=
  if decide (label ∈ columns df) then Ok ((fun r : Row => r !! label) <$> rows df)
  else Raise (KeyError label).

(** [Series.duplicated()]: marks every value seen earlier in the column. *)
Fixpoint duplicated_from (seen keys : list (option value)) : list bool :=
  match keys with
  | [] => []
  | k :: keys' => bool_decide (k ∈ seen) :: duplicated_from (k :: seen) keys'
  end.

Definition duplicated (keys : list (option value)) : list bool := duplicated_from [] keys.

(** [drop_duplicates(subset=[label], keep='first')] on the rows. *)
Fixpoint drop_from (label : string) (seen : list (option value)) (l : list Row) : list Row :=
  match l with
  | [] => []
  | r :: l' =>
      if decide (r !! label ∈ seen) then drop_from label seen l'
      else r :: drop_from label (r !! label :: seen) l'
  end.

Definition drop_duplicates (df : DataFrame) (label : string) : DataFrame :=
  mkDataFrame (columns df) (drop_from label [] (rows df)).

(** [df[label] = values]: a new column goes last, an existing one is
    overwritten in place. *)
Definition add_column (cols : list string) (label : string) : list string :=
  if decide (label ∈ cols) then cols else cols ++ [label].

Definition set_cell (label : string) (r : Row) (v : value) : Row := <[label := v]> r.

Definition assign_column (df : DataFrame) (label : string) (values : list value) : DataFrame :=
  mkDataFrame (add_column (columns df) label) (zip_with (set_cell label) (rows df) values).

(** The margin of one row:
    [((precio_venta - precio_compra) / precio_compra * 100).round(2)]. *)
Definition margen (precio_venta precio_compra : F64.t) : F64.t :=
  F64.np_round
    (F64.mul (F64.div (F64.sub precio_venta precio_compra) precio_compra) (F64.of_Z 100)) 2.

Definition margen_ganancia (r : Row) : result value :=
  v ← row_item r "precio_venta";
  c ← row_item r "precio_compra";
  pv ← as_float v;
  pc ← as_float c;
  Ok (VFloat (margen pv pc)).

(** The inner function [categorizar_stock], on the two cells it reads. *)
Definition categorizar_stock (stock_actual stock_minimo : Z) : NivelStock :=
  if stock_actual =? 0 then SIN_STOCK
  else if stock_actual <=? stock_minimo then CRITICO
  else if stock_actual <=? stock_minimo * 2 then BAJO
  else NORMAL.

Definition nivel_stock (r : Row) : result value :=
  a ← row_item r "stock_actual";
  m ← row_item r "stock_minimo";
  sa ← as_int a;
  sm ← as_int m;
  Ok (VStr (nivel_label (categorizar_stock sa sm))).

(** [precio_venta <= precio_compra], the mask of the price check. *)
Definition precio_invalido (r : Row) : result bool :=
  v ← row_item r "precio_venta";
  c ← row_item r "precio_compra";
  pv ← as_float v;
  pc ← as_float c;
  Ok (F64.leb pv pc).

Definition count_true (l : list bool) : nat := length (filter (fun b => b = true) l).

Definition transform_body (raw_df : DataFrame) : M (option DataFrame) :=
  skus ← lift (frame_column raw_df "sku");
  df1 ← (if existsb id (duplicated skus)
         then _ ← log WARNING MSkusDuplicados; mret (drop_duplicates raw_df "sku")
         else mret raw_df);
  let missing_columns := filter (fun col => col ∉ columns df1) required_columns in
  _ ← (if decide (missing_columns = []) then mret tt
       else raise (ValueError missing_columns));
  margenes ← lift (for_each margen_ganancia (rows df1));
  let df2 := assign_column df1 "margen_ganancia" margenes in
  niveles ← lift (for_each nivel_stock (rows df2));
  let df3 := assign_column df2 "nivel_stock" niveles in
  invalidos ← lift (for_each precio_invalido (rows df3));
  _ ← (if decide (count_true invalidos = 0%nat) then mret tt
       else log WARNING (MPreciosInvalidos (count_true invalidos)));
  _ ← log INFO MTransformacionCompletada;
  mret (Some df3).

Definition transform_product_data (raw_df : DataFrame) : M (option DataFrame) :=
  _ ← log INFO MTransformando;
  try_except (transform_body raw_df)
    (fun e => _ ← log ERROR (MErrorTransformando e); mret None).

(** ** Statements *)

(** [cursor.execute]: the statement is numbered; the store may raise on it
    ([faults]), and a statement that raises changes nothing.  The statement
    sees the transaction's [CURRENT_TIMESTAMP]. *)
Definition execute {A} (statement : Z -> Store -> result (Store * A)) : M A := fun self =>
  match connection self with
  | None => (self, Raise AttributeError)
  | Some c =>
      let n := executed c in
      let sent s := mkEtl (Some (mkConn (committed c) s (S n) (faults c) (now c) (trace c)))
                          (logger self) in
      if faults c n then (sent (pending c), Raise (DatabaseError n))
      else match statement (now c) (pending c) with
           | Ok (s', a) => (sent s', Ok a)
           | Raise e => (sent (pending c), Raise e)
           end
  end.

Definition commit : M unit := fun self =>
  match connection self with
  | None => (self, Raise AttributeError)
  | Some c => (mkEtl (Some (conn_commit c)) (logger self), Ok tt)
  end.

Definition rollback : M unit := fun self =>
  match connection self with
  | None => (self, Raise AttributeError)
  | Some c => (mkEtl (Some (conn_rollback c)) (logger self), Ok tt)
  end.

(** [SELECT id, nombre FROM categorias] and the same on [proveedores]. *)
Definition select_categorias (ts : Z) (s : Store) : result (Store * list (Z * string)) :=
  Ok (s, categorias s).

Definition select_proveedores (ts : Z) (s : Store) : result (Store * list (Z * string)) :=
  Ok (s, proveedores s).

(** [{nombre: id for id, nombre in cursor.fetchall()}]: a later row with the
    same name replaces an earlier one. *)
Definition lookup_map (fetched : list (Z * string)) : gmap string Z :=
  foldl (fun (m : gmap string Z) '(id, nombre) => <[nombre := id]> m) ∅ fetched.

(** [mapping.get(cell)]: only a [str] cell can be a key of the mapping. *)
Definition map_get (mapping : gmap string Z) (cell : value) : option Z :=
  match cell with
  | VStr nombre => mapping !! nombre
  | _ => None
  end.

(** [if not id: id = 1]: [None] and [0] are both falsy. *)
Definition falsy (id : option Z) : bool :=
  match id with
  | None => true
  | Some z => z =? 0
  end.

Definition default_id : Z := 1.

Definition resolve (found : option Z) : Z :=
  if falsy found then default_id else default default_id found.

(** The product upsert:
    [INSERT INTO productos (...) VALUES (...) ON CONFLICT (sku) DO UPDATE SET
     nombre, precio_compra, precio_venta = EXCLUDED..., updated_at =
     CURRENT_TIMESTAMP RETURNING sku]. *)
Definition producto_inserted (d : Schema) (ts : Z) (nombre numero_parte : string)
    (categoria_id proveedor_id : Z) (precio_compra precio_venta : F64.t)
    (garantia_meses : Z) : Producto :=
  mkProducto nombre numero_parte categoria_id proveedor_id precio_compra precio_venta
    garantia_meses (activo_default d) (updated_at_default d ts).

Definition producto_updated (ts : Z) (nombre : string) (precio_compra precio_venta : F64.t)
    (old : Producto) : Producto :=
  mkProducto nombre (p_numero_parte old) (p_categoria_id old) (p_proveedor_id old)
    precio_compra precio_venta (p_garantia_meses old) (p_activo old) ts.

Definition upsert_producto (ts : Z) (sku nombre numero_parte : string)
    (categoria_id proveedor_id : Z) (precio_compra precio_venta : F64.t)
    (garantia_meses : Z) (s : Store) : Store :=
  let p :=
    match productos s !! sku with
    | None => producto_inserted (ddl s) ts nombre numero_parte categoria_id proveedor_id
                precio_compra precio_venta garantia_meses
    | Some old => producto_updated ts nombre precio_compra precio_venta old
    end in
  mkStore (ddl s) (categorias s) (proveedores s) (<[sku := p]> (productos s)) (inventario s).

(** The inventory upsert:
    [INSERT INTO inventario (...) VALUES (...) ON CONFLICT (producto_sku) DO
     UPDATE SET stock_actual, stock_minimo, ubicacion = EXCLUDED...,
     updated_at = CURRENT_TIMESTAMP]. *)
Definition inventario_inserted (d : Schema) (ts : Z) (stock_actual stock_minimo stock_maximo : Z)
    (ubicacion : string) : Inventario :=
  mkInventario stock_actual stock_minimo stock_maximo ubicacion (updated_at_default d ts).

Definition inventario_updated (ts : Z) (stock_actual stock_minimo : Z) (ubicacion : string)
    (old : Inventario) : Inventario :=
  mkInventario stock_actual stock_minimo (i_stock_maximo old) ubicacion ts.

Definition upsert_inventario (ts : Z) (sku : string) (stock_actual stock_minimo stock_maximo : Z)
    (ubicacion : string) (s : Store) : Store :=
  let i :=
    match inventario s !! sku with
    | None => inventario_inserted (ddl s) ts stock_actual stock_minimo stock_maximo ubicacion
    | Some old => inventario_updated ts stock_actual stock_minimo ubicacion old
    end in
  mkStore (ddl s) (categorias s) (proveedores s) (productos s) (<[sku := i]> (inventario s)).

(** The statement with its parameters bound.  The store's columns are typed
    (text, numeric, integer): a parameter of another type is refused.  The
    product upsert answers with the row [RETURNING sku] yields and with the
    row count, which PostgreSQL sets to one for the row it inserted and
    equally for the row it updated on conflict. *)
Definition insert_producto (sku nombre numero_parte : value)
    (categoria_id proveedor_id : Z) (precio_compra precio_venta : value) (garantia_meses : Z)
    (ts : Z) (s : Store) : result (Store * (option string * Z)) :=
  k ← as_str sku;
  n ← as_str nombre;
  np ← as_str numero_parte;
  pc ← as_float precio_compra;
  pv ← as_float precio_venta;
  Ok (upsert_producto ts k n np categoria_id proveedor_id pc pv garantia_meses s,
      (Some k, 1)).

Definition insert_inventario (sku stock_actual stock_minimo stock_maximo ubicacion : value)
    (ts : Z) (s : Store) : result (Store * unit) :=
  k ← as_str sku;
  sa ← as_int stock_actual;
  sm ← as_int stock_minimo;
  sx ← as_int stock_maximo;
  u ← as_str ubicacion;
  Ok (upsert_inventario ts k sa sm sx u s, tt).

(** ** Load *)

(** [row['stock_minimo'] * 4], the default of [stock_maximo]. *)
Definition times (cell : value) (k : Z) : result value :=
  z ← as_int cell; Ok (VInt (z * k)).

(** One turn of the loop over [iterrows()], on the two counters. *)
Definition load_row (categorias_map proveedores_map : gmap string Z)
    (counters : nat * nat) (row : Row) : M (nat * nat) :=
  let '(productos_procesados, productos_actualizados) := counters in
  categoria ← lift (row_item row "categoria");
  proveedor ← lift (row_item row "proveedor");
  let categoria_id := map_get categorias_map categoria in
  let proveedor_id := map_get proveedores_map proveedor in
  _ ← (if falsy categoria_id then log WARNING (MCategoriaNoEncontrada categoria) else mret tt);
  _ ← (if falsy proveedor_id then log WARNING (MProveedorNoEncontrado proveedor) else mret tt);
  sku ← lift (row_item row "sku");
  nombre ← lift (row_item row "nombre");
  precio_compra ← lift (row_item row "precio_compra");
  precio_venta ← lift (row_item row "precio_venta");
  '(resultado, rowcount) ← execute (insert_producto sku nombre
      (row_get row "numero_parte" (VStr "")) (resolve categoria_id) (resolve proveedor_id)
      precio_compra precio_venta 12);
  let counters' :=
    match resultado with
    | Some _ =>
        if rowcount =? 1 then (S productos_procesados, productos_actualizados)
        else (productos_procesados, S productos_actualizados)
    | None => (productos_procesados, productos_actualizados)
    end in
  sku ← lift (row_item row "sku");
  stock_actual ← lift (row_item row "stock_actual");
  stock_minimo ← lift (row_item row "stock_minimo");
  stock_minimo' ← lift (row_item row "stock_minimo");
  calculado ← lift (times stock_minimo' 4);
  ubicacion ← lift (row_item row "ubicacion");
  _ ← execute (insert_inventario sku stock_actual stock_minimo
      (row_get row "stock_maximo" calculado) ubicacion);
  mret counters'.

Fixpoint load_rows (categorias_map proveedores_map : gmap string Z)
    (counters : nat * nat) (l : list Row) : M (nat * nat) :=
  match l with
  | [] => mret counters
  | row :: l' =>
      counters' ← load_row categorias_map proveedores_map counters row;
      load_rows categorias_map proveedores_map counters' l'
  end.

(** [Series.value_counts()]: the distinct cells with their number of
    occurrences, most frequent first (equal counts in order of first
    appearance). *)
Fixpoint distinct_from {A} `{EqDecision A} (seen l : list A) : list A :=
  match l with
  | [] => []
  | a :: l' => if decide (a ∈ seen) then distinct_from seen l'
               else a :: distinct_from (a :: seen) l'
  end.

Definition count_of {A} `{EqDecision A} (a : A) (l : list A) : nat :=
  length (filter (fun b => b = a) l).

Definition more_frequent (x y : value * nat) : Prop := (snd y <= snd x)%nat.

#[global] Instance more_frequent_dec : RelDecision more_frequent.
Proof. intros x y. unfold more_frequent. apply _. Defined.

Definition value_counts (cells : list (option value)) : list (value * nat) :=
  let present := omap id cells in
  merge_sort more_frequent
    ((fun v => (v, count_of v present)) <$> distinct_from [] present).

Fixpoint log_niveles (counts : list (value * nat)) : M unit :=
  match counts with
  | [] => mret tt
  | (nivel, cantidad) :: counts' => _ ← log INFO (MNivel nivel cantidad); log_niveles counts'
  end.

Definition load_body (transformed_df : DataFrame) : M bool :=
  fetched ← execute select_categorias;
  let categorias_map := lookup_map fetched in
  fetched' ← execute select_proveedores;
  let proveedores_map := lookup_map fetched' in
  '(productos_procesados, productos_actualizados) ←
     load_rows categorias_map proveedores_map (0%nat, 0%nat) (rows transformed_df);
  _ ← commit;
  _ ← log INFO (MDatosCargados productos_procesados productos_actualizados);
  niveles ← lift (frame_column transformed_df "nivel_stock");
  _ ← log_niveles (value_counts niveles);
  mret true.

Definition load_to_database (transformed_df : DataFrame) : M bool := fun self =>
  match connection self with
  | None => (_ ← log ERROR MNoHayConexion; mret false) self
  | Some _ =>
      try_except (load_body transformed_df)
        (fun e => _ ← log ERROR (MErrorCargando e); _ ← rollback; mret false) self
  end.

(** ** The stock report *)

(** One row of the report query's result. *)
Record ReportRow := mkReportRow {
  r_sku : string;
  r_nombre : string;
  r_stock_actual : Z;
  r_stock_minimo : Z;
  r_ubicacion : string;
  r_estado : NivelStock
}.

(** [CASE WHEN i.stock_actual = 0 THEN 'SIN_STOCK'
          WHEN i.stock_actual <= i.stock_minimo THEN 'CRÍTICO'
          ELSE 'NORMAL' END]. *)
Definition estado (i : Inventario) : NivelStock :=
  if i_stock_actual i =? 0 then SIN_STOCK
  else if i_stock_actual i <=? i_stock_minimo i then CRITICO
  else NORMAL.

(** [FROM productos p JOIN inventario i ON p.sku = i.producto_sku]. *)
Definition join_inventario (s : Store) : list (string * Producto * Inventario) :=
  omap (fun '(sku, p) => match inventario s !! sku with
                         | Some i => Some (sku, p, i)
                         | None => None
                         end)
       (map_to_list (productos s)).

(** [WHERE i.stock_actual <= i.stock_minimo AND p.activo = true]. *)
Definition where_stock_bajo (j : string * Producto * Inventario) : bool :=
  let '(_, p, i) := j in
  (i_stock_actual i <=? i_stock_minimo i) && p_activo p.

Definition select_report (j : string * Producto * Inventario) : ReportRow :=
  let '(sku, p, i) := j in
  mkReportRow sku (p_nombre p) (i_stock_actual i) (i_stock_minimo i) (i_ubicacion i) (estado i).

(** [ORDER BY i.stock_actual ASC, p.nombre]: [a] may come before [b]. *)
Definition report_order (d : Schema) (a b : ReportRow) : Prop :=
  r_stock_actual a < r_stock_actual b
  \/ (r_stock_actual a = r_stock_actual b /\ collate_le d (r_nombre a) (r_nombre b) = true).

#[global] Instance report_order_dec d : RelDecision (report_order d).
Proof. intros a b. unfold report_order. apply _. Defined.

(** The query.  Rows that tie on both sort keys come in the order the sort
    leaves them, one of the orders SQL allows. *)
Definition stock_report_query (ts : Z) (s : Store) : result (Store * list ReportRow) :=
  Ok (s, merge_sort (report_order (ddl s))
           (select_report <$> filter (fun j => where_stock_bajo j = true) (join_inventario s))).

Definition generate_stock_report : M (option (list ReportRow)) := fun self =>
  match connection self with
  | None => (self, Ok None)
  | Some _ =>
      try_except (resultados ← execute stock_report_query; mret (Some resultados))
        (fun e => _ ← log ERROR (MErrorReporte e); mret None) self
  end.

(** ** Extraction *)

Definition sample_row (sku nombre numero_parte categoria : string) (precio_compra precio_venta : Z)
    (proveedor : string) (stock_actual stock_minimo : Z) (ubicacion : string) : Row :=
  list_to_map
    [("sku", VStr sku); ("nombre", VStr nombre); ("numero_parte", VStr numero_parte);
     ("categoria", VStr categoria); ("precio_compra", VFloat (F64.dec precio_compra 2));
     ("precio_venta", VFloat (F64.dec precio_venta 2)); ("proveedor", VStr proveedor);
     ("stock_actual", VInt stock_actual); ("stock_minimo", VInt stock_minimo);
     ("ubicacion", VStr ubicacion)].

Definition sample_columns : list string :=
  ["sku"; "nombre"; "numero_parte"; "categoria"; "precio_compra"; "precio_venta";
   "proveedor"; "stock_actual"; "stock_minimo"; "ubicacion"].

(** [sample_data]; the prices are written in hundredths. *)
Definition sample_data : DataFrame :=
  mkDataFrame sample_columns
    [sample_row "AP001" "Filtro Aceite Toyota Corolla" "FT-123" "Filtros" 850 1200
       "AutoParts Supply" 25 10 "A1-02";
     sample_row "AP002" "Pastillas Freno Delanteras Nissan" "PB-456" "Frenos" 4500 6500
       "Brake Systems MX" 12 5 "B2-15";
     sample_row "AP003" "Batería 12V 60Ah Universal" "BAT-789" "Eléctrico" 12000 18000
       "MotorTech" 8 3 "C3-08";
     sample_row "AP004" "Aceite Motor 5W30 Sintético" "OIL-012" "Lubricantes" 1575 2250
       "AutoParts Supply" 45 15 "A1-10";
     sample_row "AP005" "Amortiguadores Delanteros VW" "AMT-345" "Suspensión" 8500 12500
       "MotorTech" 15 8 "B1-05";
     sample_row "AP006" "Bujías Iridio Standard" "BJI-678" "Motor" 1250 1875
       "AutoParts Supply" 30 12 "A2-12"].

(** What the run finds outside the program: the answer of
    [psycopg2.connect] and, when [data/inventario.csv] exists, what
    [pd.read_csv] makes of it. *)
Record Env := mkEnv {
  server : result Conn;
  csv_file : option (result DataFrame)
}.

Definition extract_sample : M (option DataFrame) :=
  _ ← log INFO (MExtrayendo "sample");
  _ ← log INFO (MDatosEjemplo (length (rows sample_data)));
  mret (Some sample_data).

Definition extract_inventory_data (env : Env) (source_type : string) : M (option DataFrame) :=
  _ ← log INFO (MExtrayendo source_type);
  try_except
    (if decide (source_type = "sample") then
       _ ← log INFO (MDatosEjemplo (length (rows sample_data)));
       mret (Some sample_data)
     else if decide (source_type = "csv") then
       match csv_file env with
       | Some read =>
           df ← lift read;
           _ ← log INFO (MDatosCsv (length (rows df)));
           mret (Some df)
       | None =>
           _ ← log WARNING MCsvNoEncontrado;
           extract_sample
       end
     else
       _ ← log ERROR MFuenteNoSoportada;
       mret None)
    (fun e => _ ← log ERROR (MErrorExtrayendo e); mret None).

(** ** The orchestrator *)

Definition connect_database (env : Env) : M bool := fun self =>
  match server env with
  | Ok c => (_ ← log INFO MConexionEstablecida; mret true) (mkEtl (Some c) (logger self))
  | Raise e => (_ ← log ERROR MErrorConectando; mret false) self
  end.

Definition close_connection : M unit := fun self =>
  match connection self with
  | None => (self, Ok tt)
  | Some c => log INFO MConexionCerrada (mkEtl (Some (conn_close c)) (logger self))
  end.

(** [try: body finally: cleanup], for a cleanup that does not raise. *)
Definition try_finally {A} (body : M A) (cleanup : M unit) : M A := fun self =>
  let '(self', r) := body self in
  (fst (cleanup self'), r).

Fixpoint log_items (items : list ReportRow) : M unit :=
  match items with
  | [] => mret tt
  | item :: items' =>
      _ ← log INFO (MItem (r_sku item) (r_nombre item) (r_stock_actual item)
                      (r_stock_minimo item) (r_ubicacion item));
      log_items items'
  end.

Definition log_reporte (reporte : option (list ReportRow)) : M unit :=
  match reporte with
  | Some (item :: items) =>
      let found : list ReportRow := item :: items in
      _ ← log INFO (MStockCritico (length found));
      _ ← log INFO MAtencionInmediata;
      _ ← log_items (take 5 found);
      if decide (5 < length found)%nat
      then log INFO (MProductosMas (length found - 5))
      else mret tt
  | _ => log INFO MSinStockCritico
  end.

Definition pipeline_phases (env : Env) (source_type : string) : M bool :=
  _ ← log INFO (MFase 1);
  raw_data ← extract_inventory_data env source_type;
  match raw_data with
  | None => mret false
  | Some raw_data =>
      _ ← log INFO (MFase 2);
      transformed_data ← transform_product_data raw_data;
      match transformed_data with
      | None => mret false
      | Some transformed_data =>
          _ ← log INFO (MFase 3);
          success ← load_to_database transformed_data;
          _ ← (if (success : bool) then
                 _ ← log INFO (MFase 4);
                 reporte ← generate_stock_report;
                 _ ← log INFO MCompletado;
                 _ ← log INFO MTiempoTotal;
                 log_reporte reporte
               else log ERROR MFalloCarga);
          mret success
      end
  end.

Definition run_etl_pipeline (env : Env) (source_type : string) : M bool :=
  _ ← log INFO MInicio;
  connected ← connect_database env;
  if (connected : bool) then
    try_finally
      (try_except (pipeline_phases env source_type)
         (fun e => _ ← log ERROR (MErrorCritico e); mret false))
      close_connection
  else mret false.

(** A fresh [AutopartsETL(db_config)]. *)
Definition new_etl : Etl := mkEtl None [].

(** ** Derived descriptions

    The same computations without the object: what a call returns and what
    it logs, as functions of its arguments.  The lemmas of the next part show
    that the methods above compute exactly these. *)

(** The [try] body of [transform_product_data] as a value or an exception. *)
Definition transform_frame (raw_df : DataFrame) : result DataFrame :=
  _ ← frame_column raw_df "sku";
  let df1 := drop_duplicates raw_df "sku" in
  let missing_columns := filter (fun col => col ∉ columns df1) required_columns in
  if decide (missing_columns = []) then
    margenes ← for_each margen_ganancia (rows df1);
    let df2 := assign_column df1 "margen_ganancia" margenes in
    niveles ← for_each nivel_stock (rows df2);
    let df3 := assign_column df2 "nivel_stock" niveles in
    _ ← for_each precio_invalido (rows df3);
    Ok df3
  else Raise (ValueError missing_columns).

Definition has_duplicates (df : DataFrame) (label : string) : bool :=
  existsb id (duplicated ((fun r : Row => r !! label) <$> rows df)).

Definition invalid_prices (df : DataFrame) : nat :=
  match for_each precio_invalido (rows df) with
  | Ok invalidos => count_true invalidos
  | Raise _ => 0%nat
  end.

(** The lines [transform_product_data] sends to the logger. *)
Definition transform_log (raw_df : DataFrame) : Log :=
  [(INFO, MTransformando)]
  ++ (if decide ("sku" ∈ columns raw_df) then
        if has_duplicates raw_df "sku" then [(WARNING, MSkusDuplicados)] else []
      else [])
  ++ match transform_frame raw_df with
     | Ok df =>
         (if decide (invalid_prices df = 0%nat) then []
          else [(WARNING, MPreciosInvalidos (invalid_prices df))])
         ++ [(INFO, MTransformacionCompletada)]
     | Raise e => [(ERROR, MErrorTransformando e)]
     end.

(** The margin when the purchase price is a zero of sign [s]: the quotient
    by zero, which the later steps leave as it is. *)
Definition margen_sin_costo (pv : F64.t) (s : bool) : F64.t :=
  match pv with
  | S754_zero _ | S754_nan => F64.nan
  | S754_infinity sv | S754_finite sv _ _ => S754_infinity (xorb sv s)
  end.

(** What the transformation makes of one row. *)
Definition transform_row (r : Row) : result Row :=
  m ← margen_ganancia r;
  n ← nivel_stock r;
  Ok (set_cell "nivel_stock" (set_cell "margen_ganancia" r m) n).

(** The number of rows the transformation drops. *)
Definition dropped_duplicates (raw_df : DataFrame) : nat :=
  (length (rows raw_df) - length (rows (drop_duplicates raw_df "sku")))%nat.

(** The parameters one row binds to the two upserts. *)
Record RowParams := mkRowParams {
  rp_categoria : value;
  rp_proveedor : value;
  rp_sku : string;
  rp_nombre : string;
  rp_numero_parte : string;
  rp_precio_compra : F64.t;
  rp_precio_venta : F64.t;
  rp_stock_actual : Z;
  rp_stock_minimo : Z;
  rp_stock_maximo : Z;
  rp_ubicacion : string
}.

Definition row_params (row : Row) : result RowParams :=
  categoria ← row_item row "categoria";
  proveedor ← row_item row "proveedor";
  sku ← row_item row "sku" ≫= as_str;
  nombre ← row_item row "nombre" ≫= as_str;
  numero_parte ← as_str (row_get row "numero_parte" (VStr ""));
  precio_compra ← row_item row "precio_compra" ≫= as_float;
  precio_venta ← row_item row "precio_venta" ≫= as_float;
  stock_actual ← row_item row "stock_actual" ≫= as_int;
  stock_minimo ← row_item row "stock_minimo" ≫= as_int;
  stock_maximo ← as_int (row_get row "stock_maximo" (VInt (stock_minimo * 4)));
  ubicacion ← row_item row "ubicacion" ≫= as_str;
  Ok (mkRowParams categoria proveedor sku nombre numero_parte precio_compra precio_venta
        stock_actual stock_minimo stock_maximo ubicacion).

(** The two upserts of one row, on the store. *)
Definition store_row (categorias_map proveedores_map : gmap string Z) (ts : Z)
    (s : Store) (ps : RowParams) : Store :=
  upsert_inventario ts (rp_sku ps) (rp_stock_actual ps) (rp_stock_minimo ps)
    (rp_stock_maximo ps) (rp_ubicacion ps)
    (upsert_producto ts (rp_sku ps) (rp_nombre ps) (rp_numero_parte ps)
       (resolve (map_get categorias_map (rp_categoria ps)))
       (resolve (map_get proveedores_map (rp_proveedor ps)))
       (rp_precio_compra ps) (rp_precio_venta ps) 12 s).

(** The warnings of one row's name resolution. *)
Definition resolution_log (categorias_map proveedores_map : gmap string Z) (ps : RowParams) : Log :=
  (if falsy (map_get categorias_map (rp_categoria ps))
   then [(WARNING, MCategoriaNoEncontrada (rp_categoria ps))] else [])
  ++ (if falsy (map_get proveedores_map (rp_proveedor ps))
      then [(WARNING, MProveedorNoEncontrado (rp_proveedor ps))] else []).

(** The store after a whole batch. *)
Definition store_batch (ts : Z) (s : Store) (batch : list RowParams) : Store :=
  foldl (store_row (lookup_map (categorias s)) (lookup_map (proveedores s)) ts) s batch.

(** The rows the report query selects, before they are ordered. *)
Definition low_stock (s : Store) : list ReportRow :=
  select_report <$> filter (fun j => where_stock_bajo j = true) (join_inventario s).

(** What one row does to the product under the SKU [k], and to the
    inventory row under [k]. *)
Definition producto_step (cm pm : gmap string Z) (d : Schema) (ts : Z) (k : string)
    (o : option Producto) (ps : RowParams) : option Producto :=
  if decide (rp_sku ps = k) then
    Some match o with
         | None => producto_inserted d ts (rp_nombre ps) (rp_numero_parte ps)
                     (resolve (map_get cm (rp_categoria ps)))
                     (resolve (map_get pm (rp_proveedor ps)))
                     (rp_precio_compra ps) (rp_precio_venta ps) 12
         | Some old => producto_updated ts (rp_nombre ps) (rp_precio_compra ps)
                         (rp_precio_venta ps) old
         end
  else o.

Definition inventario_step (d : Schema) (ts : Z) (k : string)
    (o : option Inventario) (ps : RowParams) : option Inventario :=
  if decide (rp_sku ps = k) then
    Some match o with
         | None => inventario_inserted d ts (rp_stock_actual ps) (rp_stock_minimo ps)
                     (rp_stock_maximo ps) (rp_ubicacion ps)
         | Some old => inventario_updated ts (rp_stock_actual ps) (rp_stock_minimo ps)
                         (rp_ubicacion ps) old
         end
  else o.


(** A store with its time stamps blanked. *)
Definition untimed_producto (p : Producto) : Producto :=
  mkProducto (p_nombre p) (p_numero_parte p) (p_categoria_id p) (p_proveedor_id p)
    (p_precio_compra p) (p_precio_venta p) (p_garantia_meses p) (p_activo p) 0.

Definition untimed_inventario (i : Inventario) : Inventario :=
  mkInventario (i_stock_actual i) (i_stock_minimo i) (i_stock_maximo i) (i_ubicacion i) 0.

Definition untimed (s : Store) : Store :=
  mkStore (ddl s) (categorias s) (proveedores s)
    (untimed_producto <$> productos s) (untimed_inventario <$> inventario s).

(** A state of the object with the same connection and more log lines. *)
Definition logged (self : Etl) (lines : Log) : Etl :=
  mkEtl (connection self) (logger self ++ lines).

(** [c'] is [c] later in the same transaction: statements were sent, and
    nothing was committed, rolled back or closed. *)
Definition in_transaction (c c' : Conn) : Prop :=
  committed c' = committed c /\ faults c' = faults c /\ now c' = now c
  /\ trace c' = trace c /\ (executed c <= executed c')%nat.

(** A method that keeps the object connected and its transaction open, and
    only adds to the log. *)
Definition tx_safe {A} (m : M A) : Prop :=
  forall c lines,
    exists c' lines',
      fst (m (mkEtl (Some c) lines)) = mkEtl (Some c') (lines ++ lines')
      /\ in_transaction c c'.

(** The connection after [n] statements that left [s] pending. *)
Definition advanced (c : Conn) (n : nat) (s : Store) : Conn :=
  mkConn (committed c) s (executed c + n) (faults c) (now c) (trace c).

(** The log lines and the connection of a whole load. *)
Definition batch_log (cm pm : gmap string Z) (batch : list RowParams) : Log :=
  concat (resolution_log cm pm <$> batch).

Definition niveles_log (df : DataFrame) : Log :=
  (fun vn : value * nat => (INFO, MNivel (fst vn) (snd vn)))
    <$> value_counts ((fun r : Row => r !! "nivel_stock") <$> rows df).

Definition loaded (c : Conn) (batch : list RowParams) : Conn :=
  conn_commit (advanced c (2 + 2 * length batch) (store_batch (now c) (pending c) batch)).

Definition load_log (s : Store) (batch : list RowParams) (df : DataFrame) : Log :=
  batch_log (lookup_map (categorias s)) (lookup_map (proveedores s)) batch
  ++ [(INFO, MDatosCargados (length batch) 0)] ++ niveles_log df.

(** The three ways a load ends. *)
Inductive load_outcome (df : DataFrame) (c : Conn) (lines : Log) : Etl -> bool -> Prop :=
  | load_committed batch :
      for_each row_params (rows df) = Ok batch ->
      (forall k, (k < 2 + 2 * length (rows df))%nat -> faults c (executed c + k) = false) ->
      "nivel_stock" ∈ columns df ->
      load_outcome df c lines
        (mkEtl (Some (loaded c batch)) (lines ++ load_log (pending c) batch df)) true
  | load_rolled_back c' lines' e :
      committed c' = committed c -> pending c' = committed c ->
      trace c' = trace c ++ [Rollback] ->
      load_outcome df c lines
        (mkEtl (Some c') (lines ++ lines' ++ [(ERROR, MErrorCargando e)])) false
  | load_committed_then_failed batch :
      for_each row_params (rows df) = Ok batch ->
      (forall k, (k < 2 + 2 * length (rows df))%nat -> faults c (executed c + k) = false) ->
      "nivel_stock" ∉ columns df ->
      load_outcome df c lines
        (mkEtl (Some (conn_rollback (loaded c batch)))
           (lines ++ batch_log (lookup_map (categorias (pending c)))
                       (lookup_map (proveedores (pending c))) batch
            ++ [(INFO, MDatosCargados (length batch) 0);
                (ERROR, MErrorCargando (KeyError "nivel_stock"))]))
        false.

(** The extraction without the object. *)
Definition extract_frame (env : Env) (source_type : string) : option DataFrame :=
  if decide (source_type = "sample") then Some sample_data
  else if decide (source_type = "csv") then
    match csv_file env with
    | Some (Ok df) => Some df
    | Some (Raise _) => None
    | None => Some sample_data
    end
  else None.

Definition extract_log (env : Env) (source_type : string) : Log :=
  [(INFO, MExtrayendo source_type)]
  ++ if decide (source_type = "sample") then [(INFO, MDatosEjemplo (length (rows sample_data)))]
     else if decide (source_type = "csv") then
       match csv_file env with
       | Some (Ok df) => [(INFO, MDatosCsv (length (rows df)))]
       | Some (Raise e) => [(ERROR, MErrorExtrayendo e)]
       | None => [(WARNING, MCsvNoEncontrado); (INFO, MExtrayendo "sample");
                  (INFO, MDatosEjemplo (length (rows sample_data)))]
       end
     else [(ERROR, MFuenteNoSoportada)].

(** The log lines of a run up to the load. *)
Definition before_load (env : Env) (source_type : string) (raw_df : DataFrame) : Log :=
  [(INFO, MInicio); (INFO, MConexionEstablecida); (INFO, MFase 1)]
  ++ extract_log env source_type ++ [(INFO, MFase 2)] ++ transform_log raw_df
  ++ [(INFO, MFase 3)].

(** ** Example batches and stores *)

(** The batch a successful transformation returns (an empty frame stands for
    a failed one). *)
Definition transformed (raw_df : DataFrame) : DataFrame :=
  match transform_frame raw_df with
  | Ok df => df
  | Raise _ => mkDataFrame [] []
  end.

Definition frame_of (batch : list Row) : DataFrame := mkDataFrame sample_columns batch.

Definition ap001 : Row :=
  sample_row "AP001" "Filtro Aceite Toyota Corolla" "FT-123" "Filtros" 850 1200
    "AutoParts Supply" 25 10 "A1-02".

(** A second row with the SKU of [ap001], and other data. *)
Definition ap001_bis : Row :=
  sample_row "AP001" "Filtro Aceite Genérico" "FT-999" "Filtros" 700 900
    "MotorTech" 3 10 "Z9-01".

Definition ap002 : Row :=
  sample_row "AP002" "Pastillas Freno Delanteras Nissan" "PB-456" "Frenos" 4500 6500
    "Brake Systems MX" 12 5 "B2-15".

(** One duplicated SKU, and the same SKU three times. *)
Definition one_duplicate : DataFrame := frame_of [ap001; ap002; ap001_bis].
Definition two_duplicates : DataFrame := frame_of [ap001; ap001_bis; ap001_bis].

(** A part bought for nothing and sold for 12.00. *)
Definition zero_cost : DataFrame :=
  frame_of [sample_row "AP007" "Tapón Cárter" "TC-001" "Motor" 0 1200
              "AutoParts Supply" 4 2 "D1-01"].

(** A batch that lacks the [sku] and [nombre] columns. *)
Definition without_sku_nombre : DataFrame :=
  mkDataFrame
    ["numero_parte"; "categoria"; "precio_compra"; "precio_venta"; "proveedor";
     "stock_actual"; "stock_minimo"; "ubicacion"]
    [delete "sku" (delete "nombre" ap001)].

(** A batch that lacks the [nombre] and [stock_minimo] columns only. *)
Definition without_nombre_minimo : DataFrame :=
  mkDataFrame
    ["sku"; "numero_parte"; "categoria"; "precio_compra"; "precio_venta"; "proveedor";
     "stock_actual"; "ubicacion"]
    [delete "nombre" (delete "stock_minimo" ap001)].

(** A schema: rows are active by default, [updated_at] defaults to the
    current time, and names are ordered byte by byte. *)
Definition example_ddl : Schema := mkSchema true (fun ts => ts) String.leb.

(** A store with lookup tables and no products.  The category [Motor] has
    the id 0. *)
Definition empty_store : Store :=
  mkStore example_ddl
    [(1, "Filtros"); (2, "Frenos"); (0, "Motor")]
    [(1, "AutoParts Supply"); (2, "MotorTech")]
    ∅ ∅.

(** A new connection to [s] at time [ts], on which the store raises at the
    statements numbered in [failing]. *)
Definition connect (s : Store) (ts : Z) (failing : list nat) : Conn :=
  mkConn s s 0 (fun n => bool_decide (n ∈ failing)) ts [].

(** The store raises on the product upsert of the fourth record: statements
    0 and 1 are the two lookups, 2 and 3 belong to the first record, and so
    on. *)
Definition fourth_record_fails : Conn := connect empty_store 100 [8%nat].

Definition env_of (c : Conn) : Env := mkEnv (Ok c) None.

(** The store a run leaves behind (the initial one if it could not
    connect). *)
Definition store_after (run : Etl * result bool) (initial : Store) : Store :=
  match connection (fst run) with
  | Some c => committed c
  | None => initial
  end.

(** The sample run, and a second run an hour later on what it left. *)
Definition first_run : Etl * result bool :=
  run_etl_pipeline (env_of (connect empty_store 100 [])) "sample" new_etl.

Definition second_run : Etl * result bool :=
  run_etl_pipeline (env_of (connect (store_after first_run empty_store) 3700 [])) "sample" new_etl.



Definition motor_part : Row :=
  sample_row "AP009" "Correa Distribución" "CD-001" "Motor" 2000 3100 "MotorTech" 9 3 "E1-02".

Definition motor_part_params : RowParams :=
  mkRowParams (VStr "Motor") (VStr "MotorTech") "AP009" "Correa Distribución" "CD-001"
    (F64.dec 2000 2) (F64.dec 3100 2) 9 3 12 "E1-02".

(** A store that already holds [AP001], under other data. *)
Definition stocked_store : Store :=
  mkStore example_ddl
    [(1, "Filtros"); (2, "Frenos"); (0, "Motor")]
    [(1, "AutoParts Supply"); (2, "MotorTech")]
    {[ "AP001" := mkProducto "Filtro viejo" "OLD-1" 2 2 (F64.dec 100 2) (F64.dec 200 2) 6 false 5 ]}
    {[ "AP001" := mkInventario 1 1 99 "OLD" 5 ]}.

(** A store for the report: two parts tie at a stock of 3, one is out of
    stock, one is well stocked, one is low but inactive, and one has no
    inventory row. *)
Definition report_store : Store :=
  mkStore example_ddl [] []
    (list_to_map
       [("P1", mkProducto "B" "" 1 1 F64.zero F64.zero 12 true 0);
        ("P2", mkProducto "A" "" 1 1 F64.zero F64.zero 12 true 0);
        ("P3", mkProducto "C" "" 1 1 F64.zero F64.zero 12 true 0);
        ("P4", mkProducto "D" "" 1 1 F64.zero F64.zero 12 true 0);
        ("P5", mkProducto "E" "" 1 1 F64.zero F64.zero 12 false 0);
        ("P6", mkProducto "F" "" 1 1 F64.zero F64.zero 12 true 0)])
    (list_to_map
       [("P1", mkInventario 3 5 20 "A1" 0);
        ("P2", mkInventario 3 3 12 "A2" 0);
        ("P3", mkInventario 0 2 8 "A3" 0);
        ("P4", mkInventario 9 1 4 "A4" 0);
        ("P5", mkInventario 1 4 16 "A5" 0)]).

(** The row is sold at or below its purchase price. *)
Definition below_cost (r : Row) : bool :=
  match precio_invalido r with
  | Ok b => b
  | Raise _ => false
  end.

(** Two parts priced at or below their cost, beside a regular one. *)
Definition sold_at_loss : DataFrame :=
  frame_of [ap001;
            sample_row "AP010" "Liquidación" "LQ-001" "Filtros" 1000 900 "MotorTech" 5 2 "F1-01";
            sample_row "AP011" "Al costo" "AC-001" "Filtros" 500 500 "MotorTech" 5 2 "F1-02"].

(** The sample batch as the transformation hands it to the load. *)
Definition sample_batch : DataFrame := transformed sample_data.

(** A load of the sample batch into the empty store, and a second load an
    hour later on what the first committed. *)
Definition first_load : Etl * result bool :=
  load_to_database sample_batch (mkEtl (Some (connect empty_store 100 [])) []).

Definition second_load : Etl * result bool :=
  load_to_database sample_batch
    (mkEtl (Some (connect (store_after first_load empty_store) 3700 [])) []).

(** A load of [AP001] into a store that already holds it. *)
Definition update_load : Etl * result bool :=
  load_to_database (transformed (frame_of [ap001]))
    (mkEtl (Some (connect stocked_store 100 [])) []).

(** The rows the report query answers with on the store [s]. *)
Definition report_of (s : Store) : list ReportRow :=
  merge_sort (report_order (ddl s)) (low_stock s).

(** What the report call returns and logs on the connection [c]. *)
Definition report_outcome (c : Conn) : option (list ReportRow) * Log :=
  if faults c (executed c)
  then (None, [(ERROR, MErrorReporte (DatabaseError (executed c)))])
  else (Some (report_of (pending c)), []).

Definition item_line (item : ReportRow) : LogEntry :=
  (INFO, MItem (r_sku item) (r_nombre item) (r_stock_actual item) (r_stock_minimo item)
           (r_ubicacion item)).

Definition is_item (entry : LogEntry) : bool :=
  match snd entry with
  | MItem _ _ _ _ _ => true
  | _ => false
  end.

(** The lines the run writes about the report it got. *)
Definition reporte_lines (reporte : option (list ReportRow)) : Log :=
  match reporte with
  | Some (item :: items) =>
      [(INFO, MStockCritico (length (item :: items))); (INFO, MAtencionInmediata)]
      ++ (item_line <$> take 5 (item :: items))
      ++ (if decide (5 < length (item :: items))%nat
          then [(INFO, MProductosMas (length (item :: items) - 5))] else [])
  | _ => [(INFO, MSinStockCritico)]
  end.

(** A run on the connection [c] gets as far as a load that the store
    accepts: the source yields a batch, the transformation accepts it, every
    row binds well-typed parameters, and the store raises on none of the
    statements of the load. *)
Definition loadable (env : Env) (source_type : string) (c : Conn) (batch : list RowParams) : Prop :=
  exists raw df,
    extract_frame env source_type = Some raw /\ transform_frame raw = Ok df
    /\ for_each row_params (rows df) = Ok batch
    /\ forall k, (k < 2 + 2 * length (rows df))%nat -> faults c (executed c + k) = false.

(** The sample run on a store that raises on statement 14, the report
    query. *)
Definition report_fails : Conn := connect empty_store 100 [14%nat].

(** The parameters the rows of the sample batch bind. *)
Definition sample_params : list RowParams :=
  match for_each row_params (rows sample_batch) with
  | Ok batch => batch
  | Raise _ => []
  end.


(** Every inventory row belongs to a product. *)
Definition inventory_has_products (s : Store) : Prop :=
  forall k, is_Some (inventario s !! k) -> is_Some (productos s !! k).



(** The levels from the most to the least urgent. *)
Definition nivel_rank (n : NivelStock) : nat :=
  match n with
  | SIN_STOCK => 0
  | CRITICO => 1
  | BAJO => 2
  | NORMAL => 3
  end.

(** * Lemmas *)

(** ** The monad *)

Lemma mbind_M {A B} (m : M A) (k : A -> M B) self :
  (m ≫= k) self = match m self with
                  | (self', Ok a) => k a self'
                  | (self', Raise e) => (self', Raise e)
                  end.
Proof. reflexivity. Qed.

Lemma logged_logged self l1 l2 : logged (logged self l1) l2 = logged self (l1 ++ l2).
Proof. unfold logged. cbn. by rewrite <- (assoc_L (++)). Qed.

Lemma logged_nil self : logged self [] = self.
Proof. destruct self. unfold logged. cbn. by rewrite app_nil_r. Qed.

Lemma log_eq l m self : log l m self = (logged self [(l, m)], Ok tt).
Proof. reflexivity. Qed.

(** ** Transformation: the method computes [transform_frame] *)

Lemma drop_from_no_dup label seen (l : list Row) :
  existsb id (duplicated_from seen ((fun r : Row => r !! label) <$> l)) = false ->
  drop_from label seen l = l.
Proof.
  revert seen. induction l as [|r l IH]; intros seen H; simpl in *; [done|].
  apply orb_false_iff in H as [H1 H2].
  unfold id in H1. apply bool_decide_eq_false in H1.
  destruct (decide _); [done|]. f_equal. by apply IH.
Qed.

Lemma drop_duplicates_no_dup df label :
  has_duplicates df label = false -> drop_duplicates df label = df.
Proof.
  intros H. unfold drop_duplicates. rewrite drop_from_no_dup by exact H. by destruct df.
Qed.

Lemma transform_body_eq raw self :
  transform_body raw self =
    (logged self
       ((if decide ("sku" ∈ columns raw) then
           if has_duplicates raw "sku" then [(WARNING, MSkusDuplicados)] else []
         else [])
        ++ match transform_frame raw with
           | Ok df =>
               (if decide (invalid_prices df = 0%nat) then []
                else [(WARNING, MPreciosInvalidos (invalid_prices df))])
               ++ [(INFO, MTransformacionCompletada)]
           | Raise e => []
           end),
     Some <$> transform_frame raw).
Proof.
  unfold transform_body, transform_frame. rewrite mbind_M. unfold lift at 1, frame_column.
  destruct (decide ("sku" ∈ columns raw)) as [Hsku|].
  2:{ cbn. by rewrite logged_nil. }
  rewrite mbind_M. fold (has_duplicates raw "sku").
  assert (Hdf1 :
     (if has_duplicates raw "sku"
      then log WARNING MSkusDuplicados ≫= (fun _ => mret (drop_duplicates raw "sku"))
      else mret raw) self
     = (logged self (if has_duplicates raw "sku" then [(WARNING, MSkusDuplicados)] else []),
        Ok (drop_duplicates raw "sku"))).
  { destruct (has_duplicates raw "sku") eqn:Hd.
    - reflexivity.
    - cbn. by rewrite logged_nil, drop_duplicates_no_dup. }
  rewrite Hdf1. clear Hdf1.
  set (dup := if has_duplicates raw "sku" then _ else _).
  set (df1 := drop_duplicates raw "sku").
  cbn [mbind result_bind].
  rewrite mbind_M.
  destruct (decide (filter (fun col => col ∉ columns df1) required_columns = [])) as [Hreq|].
  2:{ cbn. by rewrite app_nil_r. }
  cbn [mret M_ret]. rewrite mbind_M. unfold lift at 1.
  destruct (for_each margen_ganancia _) as [margenes|] eqn:Hm.
  2:{ cbn. by rewrite app_nil_r. }
  rewrite mbind_M. unfold lift at 1. cbn [mbind result_bind].
  destruct (for_each nivel_stock _) as [niveles|] eqn:Hn.
  2:{ cbn. by rewrite app_nil_r. }
  rewrite mbind_M. unfold lift at 1. cbn [mbind result_bind].
  set (df3 := assign_column _ "nivel_stock" niveles).
  destruct (for_each precio_invalido _) as [invalidos|] eqn:Hi.
  2:{ cbn. by rewrite app_nil_r. }
  cbn [mbind result_bind fmap result_fmap].
  unfold invalid_prices. rewrite Hi.
  rewrite mbind_M.
  destruct (decide (count_true invalidos = 0%nat)); cbn [mret M_ret];
    rewrite ?log_eq, ?mbind_M, ?log_eq, ?logged_logged; cbn [mret M_ret]; try done.
Qed.

Lemma transform_product_data_eq raw self :
  transform_product_data raw self =
    (logged self (transform_log raw),
     Ok (match transform_frame raw with Ok df => Some df | Raise _ => None end)).
Proof.
  unfold transform_product_data. rewrite mbind_M, log_eq. unfold try_except.
  rewrite transform_body_eq, logged_logged. unfold transform_log.
  destruct (transform_frame raw) as [df|e]; cbn [fmap result_fmap].
  - done.
  - rewrite mbind_M, log_eq, logged_logged. cbn [mret M_ret].
    by rewrite app_nil_r, <- (assoc_L (++)).
Qed.

(** ** Comprehensions *)

Lemma for_each_cons {A B} (f : A -> result B) a l :
  for_each f (a :: l) = b ← f a; bs ← for_each f l; Ok (b :: bs).
Proof. reflexivity. Qed.

Lemma for_each_Forall2 {A B} (f : A -> result B) l l' :
  for_each f l = Ok l' <-> Forall2 (fun a b => f a = Ok b) l l'.
Proof.
  split.
  - revert l'. induction l as [|a l IH]; intros l' H; simpl in H.
    + inversion H. constructor.
    + destruct (f a) as [b|e] eqn:Hfa; simpl in H; [|discriminate].
      destruct (for_each f l) as [bs|e] eqn:Hl; simpl in H; [|discriminate].
      inversion H; subst. constructor; auto.
  - induction 1 as [|a b l l' Hab _ IH]; [done|].
    simpl. rewrite Hab. simpl. rewrite IH. done.
Qed.

Lemma for_each_length {A B} (f : A -> result B) l l' :
  for_each f l = Ok l' -> length l' = length l.
Proof. intros H%for_each_Forall2. symmetry. by eapply Forall2_length. Qed.

(** ** Deduplication *)

Section drop.
Variable label : string.
Local Abbreviation key := (fun r : Row => r !! label).

Lemma drop_from_sublist seen (l : list Row) : sublist (drop_from label seen l) l.
Proof.
  revert seen. induction l as [|r l IH]; intros seen; simpl; [constructor|].
  destruct (decide _); [apply sublist_cons | apply sublist_skip]; apply IH.
Qed.

Lemma drop_from_elem seen (l : list Row) r :
  r ∈ drop_from label seen l -> r ∈ l /\ key r ∉ seen.
Proof.
  revert seen. induction l as [|a l IH]; intros seen; simpl; [by intros ?%elem_of_nil|].
  destruct (decide _) as [Hin|Hnin].
  - intros [? ?]%IH. split; [by right | done].
  - intros [->|[? Hs]%IH]%elem_of_cons.
    + split; [by left | done].
    + split; [by right|]. intros ?. apply Hs. by right.
Qed.

Lemma drop_from_NoDup seen (l : list Row) : NoDup (key <$> drop_from label seen l).
Proof.
  revert seen. induction l as [|a l IH]; intros seen; simpl; [constructor|].
  destruct (decide _); [apply IH|].
  simpl. constructor; [|apply IH].
  intros (r & Hk & Hr%drop_from_elem)%list_elem_of_fmap.
  destruct Hr as [_ Hr]. apply Hr. rewrite <- Hk. by left.
Qed.

(** Every key of the input that is not already seen survives. *)
Lemma drop_from_keeps seen (l : list Row) r :
  r ∈ l -> key r ∉ seen -> exists r', r' ∈ drop_from label seen l /\ key r' = key r.
Proof.
  revert seen. induction l as [|a l IH]; intros seen; [by intros ?%elem_of_nil|].
  intros Hr Hs. simpl. destruct (decide (a !! label ∈ seen)) as [Hin|Hnin].
  - apply elem_of_cons in Hr as [->|Hr]; [done|]. by apply IH.
  - destruct (decide (key a = key r)) as [Heq|Hne].
    + exists a. split; [by left | done].
    + apply elem_of_cons in Hr as [->|Hr]; [done|].
      destruct (IH (key a :: seen) Hr) as (r' & ? & ?).
      * intros [?|?]%elem_of_cons; [by apply Hne|done].
      * exists r'. split; [by right | done].
Qed.

(** A surviving row is the first of the input with its key. *)
Lemma drop_from_first seen (l : list Row) r :
  r ∈ drop_from label seen l ->
  exists i, l !! i = Some r /\
    forall j r2, l !! j = Some r2 -> key r2 = key r -> (i <= j)%nat.
Proof.
  revert seen. induction l as [|a l IH]; intros seen; simpl; [by intros ?%elem_of_nil|].
  destruct (decide (a !! label ∈ seen)) as [Hin|Hnin].
  - intros Hr. destruct (drop_from_elem _ _ _ Hr) as [_ Hs].
    destruct (IH _ Hr) as (i & Hi & Hfirst). exists (S i). split; [done|].
    intros [|j] r2 Hj Hk; simpl in Hj.
    + inversion Hj; subst. rewrite Hk in Hin. done.
    + apply Hfirst in Hj; [lia | done].
  - intros [->|Hr]%elem_of_cons.
    + exists 0%nat. split; [done|]. intros; lia.
    + destruct (drop_from_elem _ _ _ Hr) as [_ Hs].
      destruct (IH _ Hr) as (i & Hi & Hfirst). exists (S i). split; [done|].
      intros [|j] r2 Hj Hk; simpl in Hj.
      * inversion Hj; subst. exfalso. apply Hs. rewrite Hk. by left.
      * apply Hfirst in Hj; [lia | done].
Qed.

Lemma duplicated_from_false seen (l : list Row) :
  existsb id (duplicated_from seen (key <$> l)) = false <-> drop_from label seen l = l.
Proof.
  split; [apply drop_from_no_dup|].
  revert seen. induction l as [|a l IH]; intros seen; simpl; [done|].
  destruct (decide (a !! label ∈ seen)) as [Hin|Hnin].
  - intros Heq. pose proof (sublist_length _ _ (drop_from_sublist seen l)) as Hlen.
    rewrite Heq in Hlen. simpl in Hlen. lia.
  - intros [= Heq]. apply orb_false_iff. split; [|by apply IH].
    unfold id. by apply bool_decide_eq_false.
Qed.

Lemma drop_from_length_eq seen (l : list Row) :
  length (drop_from label seen l) = length l -> drop_from label seen l = l.
Proof.
  revert seen. induction l as [|a l IH]; intros seen; simpl; [done|].
  destruct (decide (a !! label ∈ seen)) as [Hin|Hnin].
  - intros Heq. pose proof (sublist_length _ _ (drop_from_sublist seen l)). lia.
  - simpl. intros [= Heq]. f_equal. by apply IH.
Qed.

Lemma drop_from_idem seen (l : list Row) :
  drop_from label seen (drop_from label seen l) = drop_from label seen l.
Proof.
  revert seen. induction l as [|a l IH]; intros seen; simpl; [done|].
  destruct (decide (a !! label ∈ seen)) as [Hin|Hnin]; [apply IH|].
  simpl. destruct (decide _); [done|]. f_equal. apply IH.
Qed.
End drop.

Lemma has_duplicates_dropped df :
  has_duplicates df "sku" = true <-> dropped_duplicates df <> 0%nat.
Proof.
  unfold dropped_duplicates, drop_duplicates. cbn [rows].
  pose proof (drop_from_sublist "sku" [] (rows df)) as Hsub.
  pose proof (sublist_length _ _ Hsub) as Hlen.
  destruct (has_duplicates df "sku") eqn:Hd.
  - split; [intros _|done]. intros Hz.
    assert (Heq : drop_from "sku" [] (rows df) = rows df).
    { apply drop_from_length_eq. lia. }
    apply duplicated_from_false in Heq. unfold has_duplicates, duplicated in Hd. congruence.
  - split; [done|]. intros Hz. exfalso. apply Hz.
    apply drop_from_no_dup in Hd. rewrite Hd. lia.
Qed.

(** ** Transformation, row by row *)

Lemma row_item_insert_ne (r : Row) l l' v : l <> l' -> row_item (set_cell l r v) l' = row_item r l'.
Proof. intros H. unfold row_item, set_cell. by rewrite lookup_insert_ne. Qed.

Lemma margen_ganancia_insert (r : Row) l v :
  l <> "precio_venta" -> l <> "precio_compra" ->
  margen_ganancia (set_cell l r v) = margen_ganancia r.
Proof. intros. unfold margen_ganancia. by rewrite !row_item_insert_ne. Qed.

Lemma nivel_stock_insert (r : Row) l v :
  l <> "stock_actual" -> l <> "stock_minimo" ->
  nivel_stock (set_cell l r v) = nivel_stock r.
Proof. intros. unfold nivel_stock. by rewrite !row_item_insert_ne. Qed.

Lemma precio_invalido_insert (r : Row) l v :
  l <> "precio_venta" -> l <> "precio_compra" ->
  precio_invalido (set_cell l r v) = precio_invalido r.
Proof. intros. unfold precio_invalido. by rewrite !row_item_insert_ne. Qed.


Lemma columns_rows_of_transform (l : list Row) margenes niveles :
  for_each margen_ganancia l = Ok margenes ->
  for_each nivel_stock (zip_with (set_cell "margen_ganancia") l margenes) = Ok niveles ->
  for_each transform_row l
  = Ok (zip_with (set_cell "nivel_stock") (zip_with (set_cell "margen_ganancia") l margenes) niveles).
Proof.
  revert margenes niveles. induction l as [|r l IH]; intros ms ns Hm Hn.
  - simpl in Hm. inversion Hm; subst. simpl in Hn. inversion Hn. done.
  - rewrite for_each_cons in Hm. destruct (margen_ganancia r) as [m|] eqn:Hmr; [|done].
    cbn [mbind result_bind] in Hm.
    destruct (for_each margen_ganancia l) as [ms'|] eqn:Hml; [|done].
    cbn [mbind result_bind] in Hm. inversion Hm; subst ms. clear Hm.
    cbn [zip_with] in Hn. rewrite for_each_cons, nivel_stock_insert in Hn by done.
    destruct (nivel_stock r) as [n|] eqn:Hnr; [|done]. cbn [mbind result_bind] in Hn.
    destruct (for_each nivel_stock _) as [ns'|] eqn:Hnl; [|done].
    cbn [mbind result_bind] in Hn. inversion Hn; subst ns. clear Hn.
    assert (Hr : transform_row r = Ok (set_cell "nivel_stock" (set_cell "margen_ganancia" r m) n)).
    { unfold transform_row. by rewrite Hmr, Hnr. }
    rewrite for_each_cons, Hr. cbn [mbind result_bind]. by rewrite (IH ms' ns').
Qed.


Lemma add_column_incl cols label c : c ∈ cols -> c ∈ add_column cols label.
Proof. unfold add_column. case_decide; set_solver. Qed.

Lemma add_column_elem cols label : label ∈ add_column cols label.
Proof. unfold add_column. case_decide; set_solver. Qed.

Lemma filter_missing_nil (cols : list string) (req : list string) :
  filter (fun col => col ∉ cols) req = [] <-> Forall (fun col => col ∈ cols) req.
Proof.
  induction req as [|c req IH]; [by split; [constructor|]|].
  rewrite filter_cons. destruct (decide (c ∉ cols)) as [Hn|Hin].
  - split; [done|]. intros [? ?]%Forall_cons. done.
  - rewrite IH, Forall_cons. apply dec_stable in Hin. tauto.
Qed.

(** What a successful transformation returns. *)
Lemma transform_frame_ok raw out :
  transform_frame raw = Ok out ->
  "sku" ∈ columns raw
  /\ Forall (fun col => col ∈ columns raw) required_columns
  /\ columns out = add_column (add_column (columns raw) "margen_ganancia") "nivel_stock"
  /\ for_each transform_row (rows (drop_duplicates raw "sku")) = Ok (rows out)
  /\ exists invalidos, for_each precio_invalido (rows out) = Ok invalidos.
Proof.
  unfold transform_frame, frame_column.
  destruct (decide ("sku" ∈ columns raw)) as [Hsku|]; [|done].
  cbn [mbind result_bind].
  destruct (decide _) as [Hreq|]; [|done].
  destruct (for_each margen_ganancia _) as [margenes|] eqn:Hm; [|done].
  cbn [mbind result_bind].
  destruct (for_each nivel_stock _) as [niveles|] eqn:Hn; [|done].
  cbn [mbind result_bind].
  destruct (for_each precio_invalido _) as [invalidos|] eqn:Hi; [|done].
  cbn [mbind result_bind]. intros [= <-].
  split; [done|]. split; [by apply filter_missing_nil|]. split; [done|].
  split; [|by eauto].
  cbn [rows assign_column drop_duplicates] in *.
  by apply columns_rows_of_transform.
Qed.

Lemma precio_invalido_defined (r : Row) m :
  margen_ganancia r = Ok m -> exists b, precio_invalido r = Ok b.
Proof.
  unfold margen_ganancia, precio_invalido.
  destruct (row_item r "precio_venta") as [v|]; [|done]. cbn [mbind result_bind].
  destruct (row_item r "precio_compra") as [c|]; [|done]. cbn [mbind result_bind].
  destruct (as_float v); [|done]. cbn [mbind result_bind].
  destruct (as_float c); [|done]. cbn [mbind result_bind]. eauto.
Qed.

Lemma rows_columns_of_transform (l : list Row) rs :
  for_each transform_row l = Ok rs ->
  exists margenes niveles invalidos,
    for_each margen_ganancia l = Ok margenes
    /\ for_each nivel_stock (zip_with (set_cell "margen_ganancia") l margenes) = Ok niveles
    /\ rs = zip_with (set_cell "nivel_stock")
              (zip_with (set_cell "margen_ganancia") l margenes) niveles
    /\ for_each precio_invalido rs = Ok invalidos.
Proof.
  revert rs. induction l as [|r l IH]; intros rs H.
  - inversion H. by exists [], [], [].
  - rewrite for_each_cons in H.
    destruct (transform_row r) as [r'|] eqn:Hr; [|done]. cbn [mbind result_bind] in H.
    destruct (for_each transform_row l) as [rs'|] eqn:Hl; [|done].
    cbn [mbind result_bind] in H. inversion H; subst rs. clear H.
    unfold transform_row in Hr.
    destruct (margen_ganancia r) as [m|] eqn:Hmr; [|done]. cbn [mbind result_bind] in Hr.
    destruct (nivel_stock r) as [n|] eqn:Hnr; [|done]. cbn [mbind result_bind] in Hr.
    inversion Hr; subst r'. clear Hr.
    destruct (IH rs' eq_refl) as (ms & ns & inv & Hm & Hn & -> & Hi).
    destruct (precio_invalido_defined r m Hmr) as [b Hb].
    exists (m :: ms), (n :: ns), (b :: inv).
    rewrite !for_each_cons, Hmr, Hm. cbn [mbind result_bind zip_with].
    rewrite !for_each_cons, nivel_stock_insert, Hnr, Hn by done. cbn [mbind result_bind].
    rewrite !precio_invalido_insert, Hb, Hi by done. done.
Qed.

(** When a transformation succeeds. *)
Lemma transform_frame_intro raw rs :
  "sku" ∈ columns raw ->
  Forall (fun col => col ∈ columns raw) required_columns ->
  for_each transform_row (rows (drop_duplicates raw "sku")) = Ok rs ->
  transform_frame raw
  = Ok (mkDataFrame (add_column (add_column (columns raw) "margen_ganancia") "nivel_stock") rs).
Proof.
  intros Hsku Hreq (ms & ns & inv & Hm & Hn & -> & Hi)%rows_columns_of_transform.
  unfold transform_frame, frame_column.
  destruct (decide ("sku" ∈ columns raw)); [|done]. cbn [mbind result_bind].
  destruct (decide _) as [|Hmiss]; [|by apply filter_missing_nil in Hreq].
  rewrite Hm. cbn [mbind result_bind]. cbn [rows assign_column drop_duplicates] in *.
  rewrite Hn. cbn [mbind result_bind]. rewrite Hi. done.
Qed.

Lemma transform_row_sku (r r' : Row) : transform_row r = Ok r' -> r' !! "sku" = r !! "sku".
Proof.
  unfold transform_row.
  destruct (margen_ganancia r); [|done]. cbn [mbind result_bind].
  destruct (nivel_stock r); [|done]. cbn [mbind result_bind].
  intros [= <-]. unfold set_cell. by rewrite !lookup_insert_ne.
Qed.

Lemma transform_row_fixpoint (r r' : Row) : transform_row r = Ok r' -> transform_row r' = Ok r'.
Proof.
  unfold transform_row at 1.
  destruct (margen_ganancia r) as [m|] eqn:Hm; [|done]. cbn [mbind result_bind].
  destruct (nivel_stock r) as [n|] eqn:Hn; [|done]. cbn [mbind result_bind].
  intros [= <-]. unfold transform_row.
  rewrite !margen_ganancia_insert, Hm by done. cbn [mbind result_bind].
  rewrite !nivel_stock_insert, Hn by done. cbn [mbind result_bind].
  f_equal. unfold set_cell.
  rewrite (insert_id (<["nivel_stock":=n]> _) "margen_ganancia" m).
  - by rewrite insert_insert_eq.
  - rewrite lookup_insert_ne by done. by rewrite lookup_insert_eq.
Qed.

Lemma transform_rows_keys (l rs : list Row) :
  for_each transform_row l = Ok rs ->
  (fun r : Row => r !! "sku") <$> rs = (fun r : Row => r !! "sku") <$> l.
Proof.
  intros H%for_each_Forall2. induction H as [|r r' l rs Hr _ IH]; [done|].
  cbn [fmap list_fmap]. f_equal; [by apply transform_row_sku | done].
Qed.

Lemma transform_rows_fixpoint (l rs : list Row) :
  for_each transform_row l = Ok rs -> for_each transform_row rs = Ok rs.
Proof.
  intros H%for_each_Forall2. apply for_each_Forall2.
  induction H as [|r r' l rs Hr _ IH]; constructor; [by eapply transform_row_fixpoint | done].
Qed.

Lemma drop_from_keys label seen (l1 l2 : list Row) :
  (fun r : Row => r !! label) <$> l1 = (fun r : Row => r !! label) <$> l2 ->
  drop_from label seen l1 = l1 -> drop_from label seen l2 = l2.
Proof.
  intros Hk H1%duplicated_from_false. apply duplicated_from_false. by rewrite <- Hk.
Qed.

Lemma add_column_id cols label : label ∈ cols -> add_column cols label = cols.
Proof. intros. unfold add_column. by rewrite decide_True. Qed.

(** Transforming a transformed batch changes nothing. *)
Lemma transform_frame_idempotent raw out :
  transform_frame raw = Ok out -> transform_frame out = Ok out.
Proof.
  intros (Hsku & Hreq & Hcols & Hrows & _)%transform_frame_ok.
  assert (Hincl : forall c, c ∈ columns raw -> c ∈ columns out).
  { intros c Hc. rewrite Hcols. by do 2 apply add_column_incl. }
  assert (Hdrop : drop_duplicates out "sku" = out).
  { unfold drop_duplicates. destruct out as [cols rs]. cbn [columns rows] in *. f_equal.
    eapply drop_from_keys; [symmetry; by eapply transform_rows_keys|].
    cbn [drop_duplicates rows]. apply drop_from_idem. }
  assert (Hm : "margen_ganancia" ∈ columns out).
  { rewrite Hcols. apply add_column_incl, add_column_elem. }
  assert (Hn : "nivel_stock" ∈ columns out).
  { rewrite Hcols. apply add_column_elem. }
  rewrite (transform_frame_intro out (rows out)).
  - rewrite (add_column_id _ "margen_ganancia") by done.
    rewrite (add_column_id _ "nivel_stock") by done. by destruct out.
  - by apply Hincl.
  - eapply Forall_impl; [exact Hreq|]. intros c. apply Hincl.
  - rewrite Hdrop. by eapply transform_rows_fixpoint.
Qed.

(** ** Transformation: what a returned batch holds *)

Lemma transform_product_data_ok raw self self' out :
  transform_product_data raw self = (self', Ok (Some out)) ->
  transform_frame raw = Ok out /\ self' = logged self (transform_log raw).
Proof.
  rewrite transform_product_data_eq. intros [= <- H].
  destruct (transform_frame raw); by inversion H.
Qed.

Lemma transform_row_cells (r r' : Row) :
  transform_row r = Ok r' ->
  exists venta compra pv pc actual minimo,
    r' !! "precio_venta" = Some venta /\ r' !! "precio_compra" = Some compra
    /\ as_float venta = Ok pv /\ as_float compra = Ok pc
    /\ r' !! "margen_ganancia" = Some (VFloat (margen pv pc))
    /\ r' !! "stock_actual" = Some (VInt actual) /\ r' !! "stock_minimo" = Some (VInt minimo)
    /\ r' !! "nivel_stock" = Some (VStr (nivel_label (categorizar_stock actual minimo))).
Proof.
  unfold transform_row, margen_ganancia, nivel_stock, row_item.
  destruct (r !! "precio_venta") as [venta|] eqn:Hv; [|done]. cbn [mbind result_bind].
  destruct (r !! "precio_compra") as [compra|] eqn:Hc; [|done]. cbn [mbind result_bind].
  destruct (as_float venta) as [pv|] eqn:Hpv; [|done]. cbn [mbind result_bind].
  destruct (as_float compra) as [pc|] eqn:Hpc; [|done]. cbn [mbind result_bind].
  destruct (r !! "stock_actual") as [a|] eqn:Ha; [|done]. cbn [mbind result_bind].
  destruct (r !! "stock_minimo") as [m|] eqn:Hm; [|done]. cbn [mbind result_bind].
  destruct a as [actual| |]; try done. destruct m as [minimo| |]; try done.
  cbn [as_int mbind result_bind]. intros [= <-].
  exists venta, compra, pv, pc, actual, minimo. unfold set_cell.
  repeat split; by simplify_map_eq.
Qed.

Lemma transform_rows_elem (l rs : list Row) r' :
  for_each transform_row l = Ok rs -> r' ∈ rs -> exists r, r ∈ l /\ transform_row r = Ok r'.
Proof.
  intros H%for_each_Forall2 Hr'.
  induction H as [|r r2 l rs Hr _ IH]; [by apply elem_of_nil in Hr'|].
  apply elem_of_cons in Hr' as [->|Hr'].
  - exists r. split; [by left | done].
  - destruct (IH Hr') as (r0 & ? & ?). exists r0. split; [by right | done].
Qed.

Lemma transformed_row_cells raw self self' out r' :
  transform_product_data raw self = (self', Ok (Some out)) -> r' ∈ rows out ->
  exists r, r ∈ rows (drop_duplicates raw "sku") /\ transform_row r = Ok r'.
Proof.
  intros [(_ & _ & _ & Hrows & _)%transform_frame_ok _]%transform_product_data_ok Hr'.
  by eapply transform_rows_elem.
Qed.



(** Below zero the first comparison still decides: a negative stock is
    critical, not normal. *)
Remark categorizar_stock_negative : categorizar_stock (-1) 5 = CRITICO.
Proof. reflexivity. Qed.

(** ** The margin *)

Lemma margen_zero_cost pv s : margen pv (S754_zero s) = margen_sin_costo pv s.
Proof. destruct pv as [[]|[]| |[] m e], s; reflexivity. Qed.

Lemma transform_log_entries raw out :
  transform_frame raw = Ok out ->
  Forall (fun entry : LogEntry =>
            entry = (INFO, MTransformando) \/ entry = (WARNING, MSkusDuplicados)
            \/ entry = (WARNING, MPreciosInvalidos (invalid_prices out))
            \/ entry = (INFO, MTransformacionCompletada))
         (transform_log raw).
Proof.
  intros H. unfold transform_log. rewrite H.
  repeat (apply Forall_app; split); repeat case_decide; try destruct (has_duplicates raw "sku");
    repeat constructor; tauto.
Qed.

(** C4 (amended).  Every row of a transformed batch holds
    [((venta - compra) / compra * 100).round(2)] in binary64, the rounding
    being numpy's (scale by 100, round half to even, scale back).  A purchase
    price of zero is not flagged: the transformation succeeds all the same,
    logs nothing about it (its lines are the four listed, none of which
    mentions it), and the margin it stores is the quotient by zero, an
    infinity or NaN. *)
Theorem margen_ganancia_is_rounded_quotient raw self self' out r :
  transform_product_data raw self = (self', Ok (Some out)) -> r ∈ rows out ->
  exists pv pc,
    row_item r "precio_venta" ≫= as_float = Ok pv
    /\ row_item r "precio_compra" ≫= as_float = Ok pc
    /\ r !! "margen_ganancia"
       = Some (VFloat (F64.np_round
                         (F64.mul (F64.div (F64.sub pv pc) pc) (F64.of_Z 100)) 2))
    /\ (forall s, pc = S754_zero s ->
          r !! "margen_ganancia" = Some (VFloat (margen_sin_costo pv s)))
    /\ logger self' = logger self ++ transform_log raw
    /\ Forall (fun entry : LogEntry =>
                 entry = (INFO, MTransformando) \/ entry = (WARNING, MSkusDuplicados)
                 \/ entry = (WARNING, MPreciosInvalidos (invalid_prices out))
                 \/ entry = (INFO, MTransformacionCompletada))
              (transform_log raw).
Proof.
  intros Ht Hr.
  destruct (transformed_row_cells _ _ _ _ _ Ht Hr) as (r0 & _ & Hr0).
  destruct (transform_row_cells _ _ Hr0)
    as (venta & compra & pv & pc & _ & _ & Hv & Hc & Hpv & Hpc & Hm & _).
  apply transform_product_data_ok in Ht as [Hf ->].
  exists pv, pc. unfold row_item. rewrite Hv, Hc. cbn [mbind result_bind].
  repeat split; try done.
  - intros s ->. by rewrite Hm, margen_zero_cost.
  - by apply transform_log_entries.
Qed.

Lemma margen_ganancia_is_rounded_quotient_witness :
  exists pv pc,
    row_item (set_cell "nivel_stock" (set_cell "margen_ganancia" ap001 (VFloat (F64.dec 4118 2)))
                (VStr "NORMAL")) "precio_venta" ≫= as_float = Ok pv
    /\ pv = F64.dec 1200 2 /\ pc = F64.dec 850 2
    /\ F64.np_round (F64.mul (F64.div (F64.sub pv pc) pc) (F64.of_Z 100)) 2 = F64.dec 4118 2.
Proof.
  destruct (margen_ganancia_is_rounded_quotient (frame_of [ap001]) new_etl
              (logged new_etl (transform_log (frame_of [ap001])))
              (transformed (frame_of [ap001]))
              (set_cell "nivel_stock" (set_cell "margen_ganancia" ap001 (VFloat (F64.dec 4118 2)))
                 (VStr "NORMAL")))
    as (pv & pc & Hv & Hc & Hm & _).
  - rewrite transform_product_data_eq. vm_compute. reflexivity.
  - vm_compute. left.
  - exists pv, pc. split; [exact Hv|].
    vm_compute in Hv, Hc. inversion Hv; inversion Hc; subst.
    repeat split; vm_compute; reflexivity.
Defined.

(** C4, as stated, fails where the purchase price is zero: the part of
    [zero_cost] is transformed without an error or a warning, and its margin
    is plus infinity. *)
Lemma margen_of_zero_cost_unflagged :
  exists r,
    transform_product_data zero_cost new_etl
    = (mkEtl None [(INFO, MTransformando); (INFO, MTransformacionCompletada)],
       Ok (Some (mkDataFrame (sample_columns ++ ["margen_ganancia"; "nivel_stock"]) [r])))
    /\ r !! "precio_compra" = Some (VFloat F64.zero)
    /\ r !! "margen_ganancia" = Some (VFloat F64.pos_inf).
Proof.
  eexists. split; [|split].
  - vm_compute. reflexivity.
  - vm_compute. reflexivity.
  - vm_compute. reflexivity.
Qed.

(** Ties are rounded to even: a margin of exactly 0.125 becomes 0.12. *)
Remark margen_ties_to_even : margen (F64.of_Z 801) (F64.of_Z 800) = F64.dec 12 2.
Proof. vm_compute. reflexivity. Qed.

(** ** Duplicated SKUs *)

Lemma for_each_elem {A B} (f : A -> result B) l l' a :
  for_each f l = Ok l' -> a ∈ l -> exists b, b ∈ l' /\ f a = Ok b.
Proof.
  intros H%for_each_Forall2 Ha.
  induction H as [|a0 b0 l l' Hab _ IH]; [by apply elem_of_nil in Ha|].
  apply elem_of_cons in Ha as [->|Ha].
  - exists b0. split; [by left | done].
  - destruct (IH Ha) as (b & ? & ?). exists b. split; [by right | done].
Qed.

Lemma transform_log_duplicates raw out :
  transform_frame raw = Ok out ->
  (WARNING, MSkusDuplicados) ∈ transform_log raw <-> dropped_duplicates raw <> 0%nat.
Proof.
  intros H. rewrite <- has_duplicates_dropped.
  destruct (transform_frame_ok _ _ H) as (Hsku & _).
  unfold transform_log. rewrite H, decide_True by done.
  destruct (has_duplicates raw "sku").
  - split; [done|]. intros _. apply elem_of_app. right. apply elem_of_app. left. by left.
  - split; [|done]. intros Hin. exfalso.
    apply elem_of_app in Hin as [Hin|Hin]; [|apply elem_of_app in Hin as [Hin|Hin]].
    + apply elem_of_cons in Hin as [?|[]%elem_of_nil]. done.
    + by apply elem_of_nil in Hin.
    + apply elem_of_app in Hin as [Hin|Hin].
      * case_decide; [by apply elem_of_nil in Hin|].
        apply elem_of_cons in Hin as [?|[]%elem_of_nil]. done.
      * apply elem_of_cons in Hin as [?|[]%elem_of_nil]. done.
Qed.

(** C6 (amended).  A transformed batch holds each SKU once; each of its rows
    comes from the first input row with that SKU, and every input SKU is
    still there.  When rows were dropped the fixed warning is logged, and
    only then; their number is not part of it.  Transforming the result again
    returns it unchanged. *)
Theorem duplicates_dropped_first_kept raw self self' out :
  transform_product_data raw self = (self', Ok (Some out)) ->
  NoDup ((fun r : Row => r !! "sku") <$> rows out)
  /\ (forall r', r' ∈ rows out ->
        exists i r, rows raw !! i = Some r /\ transform_row r = Ok r'
          /\ forall j r2, rows raw !! j = Some r2 -> r2 !! "sku" = r !! "sku" -> (i <= j)%nat)
  /\ (forall r, r ∈ rows raw -> exists r', r' ∈ rows out /\ r' !! "sku" = r !! "sku")
  /\ (length (rows out) + dropped_duplicates raw = length (rows raw))%nat
  /\ logger self' = logger self ++ transform_log raw
  /\ ((WARNING, MSkusDuplicados) ∈ transform_log raw <-> dropped_duplicates raw <> 0%nat)
  /\ (forall self2, snd (transform_product_data out self2) = Ok (Some out)).
Proof.
  intros Ht. pose proof Ht as [Hf ->]%transform_product_data_ok.
  destruct (transform_frame_ok _ _ Hf) as (_ & _ & _ & Hrows & _).
  cbn [drop_duplicates rows] in Hrows.
  repeat split.
  - rewrite (transform_rows_keys _ _ Hrows). apply drop_from_NoDup.
  - intros r' Hr'. destruct (transform_rows_elem _ _ _ Hrows Hr') as (r & Hr & Hrr').
    destruct (drop_from_first _ _ _ _ Hr) as (i & Hi & Hfirst).
    exists i, r. eauto.
  - intros r Hr. destruct (drop_from_keeps "sku" [] _ r Hr) as (r1 & Hr1 & Hk).
    { by intros ?%elem_of_nil. }
    destruct (for_each_elem _ _ _ _ Hrows Hr1) as (r' & ? & Hr').
    exists r'. split; [done|]. by rewrite (transform_row_sku _ _ Hr').
  - unfold dropped_duplicates. cbn [drop_duplicates rows].
    rewrite (for_each_length _ _ _ Hrows).
    pose proof (sublist_length _ _ (drop_from_sublist "sku" [] (rows raw))). lia.
  - by eapply transform_log_duplicates.
  - by eapply transform_log_duplicates.
  - intros self2. rewrite transform_product_data_eq. cbn [snd].
    by rewrite (transform_frame_idempotent _ _ Hf).
Qed.

Lemma duplicates_dropped_first_kept_witness :
  NoDup ((fun r : Row => r !! "sku") <$> rows (transformed one_duplicate))
  /\ (length (rows (transformed one_duplicate)) + dropped_duplicates one_duplicate
      = length (rows one_duplicate))%nat.
Proof.
  destruct (duplicates_dropped_first_kept one_duplicate new_etl
              (logged new_etl (transform_log one_duplicate)) (transformed one_duplicate))
    as (Hnodup & _ & _ & Hlen & _).
  - rewrite transform_product_data_eq. vm_compute. reflexivity.
  - split; [exact Hnodup | exact Hlen].
Defined.

(** C6, as stated, fails on the count: one dropped row and two dropped rows
    produce the same log lines, so the number of dropped rows is not
    logged. *)
Lemma dropped_count_is_not_logged :
  dropped_duplicates one_duplicate = 1%nat
  /\ dropped_duplicates two_duplicates = 2%nat
  /\ logger (fst (transform_product_data one_duplicate new_etl))
     = [(INFO, MTransformando); (WARNING, MSkusDuplicados); (INFO, MTransformacionCompletada)]
  /\ logger (fst (transform_product_data two_duplicates new_etl))
     = [(INFO, MTransformando); (WARNING, MSkusDuplicados); (INFO, MTransformacionCompletada)].
Proof. repeat split; vm_compute; reflexivity. Qed.

(** ** Missing columns *)

(** C7 on the batch [without_sku_nombre]: the duplicate check reads the
    [sku] column before the required columns are looked at, so the
    transformation ends with [KeyError 'sku'], and [nombre], absent too, is
    not named. *)
Theorem missing_sku_raises_KeyError :
  filter (fun col => col ∉ columns without_sku_nombre) required_columns = ["sku"; "nombre"]
  /\ transform_product_data without_sku_nombre new_etl
     = (mkEtl None [(INFO, MTransformando); (ERROR, MErrorTransformando (KeyError "sku"))],
        Ok None).
Proof. split; vm_compute; reflexivity. Qed.

(** With the [sku] column present, the absent required columns are all
    named, in the order of [required_columns]. *)
Lemma missing_columns_raise_ValueError raw self :
  "sku" ∈ columns raw ->
  filter (fun col => col ∉ columns raw) required_columns <> [] ->
  exists lines,
    transform_product_data raw self
    = (logged self
         (lines ++ [(ERROR, MErrorTransformando
                              (ValueError (filter (fun col => col ∉ columns raw) required_columns)))]),
       Ok None)
    /\ Forall (fun entry : LogEntry => fst entry <> ERROR) lines.
Proof.
  intros Hsku Hmiss. rewrite transform_product_data_eq.
  assert (Hf : transform_frame raw
               = Raise (ValueError (filter (fun col => col ∉ columns raw) required_columns))).
  { unfold transform_frame, frame_column.
    destruct (decide ("sku" ∈ columns raw)); [|done].
    cbn [mbind result_bind drop_duplicates columns]. by destruct (decide _). }
  rewrite Hf. unfold transform_log. rewrite Hf, decide_True by done.
  eexists. split.
  - by rewrite (assoc_L (++)).
  - destruct (has_duplicates raw "sku"); repeat constructor; done.
Qed.

Remark missing_columns_example :
  transform_product_data without_nombre_minimo new_etl
  = (mkEtl None [(INFO, MTransformando);
                 (ERROR, MErrorTransformando (ValueError ["nombre"; "stock_minimo"]))],
     Ok None).
Proof. vm_compute. reflexivity. Qed.

(** ** Methods that keep the transaction open *)

Lemma in_transaction_refl c : in_transaction c c.
Proof. by repeat split. Qed.

Lemma in_transaction_trans c1 c2 c3 :
  in_transaction c1 c2 -> in_transaction c2 c3 -> in_transaction c1 c3.
Proof.
  intros (? & ? & ? & ? & ?) (? & ? & ? & ? & ?). repeat split; try congruence. lia.
Qed.

Lemma tx_safe_ret {A} (a : A) : tx_safe (mret a).
Proof.
  intros c lines. exists c, []. split; [by rewrite app_nil_r | apply in_transaction_refl].
Qed.

Lemma tx_safe_raise {A} e : tx_safe (@raise A e).
Proof.
  intros c lines. exists c, []. split; [by rewrite app_nil_r | apply in_transaction_refl].
Qed.

Lemma tx_safe_lift {A} (r : result A) : tx_safe (lift r).
Proof.
  intros c lines. exists c, []. split; [by rewrite app_nil_r | apply in_transaction_refl].
Qed.

Lemma tx_safe_log l m : tx_safe (log l m).
Proof. intros c lines. exists c, [(l, m)]. split; [done | apply in_transaction_refl]. Qed.

Lemma tx_safe_bind {A B} (m : M A) (k : A -> M B) :
  tx_safe m -> (forall a, tx_safe (k a)) -> tx_safe (m ≫= k).
Proof.
  intros Hm Hk c lines. rewrite mbind_M.
  destruct (Hm c lines) as (c1 & lines1 & Hc1 & Htx1).
  destruct (m _) as [self1 [a|e]]; cbn [fst] in Hc1; subst self1.
  - destruct (Hk a c1 (lines ++ lines1)) as (c2 & lines2 & Hc2 & Htx2).
    exists c2, (lines1 ++ lines2). split; [by rewrite (assoc_L (++)) | by eapply in_transaction_trans].
  - by exists c1, lines1.
Qed.

Lemma tx_safe_execute {A} (statement : Z -> Store -> result (Store * A)) :
  tx_safe (execute statement).
Proof.
  intros c lines. unfold execute. cbn [connection logger].
  destruct (faults c (executed c)).
  - eexists _, []. rewrite app_nil_r. split; [done|]. repeat split; cbn; lia.
  - destruct (statement (now c) (pending c)) as [[s' a]|e];
      (eexists _, []; rewrite app_nil_r; split; [done|]; repeat split; cbn; lia).
Qed.

Lemma tx_safe_if {A} (b : bool) (m1 m2 : M A) :
  tx_safe m1 -> tx_safe m2 -> tx_safe (if b then m1 else m2).
Proof. by destruct b. Qed.

Create HintDb tx.

#[local] Hint Resolve tx_safe_ret tx_safe_raise tx_safe_lift tx_safe_log
  tx_safe_execute tx_safe_if : tx.

Ltac tx_safe :=
  repeat first
    [ apply tx_safe_bind; [|intros]
    | progress auto with tx
    | match goal with |- tx_safe (let '(_, _) := ?p in _) => destruct p end ].

Lemma load_row_tx_safe cm pm counters row : tx_safe (load_row cm pm counters row).
Proof. unfold load_row. destruct counters. tx_safe. Qed.

Lemma load_rows_tx_safe cm pm counters l : tx_safe (load_rows cm pm counters l).
Proof.
  revert counters. induction l as [|row l IH]; intros counters; cbn [load_rows].
  - apply tx_safe_ret.
  - apply tx_safe_bind; [apply load_row_tx_safe | intros; apply IH].
Qed.

(** ** One row of the load *)

Lemma bind_lift {A B} (r : result A) (k : A -> M B) self :
  (lift r ≫= k) self = match r with Ok a => k a self | Raise e => (self, Raise e) end.
Proof. rewrite mbind_M. unfold lift. by destruct r. Qed.

Lemma bind_lift_inv {A B} (r : result A) (k : A -> M B) self self' b :
  (lift r ≫= k) self = (self', Ok b) -> exists a, r = Ok a /\ k a self = (self', Ok b).
Proof. rewrite bind_lift. destruct r as [a|]; [by exists a | done]. Qed.

Lemma bind_log {B} l m (k : unit -> M B) self :
  (log l m ≫= k) self = k tt (logged self [(l, m)]).
Proof. reflexivity. Qed.

Lemma bind_warn {B} (b : bool) m (k : unit -> M B) self :
  ((if b then log WARNING m else mret tt) ≫= k) self
  = k tt (logged self (if b then [(WARNING, m)] else [])).
Proof. destruct b; [done|]. rewrite mbind_M. cbn [mret M_ret]. by rewrite logged_nil. Qed.

Lemma bind_execute {A B} (statement : Z -> Store -> result (Store * A)) (k : A -> M B) c lines :
  (execute statement ≫= k) (mkEtl (Some c) lines)
  = if faults c (executed c)
    then (mkEtl (Some (advanced c 1 (pending c))) lines, Raise (DatabaseError (executed c)))
    else match statement (now c) (pending c) with
         | Ok (s', a) => k a (mkEtl (Some (advanced c 1 s')) lines)
         | Raise e => (mkEtl (Some (advanced c 1 (pending c))) lines, Raise e)
         end.
Proof.
  rewrite mbind_M. unfold execute, advanced. cbn [connection logger].
  replace (executed c + 1)%nat with (S (executed c)) by lia.
  destruct (faults c (executed c)); [done|].
  by destruct (statement (now c) (pending c)) as [[s' a]|e].
Qed.

Lemma bind_execute_inv {A B} (statement : Z -> Store -> result (Store * A)) (k : A -> M B)
    c lines self' b :
  (execute statement ≫= k) (mkEtl (Some c) lines) = (self', Ok b) ->
  faults c (executed c) = false
  /\ exists s' a, statement (now c) (pending c) = Ok (s', a)
       /\ k a (mkEtl (Some (advanced c 1 s')) lines) = (self', Ok b).
Proof.
  rewrite bind_execute. destruct (faults c (executed c)); [done|].
  destruct (statement (now c) (pending c)) as [[s' a]|e]; [|done]. eauto.
Qed.

Lemma advanced_advanced c n s m s' : advanced (advanced c n s) m s' = advanced c (n + m) s'.
Proof. unfold advanced. cbn. f_equal. lia. Qed.

Lemma insert_producto_inv sku nombre numero_parte cat prov pc pv g ts s s' a :
  insert_producto sku nombre numero_parte cat prov pc pv g ts s = Ok (s', a) ->
  exists k n np c v,
    as_str sku = Ok k /\ as_str nombre = Ok n /\ as_str numero_parte = Ok np
    /\ as_float pc = Ok c /\ as_float pv = Ok v
    /\ s' = upsert_producto ts k n np cat prov c v g s /\ a = (Some k, 1).
Proof.
  unfold insert_producto.
  destruct (as_str sku) as [k|]; [|done]. cbn [mbind result_bind].
  destruct (as_str nombre) as [n|]; [|done]. cbn [mbind result_bind].
  destruct (as_str numero_parte) as [np|]; [|done]. cbn [mbind result_bind].
  destruct (as_float pc) as [c|]; [|done]. cbn [mbind result_bind].
  destruct (as_float pv) as [v|]; [|done]. cbn [mbind result_bind].
  intros [= <- <-]. by exists k, n, np, c, v.
Qed.

Lemma insert_inventario_inv sku sa sm sx ub ts s s' a :
  insert_inventario sku sa sm sx ub ts s = Ok (s', a) ->
  exists k a1 m x u,
    as_str sku = Ok k /\ as_int sa = Ok a1 /\ as_int sm = Ok m /\ as_int sx = Ok x
    /\ as_str ub = Ok u /\ s' = upsert_inventario ts k a1 m x u s.
Proof.
  unfold insert_inventario.
  destruct (as_str sku) as [k|]; [|done]. cbn [mbind result_bind].
  destruct (as_int sa) as [a1|]; [|done]. cbn [mbind result_bind].
  destruct (as_int sm) as [m|]; [|done]. cbn [mbind result_bind].
  destruct (as_int sx) as [x|]; [|done]. cbn [mbind result_bind].
  destruct (as_str ub) as [u|]; [|done]. cbn [mbind result_bind].
  intros [= <-]. by exists k, a1, m, x, u.
Qed.

(** A row that loads binds well-typed parameters, meets no fault, and
    leaves the store with its two upserts done. *)
Lemma load_row_ok cm pm n1 n2 row c lines self' counters' :
  load_row cm pm (n1, n2) row (mkEtl (Some c) lines) = (self', Ok counters') ->
  exists ps,
    row_params row = Ok ps
    /\ faults c (executed c) = false /\ faults c (S (executed c)) = false
    /\ self' = mkEtl (Some (advanced c 2 (store_row cm pm (now c) (pending c) ps)))
                     (lines ++ resolution_log cm pm ps)
    /\ counters' = (S n1, n2).
Proof.
  unfold load_row. intros H.
  apply bind_lift_inv in H as (categoria & Hcat & H).
  apply bind_lift_inv in H as (proveedor & Hprov & H).
  rewrite !bind_warn in H. unfold logged in H. cbn [connection logger] in H.
  apply bind_lift_inv in H as (sku & Hsku & H).
  apply bind_lift_inv in H as (nombre & Hnombre & H).
  apply bind_lift_inv in H as (compra & Hcompra & H).
  apply bind_lift_inv in H as (venta & Hventa & H).
  apply bind_execute_inv in H as (Hf1 & s1 & [resultado rowcount] & Hs1 & H).
  apply insert_producto_inv in Hs1 as (k & n & np & pc & pv & Hk & Hn & Hnp & Hpc & Hpv & -> & [= -> ->]).
  apply bind_lift_inv in H as (sku' & Hsku' & H).
  apply bind_lift_inv in H as (sa & Hsa & H).
  apply bind_lift_inv in H as (sm & Hsm & H).
  apply bind_lift_inv in H as (sm' & Hsm' & H).
  apply bind_lift_inv in H as (calc & Hcalc & H).
  apply bind_lift_inv in H as (ub & Hub & H).
  apply bind_execute_inv in H as (Hf2 & s2 & [] & Hs2 & H).
  apply insert_inventario_inv in Hs2 as (k' & a1 & m & x & u & Hk' & Ha1 & Hm & Hx & Hu & ->).
  cbn [mret M_ret] in H. inversion H; subst self' counters'. clear H.
  rewrite Hsku in Hsku'. inversion Hsku'; subst sku'. rewrite Hk in Hk'. inversion Hk'; subst k'.
  rewrite Hsm in Hsm'. inversion Hsm'; subst sm'.
  unfold times in Hcalc. rewrite Hm in Hcalc. cbn [mbind result_bind] in Hcalc.
  inversion Hcalc; subst calc.
  cbn [advanced faults executed] in Hf2. rewrite Nat.add_1_r in Hf2.
  exists (mkRowParams categoria proveedor k n np pc pv a1 m x u).
  split; [|split; [done|split; [done|split; [|done]]]].
  - unfold row_params. rewrite Hcat, Hprov, Hsku, Hnombre, Hcompra, Hventa, Hsa, Hsm, Hub.
    cbn [mbind result_bind]. rewrite Hk, Hn, Hnp, Hpc, Hpv, Ha1, Hm. cbn [mbind result_bind].
    rewrite Hx, Hu. done.
  - rewrite advanced_advanced. cbn [Nat.add]. unfold store_row, resolution_log.
    cbn [rp_categoria rp_proveedor rp_sku rp_nombre rp_numero_parte rp_precio_compra
         rp_precio_venta rp_stock_actual rp_stock_minimo rp_stock_maximo rp_ubicacion
         pending now advanced].
    by rewrite <- (assoc_L (++)).
Qed.

Lemma rbind_Ok_inv {A B} (m : result A) (k : A -> result B) b :
  m ≫= k = Ok b -> exists a, m = Ok a /\ k a = Ok b.
Proof. destruct m as [a|]; [by exists a | done]. Qed.

(** A row with well-typed cells loads when the store accepts its two
    statements. *)
Lemma load_row_run cm pm n1 n2 row ps c lines :
  row_params row = Ok ps ->
  faults c (executed c) = false -> faults c (S (executed c)) = false ->
  load_row cm pm (n1, n2) row (mkEtl (Some c) lines)
  = (mkEtl (Some (advanced c 2 (store_row cm pm (now c) (pending c) ps)))
           (lines ++ resolution_log cm pm ps),
     Ok (S n1, n2)).
Proof.
  intros Hps Hf1 Hf2. unfold row_params in Hps.
  apply rbind_Ok_inv in Hps as (categoria & Hcat & Hps).
  apply rbind_Ok_inv in Hps as (proveedor & Hprov & Hps).
  apply rbind_Ok_inv in Hps as (k & (sku & Hsku & Hk)%rbind_Ok_inv & Hps).
  apply rbind_Ok_inv in Hps as (n & (nombre & Hnombre & Hn)%rbind_Ok_inv & Hps).
  apply rbind_Ok_inv in Hps as (np & Hnp & Hps).
  apply rbind_Ok_inv in Hps as (pc & (compra & Hcompra & Hpc)%rbind_Ok_inv & Hps).
  apply rbind_Ok_inv in Hps as (pv & (venta & Hventa & Hpv)%rbind_Ok_inv & Hps).
  apply rbind_Ok_inv in Hps as (a1 & (sa & Hsa & Ha1)%rbind_Ok_inv & Hps).
  apply rbind_Ok_inv in Hps as (m & (sm & Hsm & Hm)%rbind_Ok_inv & Hps).
  apply rbind_Ok_inv in Hps as (x & Hx & Hps).
  apply rbind_Ok_inv in Hps as (u & (ub & Hub & Hu)%rbind_Ok_inv & Hps).
  inversion Hps; subst ps. clear Hps.
  unfold load_row.
  rewrite Hcat, Hprov, Hsku, Hnombre, Hcompra, Hventa, Hsa, Hsm, Hub.
  do 2 (rewrite bind_lift; cbv beta iota). do 2 (rewrite bind_warn; cbv beta).
  unfold logged. cbn [connection logger].
  do 4 (rewrite bind_lift; cbv beta iota).
  rewrite bind_execute, Hf1. unfold insert_producto.
  rewrite Hk, Hn, Hnp, Hpc, Hpv. cbn [mbind result_bind Z.eqb Pos.eqb].
  do 4 (rewrite bind_lift; cbv beta iota).
  unfold times at 1. rewrite Hm. cbn [mbind result_bind].
  do 2 (rewrite bind_lift; cbv beta iota).
  rewrite bind_execute. cbn [advanced faults executed now pending].
  rewrite Nat.add_1_r, Hf2. unfold insert_inventario.
  rewrite Hk, Ha1, Hm, Hx, Hu. cbn [mbind result_bind mret M_ret].
  unfold store_row, resolution_log, advanced.
  cbn [rp_categoria rp_proveedor rp_sku rp_nombre rp_numero_parte rp_precio_compra
       rp_precio_venta rp_stock_actual rp_stock_minimo rp_stock_maximo rp_ubicacion
       committed executed faults now trace].
  rewrite <- (assoc_L (++)). cbn [mret M_ret]. replace (executed c + 1 + 1)%nat with (executed c + 2)%nat by lia. done.
Qed.

(** ** The loop *)

Ltac same_state :=
  repeat match goal with
         | |- (_, _) = (_, _) => f_equal
         | |- mkEtl _ _ = mkEtl _ _ => f_equal
         | |- Some _ = Some _ => f_equal
         | |- Ok _ = Ok _ => f_equal
         | |- advanced _ _ _ = advanced _ _ _ => f_equal
         end;
  try lia; try done.

Lemma load_rows_ok cm pm n1 n2 l c lines self' counters' :
  load_rows cm pm (n1, n2) l (mkEtl (Some c) lines) = (self', Ok counters') ->
  exists batch,
    for_each row_params l = Ok batch
    /\ (forall k, (k < 2 * length l)%nat -> faults c (executed c + k) = false)
    /\ self' = mkEtl (Some (advanced c (2 * length l)
                              (foldl (store_row cm pm (now c)) (pending c) batch)))
                     (lines ++ batch_log cm pm batch)
    /\ counters' = ((n1 + length l)%nat, n2).
Proof.
  revert n1 c lines. induction l as [|row l IH]; intros n1 c lines H.
  - cbn in H. inversion H; subst. exists []. split; [done|]. split; [cbn; intros; lia|].
    split; [|cbn; f_equal; lia]. unfold advanced, batch_log. cbn.
    rewrite app_nil_r, Nat.add_0_r. by destruct c.
  - cbn [load_rows] in H. rewrite mbind_M in H.
    destruct (load_row cm pm (n1, n2) row _) as [self1 [cnt1|]] eqn:Hrow; [|done].
    apply load_row_ok in Hrow as (ps & Hps & Hf1 & Hf2 & -> & ->).
    apply IH in H as (batch & Hbatch & Hfaults & -> & ->).
    exists (ps :: batch). rewrite for_each_cons, Hps, Hbatch. split; [done|].
    split; [|split].
    + intros k Hk. destruct k as [|[|k]].
      * by rewrite Nat.add_0_r.
      * by rewrite Nat.add_1_r.
      * specialize (Hfaults k). cbn [advanced executed faults length] in Hfaults.
        replace (executed c + S (S k))%nat with (executed c + 2 + k)%nat by lia.
        apply Hfaults. cbn [length] in Hk. lia.
    + rewrite advanced_advanced. cbn [advanced pending now foldl length].
      unfold batch_log. cbn [fmap list_fmap concat]. rewrite <- (assoc_L (++)).
      fold (advanced c 2 (store_row cm pm (now c) (pending c) ps)). same_state.
    + cbn [length]. same_state.
Qed.

Lemma load_rows_run cm pm n1 n2 l batch c lines :
  for_each row_params l = Ok batch ->
  (forall k, (k < 2 * length l)%nat -> faults c (executed c + k) = false) ->
  load_rows cm pm (n1, n2) l (mkEtl (Some c) lines)
  = (mkEtl (Some (advanced c (2 * length l)
                    (foldl (store_row cm pm (now c)) (pending c) batch)))
           (lines ++ batch_log cm pm batch),
     Ok ((n1 + length l)%nat, n2)).
Proof.
  revert n1 c lines batch. induction l as [|row l IH]; intros n1 c lines batch Hb Hf.
  - inversion Hb; subst. cbn. unfold advanced, batch_log. cbn.
    rewrite app_nil_r, !Nat.add_0_r. by destruct c.
  - rewrite for_each_cons in Hb.
    apply rbind_Ok_inv in Hb as (ps & Hps & Hb).
    apply rbind_Ok_inv in Hb as (batch' & Hb' & Hb). inversion Hb; subst batch. clear Hb.
    cbn [load_rows]. rewrite mbind_M.
    rewrite (load_row_run cm pm n1 n2 row ps c lines Hps).
    + rewrite (IH _ _ _ batch' Hb').
      * rewrite advanced_advanced. cbn [advanced pending now foldl length].
        unfold batch_log. cbn [fmap list_fmap concat]. rewrite <- (assoc_L (++)).
        same_state.
      * intros k Hk. cbn [advanced executed faults].
        replace (executed c + 2 + k)%nat with (executed c + S (S k))%nat by lia.
        apply Hf. cbn [length]. lia.
    + rewrite <- (Nat.add_0_r (executed c)). apply Hf. cbn [length]. lia.
    + rewrite <- (Nat.add_1_r (executed c)). apply Hf. cbn [length]. lia.
Qed.

(** ** The whole load *)

Lemma log_niveles_eq counts self :
  log_niveles counts self
  = (logged self ((fun vn : value * nat => (INFO, MNivel (fst vn) (snd vn))) <$> counts), Ok tt).
Proof.
  revert self. induction counts as [|[v n] counts IH]; intros self.
  - cbn. by rewrite logged_nil.
  - cbn [log_niveles]. rewrite bind_log, IH, logged_logged. done.
Qed.

(** The statements of [load_body], one after the other. *)
Lemma load_body_eq df c lines :
  load_body df (mkEtl (Some c) lines)
  = if faults c (executed c)
    then (mkEtl (Some (advanced c 1 (pending c))) lines, Raise (DatabaseError (executed c)))
    else if faults c (S (executed c))
    then (mkEtl (Some (advanced c 2 (pending c))) lines, Raise (DatabaseError (S (executed c))))
    else
      match load_rows (lookup_map (categorias (pending c))) (lookup_map (proveedores (pending c)))
              (0%nat, 0%nat) (rows df) (mkEtl (Some (advanced c 2 (pending c))) lines) with
      | (self1, Raise e) => (self1, Raise e)
      | (self1, Ok (procesados, actualizados)) =>
          match connection self1 with
          | Some c1 =>
              let self2 := mkEtl (Some (conn_commit c1))
                                 (logger self1 ++ [(INFO, MDatosCargados procesados actualizados)]) in
              if decide ("nivel_stock" ∈ columns df)
              then (logged self2 (niveles_log df), Ok true)
              else (self2, Raise (KeyError "nivel_stock"))
          | None => (self1, Raise AttributeError)
          end
      end.
Proof.
  unfold load_body. rewrite bind_execute.
  destruct (faults c (executed c)); [done|].
  cbn [select_categorias]. rewrite bind_execute. cbn [advanced faults executed now pending].
  rewrite Nat.add_1_r. destruct (faults c (S (executed c))).
  { unfold advanced. cbn. do 4 f_equal. lia. }
  cbn [select_proveedores]. rewrite mbind_M.
  fold (advanced c 1 (pending c)). rewrite advanced_advanced. cbn [Nat.add].
  destruct (load_rows _ _ _ _ _) as [self1 [[procesados actualizados]|e]]; [|done].
  rewrite mbind_M. unfold commit at 1.
  destruct (connection self1) as [c1|] eqn:Hc1; [|done].
  rewrite bind_log. rewrite bind_lift. unfold frame_column.
  destruct (decide ("nivel_stock" ∈ columns df)); [|done].
  rewrite mbind_M, log_niveles_eq. done.
Qed.

Lemma load_handler_eq e c1 lines1 :
  (log ERROR (MErrorCargando e) ≫= fun _ => rollback ≫= fun _ => mret false)
    (mkEtl (Some c1) lines1)
  = (mkEtl (Some (conn_rollback c1)) (lines1 ++ [(ERROR, MErrorCargando e)]), Ok false).
Proof. reflexivity. Qed.

Lemma conn_ext c1 c2 :
  committed c1 = committed c2 -> pending c1 = pending c2 -> executed c1 = executed c2 ->
  faults c1 = faults c2 -> now c1 = now c2 -> trace c1 = trace c2 -> c1 = c2.
Proof. destruct c1, c2. cbn. by intros -> -> -> -> -> ->. Qed.

Lemma etl_ext c1 c2 l1 l2 : c1 = c2 -> l1 = l2 -> mkEtl (Some c1) l1 = mkEtl (Some c2) l2.
Proof. by intros -> ->. Qed.

Lemma load_to_database_cases df c lines :
  exists self' b,
    load_to_database df (mkEtl (Some c) lines) = (self', Ok b)
    /\ load_outcome df c lines self' b.
Proof.
  unfold load_to_database, try_except. cbn [connection]. rewrite load_body_eq.
  destruct (faults c (executed c)) eqn:Hf0.
  { rewrite load_handler_eq. do 2 eexists. split; [done|].
    apply (load_rolled_back _ _ _ _ [] (DatabaseError (executed c))); done. }
  destruct (faults c (S (executed c))) eqn:Hf1.
  { rewrite load_handler_eq. do 2 eexists. split; [done|].
    apply (load_rolled_back _ _ _ _ [] (DatabaseError (S (executed c)))); done. }
  destruct (load_rows _ _ _ _ _) as [self1 [[procesados actualizados]|e]] eqn:Hrows.
  - apply load_rows_ok in Hrows as (batch & Hbatch & Hfaults & -> & [= -> ->]).
    cbn [connection logger advanced] in *.
    pose proof (for_each_length _ _ _ Hbatch) as Hlen.
    assert (Hall : forall k, (k < 2 + 2 * length (rows df))%nat ->
                     faults c (executed c + k) = false).
    { intros [|[|k]] Hk; rewrite ?Nat.add_0_r, ?Nat.add_1_r; [done..|].
      replace (executed c + S (S k))%nat with (executed c + 2 + k)%nat by lia.
      apply Hfaults. lia. }
    destruct (decide ("nivel_stock" ∈ columns df)) as [Hcol|Hcol].
    + do 2 eexists. split; [done|].
      match goal with |- load_outcome _ _ _ ?s _ => replace s with
        (mkEtl (Some (loaded c batch)) (lines ++ load_log (pending c) batch df)) end.
      * by apply load_committed.
      * unfold logged. cbn [connection logger]. apply etl_ext.
        -- apply conn_ext; cbn; try done; lia.
        -- unfold load_log. by rewrite Hlen, <- !(assoc_L (++)).
    + rewrite load_handler_eq. do 2 eexists. split; [done|].
      match goal with |- load_outcome _ _ _ ?s _ => replace s with
        (mkEtl (Some (conn_rollback (loaded c batch)))
           (lines ++ batch_log (lookup_map (categorias (pending c)))
                       (lookup_map (proveedores (pending c))) batch
            ++ [(INFO, MDatosCargados (length batch) 0);
                (ERROR, MErrorCargando (KeyError "nivel_stock"))])) end.
      * by apply load_committed_then_failed.
      * apply etl_ext.
        -- apply conn_ext; cbn; try done; lia.
        -- by rewrite Hlen, <- !(assoc_L (++)).
  - destruct (load_rows_tx_safe (lookup_map (categorias (pending c)))
                (lookup_map (proveedores (pending c))) (0%nat, 0%nat) (rows df)
                (advanced c 2 (pending c)) lines) as (c1 & lines1 & Hself1 & Htx).
    rewrite Hrows in Hself1. cbn [fst] in Hself1. subst self1.
    rewrite load_handler_eq. do 2 eexists. split; [done|].
    destruct Htx as (Hcom & _ & _ & Htr & _).
    rewrite <- (assoc_L (++)).
    apply load_rolled_back; cbn; [done | done | by rewrite Htr].
Qed.

Lemma load_to_database_ok df c lines self' :
  load_to_database df (mkEtl (Some c) lines) = (self', Ok true) ->
  exists batch,
    for_each row_params (rows df) = Ok batch
    /\ (forall k, (k < 2 + 2 * length (rows df))%nat -> faults c (executed c + k) = false)
    /\ "nivel_stock" ∈ columns df
    /\ self' = mkEtl (Some (loaded c batch)) (lines ++ load_log (pending c) batch df).
Proof.
  intros H. destruct (load_to_database_cases df c lines) as (self2 & b & Heq & Hout).
  rewrite H in Heq. inversion Heq; subst self2 b. inversion Hout; subst. eauto.
Qed.

Lemma load_to_database_fault df c lines k :
  (k < 2 * length (rows df))%nat -> faults c (executed c + 2 + k) = true ->
  exists c' lines',
    load_to_database df (mkEtl (Some c) lines) = (mkEtl (Some c') lines', Ok false)
    /\ committed c' = committed c /\ pending c' = committed c
    /\ trace c' = trace c ++ [Rollback].
Proof.
  intros Hk Hfault. destruct (load_to_database_cases df c lines) as (self' & b & Heq & Hout).
  rewrite <- Nat.add_assoc in Hfault.
  inversion Hout as [batch Hb Hf Hcol|c' lines' e Hcom Hpen Htr|batch Hb Hf Hcol]; subst.
  - rewrite Hf in Hfault by lia. done.
  - eauto 10.
  - rewrite Hf in Hfault by lia. done.
Qed.

(** A batch of well-typed rows with its [nivel_stock] column loads on a
    store that accepts its statements, whatever names the rows carry. *)
Lemma load_to_database_run df c lines batch :
  for_each row_params (rows df) = Ok batch ->
  (forall k, (k < 2 + 2 * length (rows df))%nat -> faults c (executed c + k) = false) ->
  "nivel_stock" ∈ columns df ->
  load_to_database df (mkEtl (Some c) lines)
  = (mkEtl (Some (loaded c batch)) (lines ++ load_log (pending c) batch df), Ok true).
Proof.
  intros Hbatch Hf Hcol. unfold load_to_database, try_except. cbn [connection].
  rewrite load_body_eq.
  rewrite <- (Nat.add_0_r (executed c)) at 1. rewrite Hf by lia.
  rewrite <- (Nat.add_1_r (executed c)). rewrite Hf by lia.
  rewrite (load_rows_run _ _ _ _ _ batch) by
    (try done; intros k Hk; cbn [advanced executed faults];
     rewrite <- Nat.add_assoc; apply Hf; lia).
  cbn [connection logger]. rewrite decide_True by done.
  pose proof (for_each_length _ _ _ Hbatch) as Hlen.
  f_equal. unfold logged. cbn [connection logger]. apply etl_ext.
  - apply conn_ext; cbn; try done; lia.
  - unfold load_log. by rewrite Hlen, <- !(assoc_L (++)).
Qed.

(** ** The orchestrator *)

Lemma extract_inventory_data_eq env source_type self :
  extract_inventory_data env source_type self
  = (logged self (extract_log env source_type), Ok (extract_frame env source_type)).
Proof.
  unfold extract_inventory_data, extract_log, extract_frame.
  rewrite bind_log. unfold try_except.
  destruct (decide (source_type = "sample")).
  { rewrite bind_log. cbn [mret M_ret]. by rewrite logged_logged. }
  destruct (decide (source_type = "csv")).
  - destruct (csv_file env) as [[df|err]|].
    + rewrite bind_lift, bind_log. cbn [mret M_ret]. by rewrite logged_logged.
    + rewrite bind_lift, bind_log. cbn [mret M_ret]. by rewrite logged_logged.
    + rewrite bind_log. unfold extract_sample. rewrite !bind_log.
      cbn [mret M_ret]. by rewrite !logged_logged.
  - rewrite bind_log. cbn [mret M_ret]. by rewrite logged_logged.
Qed.

Lemma close_connection_eq c lines :
  close_connection (mkEtl (Some c) lines)
  = (mkEtl (Some (conn_close c)) (lines ++ [(INFO, MConexionCerrada)]), Ok tt).
Proof. reflexivity. Qed.


(** A run whose extraction or transformation fails sends no statement: it
    closes the connection and reports failure. *)
Lemma run_etl_pipeline_no_batch env source_type c :
  server env = Ok c ->
  (extract_frame env source_type = None
   \/ exists raw e, extract_frame env source_type = Some raw /\ transform_frame raw = Raise e) ->
  exists lines,
    run_etl_pipeline env source_type new_etl = (mkEtl (Some (conn_close c)) lines, Ok false).
Proof.
  intros Hs Hfail. unfold run_etl_pipeline. rewrite bind_log, mbind_M.
  unfold connect_database. rewrite Hs. rewrite bind_log. cbn [mret M_ret].
  unfold try_finally, try_except, pipeline_phases.
  rewrite bind_log, mbind_M, extract_inventory_data_eq.
  destruct Hfail as [Hnone|(raw & e & Hraw & Hfr)].
  - rewrite Hnone. cbn [mret M_ret]. unfold logged. cbn [connection logger].
    rewrite close_connection_eq. eauto.
  - rewrite Hraw. rewrite bind_log, mbind_M, transform_product_data_eq, Hfr.
    cbn [mret M_ret]. unfold logged. cbn [connection logger].
    rewrite close_connection_eq. eauto.
Qed.

(** A run that reaches the load reports the load's verdict; a failed load
    is followed by nothing but the closing of the connection. *)
Lemma run_etl_pipeline_load_failed env source_type c raw df c' lines' :
  server env = Ok c ->
  extract_frame env source_type = Some raw ->
  transform_frame raw = Ok df ->
  load_to_database df (mkEtl (Some c) (before_load env source_type raw))
  = (mkEtl (Some c') lines', Ok false) ->
  run_etl_pipeline env source_type new_etl
  = (mkEtl (Some (conn_close c'))
       (lines' ++ [(ERROR, MFalloCarga); (INFO, MConexionCerrada)]), Ok false).
Proof.
  intros Hs Hraw Hdf Hload. unfold run_etl_pipeline. rewrite bind_log, mbind_M.
  unfold connect_database. rewrite Hs. rewrite bind_log. cbn [mret M_ret].
  unfold try_finally, try_except, pipeline_phases.
  rewrite bind_log, mbind_M, extract_inventory_data_eq, Hraw.
  rewrite bind_log, mbind_M, transform_product_data_eq, Hdf.
  rewrite bind_log, mbind_M. unfold logged. cbn [connection logger new_etl].
  match goal with
  | |- context [load_to_database df (mkEtl (Some c) ?l)] =>
      replace l with (before_load env source_type raw)
  end.
  2:{ unfold before_load. cbn [app]. by rewrite <- !(assoc_L (++)). }
  rewrite Hload. rewrite bind_log. cbn [mret M_ret]. unfold logged. cbn [connection logger].
  rewrite close_connection_eq. cbn [fst]. by rewrite <- (assoc_L (++)).
Qed.

(** ** All or nothing *)

(** C2.  The per-record statements of a load on connection [c] are those
    numbered [executed c + 2 + k] for [k] below twice the number of rows
    (the two upserts of each row, after the two lookups).  If the store
    raises on any of them, the load rolls back and returns [False]: nothing
    is committed and nothing stays pending, and a pipeline run on that
    connection returns [False] too.  A load that returns [True] has
    committed once, as its last act on the connection, the store with every
    row's two upserts done. *)
Theorem load_error_rolls_back_the_batch df c lines k :
  (k < 2 * length (rows df))%nat -> faults c (executed c + 2 + k) = true ->
  (exists c' lines',
     load_to_database df (mkEtl (Some c) lines) = (mkEtl (Some c') lines', Ok false)
     /\ committed c' = committed c /\ pending c' = committed c
     /\ trace c' = trace c ++ [Rollback])
  /\ (forall env source_type raw,
        server env = Ok c -> extract_frame env source_type = Some raw ->
        transform_frame raw = Ok df ->
        exists c' lines',
          run_etl_pipeline env source_type new_etl = (mkEtl (Some c') lines', Ok false)
          /\ committed c' = committed c /\ trace c' = trace c ++ [Rollback; Close])
  /\ (forall c0 lines0 self0,
        load_to_database df (mkEtl (Some c0) lines0) = (self0, Ok true) ->
        exists c1 batch,
          connection self0 = Some c1
          /\ for_each row_params (rows df) = Ok batch
          /\ trace c1 = trace c0 ++ [Commit]
          /\ committed c1 = store_batch (now c0) (pending c0) batch
          /\ pending c1 = committed c1).
Proof.
  intros Hk Hfault. split; [|split].
  - by apply (load_to_database_fault df c lines k).
  - intros env source_type raw Hs Hraw Hdf.
    destruct (load_to_database_fault df c (before_load env source_type raw) k Hk Hfault)
      as (c' & lines' & Hload & Hcom & Hpen & Htr).
    rewrite (run_etl_pipeline_load_failed env source_type c raw df c' lines' Hs Hraw Hdf Hload).
    do 2 eexists. split; [done|]. cbn. split; [done|].
    by rewrite Htr, <- (assoc_L (++)).
  - intros c0 lines0 self0 (batch & Hbatch & _ & _ & ->)%load_to_database_ok.
    exists (loaded c0 batch), batch. done.
Qed.

Lemma load_error_rolls_back_the_batch_witness :
  exists c' lines',
    run_etl_pipeline (env_of fourth_record_fails) "sample" new_etl
    = (mkEtl (Some c') lines', Ok false)
    /\ committed c' = empty_store /\ trace c' = [Rollback; Close].
Proof.
  destruct (load_error_rolls_back_the_batch (transformed sample_data) fourth_record_fails [] 6)
    as (_ & Hrun & _).
  - vm_compute. lia.
  - vm_compute. reflexivity.
  - apply (Hrun (env_of fourth_record_fails) "sample" sample_data).
    + reflexivity.
    + reflexivity.
    + vm_compute. reflexivity.
Defined.

(** ** Name resolution *)



Lemma resolution_log_categoria cm pm ps :
  (WARNING, MCategoriaNoEncontrada (rp_categoria ps)) ∈ resolution_log cm pm ps
  <-> falsy (map_get cm (rp_categoria ps)) = true.
Proof.
  unfold resolution_log. rewrite elem_of_app.
  destruct (falsy (map_get cm (rp_categoria ps))).
  - split; [done|]. intros _. left. by left.
  - split; [|done]. intros [[]%elem_of_nil|Hin].
    destruct (falsy (map_get pm (rp_proveedor ps))).
    + apply elem_of_cons in Hin as [?|[]%elem_of_nil]. done.
    + by apply elem_of_nil in Hin.
Qed.

Lemma resolution_log_proveedor cm pm ps :
  (WARNING, MProveedorNoEncontrado (rp_proveedor ps)) ∈ resolution_log cm pm ps
  <-> falsy (map_get pm (rp_proveedor ps)) = true.
Proof.
  unfold resolution_log. rewrite elem_of_app.
  destruct (falsy (map_get pm (rp_proveedor ps))).
  - split; [done|]. intros _. right. by left.
  - split; [|done]. intros [Hin|[]%elem_of_nil].
    destruct (falsy (map_get cm (rp_categoria ps))).
    + apply elem_of_cons in Hin as [?|[]%elem_of_nil]. done.
    + by apply elem_of_nil in Hin.
Qed.


(** C10.  The fallback tests the id, not the presence of the name: a name
    the lookup table maps to 0 is replaced by the id 1, with the warning,
    and a name mapped to another id keeps that id, without the warning. *)
Theorem zero_id_resolves_to_default row ps c lines n1 n2 :
  row_params row = Ok ps ->
  faults c (executed c) = false -> faults c (S (executed c)) = false ->
  exists categoria_id proveedor_id lines',
    load_row (lookup_map (categorias (pending c))) (lookup_map (proveedores (pending c)))
      (n1, n2) row (mkEtl (Some c) lines)
    = (mkEtl
         (Some (advanced c 2
                  (upsert_inventario (now c) (rp_sku ps) (rp_stock_actual ps)
                     (rp_stock_minimo ps) (rp_stock_maximo ps) (rp_ubicacion ps)
                     (upsert_producto (now c) (rp_sku ps) (rp_nombre ps) (rp_numero_parte ps)
                        categoria_id proveedor_id (rp_precio_compra ps) (rp_precio_venta ps)
                        12 (pending c)))))
         (lines ++ lines'),
       Ok (S n1, n2))
    /\ (forall id, map_get (lookup_map (categorias (pending c))) (rp_categoria ps) = Some id ->
          (id = 0 -> categoria_id = 1
                     /\ (WARNING, MCategoriaNoEncontrada (rp_categoria ps)) ∈ lines')
          /\ (id <> 0 -> categoria_id = id
                         /\ (WARNING, MCategoriaNoEncontrada (rp_categoria ps)) ∉ lines'))
    /\ (forall id, map_get (lookup_map (proveedores (pending c))) (rp_proveedor ps) = Some id ->
          (id = 0 -> proveedor_id = 1
                     /\ (WARNING, MProveedorNoEncontrado (rp_proveedor ps)) ∈ lines')
          /\ (id <> 0 -> proveedor_id = id
                         /\ (WARNING, MProveedorNoEncontrado (rp_proveedor ps)) ∉ lines')).
Proof.
  intros Hps Hf1 Hf2.
  set (cm := lookup_map (categorias (pending c))).
  set (pm := lookup_map (proveedores (pending c))).
  exists (resolve (map_get cm (rp_categoria ps))), (resolve (map_get pm (rp_proveedor ps))),
    (resolution_log cm pm ps).
  split; [by apply load_row_run|]. split.
  - intros id Hid. rewrite resolution_log_categoria. unfold resolve. rewrite Hid.
    cbn [falsy default]. split.
    + intros ->. done.
    + intros Hne%Z.eqb_neq. rewrite Hne. done.
  - intros id Hid. rewrite resolution_log_proveedor. unfold resolve. rewrite Hid.
    cbn [falsy default]. split.
    + intros ->. done.
    + intros Hne%Z.eqb_neq. rewrite Hne. done.
Qed.


Lemma zero_id_resolves_to_default_witness :
  exists c' lines',
    load_row (lookup_map (categorias empty_store)) (lookup_map (proveedores empty_store))
      (0%nat, 0%nat) motor_part (mkEtl (Some (connect empty_store 100 [])) [])
    = (mkEtl (Some c') lines', Ok (1%nat, 0%nat))
    /\ lookup_map (categorias empty_store) !! "Motor" = Some 0
    /\ (WARNING, MCategoriaNoEncontrada (VStr "Motor")) ∈ lines'
    /\ ((WARNING, MProveedorNoEncontrado (VStr "MotorTech")) ∉ lines')
    /\ p_categoria_id <$> (productos (pending c') !! "AP009") = Some 1
    /\ p_proveedor_id <$> (productos (pending c') !! "AP009") = Some 2.
Proof.
  destruct (zero_id_resolves_to_default motor_part motor_part_params
              (connect empty_store 100 []) [] 0 0)
    as (categoria_id & proveedor_id & lines' & Hrow & Hcat & Hprov).
  - vm_compute. reflexivity.
  - reflexivity.
  - reflexivity.
  - destruct (Hcat 0) as [Hzero _]; [vm_compute; reflexivity|].
    destruct (Hzero eq_refl) as [-> Hin].
    destruct (Hprov 2) as [_ Hkeep]; [vm_compute; reflexivity|].
    destruct Hkeep as [-> Hnin]; [done|].
    do 2 eexists. split; [exact Hrow|].
    split; [vm_compute; reflexivity|]. split; [exact Hin|]. split; [exact Hnin|].
    split; vm_compute; reflexivity.
Defined.

(** ** The two upserts *)

Lemma as_str_Ok v s : as_str v = Ok s -> v = VStr s.
Proof. destruct v; cbn; congruence. Qed.

Lemma as_int_Ok v z : as_int v = Ok z -> v = VInt z.
Proof. destruct v; cbn; congruence. Qed.

Lemma row_item_Ok (r : Row) label v : row_item r label = Ok v -> r !! label = Some v.
Proof. unfold row_item. destruct (r !! label); congruence. Qed.

Lemma row_params_cells row ps :
  row_params row = Ok ps ->
  row !! "categoria" = Some (rp_categoria ps)
  /\ row !! "proveedor" = Some (rp_proveedor ps)
  /\ row !! "sku" = Some (VStr (rp_sku ps))
  /\ row !! "nombre" = Some (VStr (rp_nombre ps))
  /\ row_get row "numero_parte" (VStr "") = VStr (rp_numero_parte ps)
  /\ row_item row "precio_compra" ≫= as_float = Ok (rp_precio_compra ps)
  /\ row_item row "precio_venta" ≫= as_float = Ok (rp_precio_venta ps)
  /\ row !! "stock_actual" = Some (VInt (rp_stock_actual ps))
  /\ row !! "stock_minimo" = Some (VInt (rp_stock_minimo ps))
  /\ row_get row "stock_maximo" (VInt (rp_stock_minimo ps * 4)) = VInt (rp_stock_maximo ps)
  /\ row !! "ubicacion" = Some (VStr (rp_ubicacion ps)).
Proof.
  intros Hps. unfold row_params in Hps.
  apply rbind_Ok_inv in Hps as (categoria & Hcat%row_item_Ok & Hps).
  apply rbind_Ok_inv in Hps as (proveedor & Hprov%row_item_Ok & Hps).
  apply rbind_Ok_inv in Hps as (k & (sku & Hsku%row_item_Ok & ->%as_str_Ok)%rbind_Ok_inv & Hps).
  apply rbind_Ok_inv in Hps as (n & (nombre & Hnombre%row_item_Ok & ->%as_str_Ok)%rbind_Ok_inv & Hps).
  apply rbind_Ok_inv in Hps as (np & Hnp%as_str_Ok & Hps).
  apply rbind_Ok_inv in Hps as (pc & Hpc & Hps).
  apply rbind_Ok_inv in Hps as (pv & Hpv & Hps).
  apply rbind_Ok_inv in Hps as (a1 & (sa & Hsa%row_item_Ok & ->%as_int_Ok)%rbind_Ok_inv & Hps).
  apply rbind_Ok_inv in Hps as (m & (sm & Hsm%row_item_Ok & ->%as_int_Ok)%rbind_Ok_inv & Hps).
  apply rbind_Ok_inv in Hps as (x & Hx%as_int_Ok & Hps).
  apply rbind_Ok_inv in Hps as (u & (ub & Hub%row_item_Ok & ->%as_str_Ok)%rbind_Ok_inv & Hps).
  inversion Hps; subst ps. clear Hps. cbn. done.
Qed.

Lemma productos_store_row cm pm ts s ps :
  productos (store_row cm pm ts s ps)
  = <[rp_sku ps :=
        match productos s !! rp_sku ps with
        | None => producto_inserted (ddl s) ts (rp_nombre ps) (rp_numero_parte ps)
                    (resolve (map_get cm (rp_categoria ps)))
                    (resolve (map_get pm (rp_proveedor ps)))
                    (rp_precio_compra ps) (rp_precio_venta ps) 12
        | Some old => producto_updated ts (rp_nombre ps) (rp_precio_compra ps)
                        (rp_precio_venta ps) old
        end]> (productos s).
Proof. reflexivity. Qed.

Lemma inventario_store_row cm pm ts s ps :
  inventario (store_row cm pm ts s ps)
  = <[rp_sku ps :=
        match inventario s !! rp_sku ps with
        | None => inventario_inserted (ddl s) ts (rp_stock_actual ps) (rp_stock_minimo ps)
                    (rp_stock_maximo ps) (rp_ubicacion ps)
        | Some old => inventario_updated ts (rp_stock_actual ps) (rp_stock_minimo ps)
                        (rp_ubicacion ps) old
        end]> (inventario s).
Proof. reflexivity. Qed.

(** C3.  A row that loads leaves one product and one inventory row under
    its SKU.  Name, prices, stocks and location are the row's.  If the SKU
    was already there, the product keeps its category id, supplier id and
    part number (and warranty and active flag) and the inventory row keeps
    its maximum stock, while both take the transaction's time stamp; a new
    inventory row takes the row's maximum stock, or four times the minimum
    when the row has none.  Rows under other SKUs are untouched. *)
Theorem upsert_keeps_insert_only_fields cm pm counters row c lines self' counters' :
  load_row cm pm counters row (mkEtl (Some c) lines) = (self', Ok counters') ->
  exists sku c' p i,
    row !! "sku" = Some (VStr sku) /\ connection self' = Some c'
    /\ productos (pending c') !! sku = Some p /\ inventario (pending c') !! sku = Some i
    /\ row !! "nombre" = Some (VStr (p_nombre p))
    /\ row_item row "precio_compra" ≫= as_float = Ok (p_precio_compra p)
    /\ row_item row "precio_venta" ≫= as_float = Ok (p_precio_venta p)
    /\ row !! "stock_actual" = Some (VInt (i_stock_actual i))
    /\ row !! "stock_minimo" = Some (VInt (i_stock_minimo i))
    /\ row !! "ubicacion" = Some (VStr (i_ubicacion i))
    /\ (forall old, productos (pending c) !! sku = Some old ->
          p_updated_at p = now c
          /\ p_categoria_id p = p_categoria_id old /\ p_proveedor_id p = p_proveedor_id old
          /\ p_numero_parte p = p_numero_parte old
          /\ p_garantia_meses p = p_garantia_meses old /\ p_activo p = p_activo old)
    /\ (forall old, inventario (pending c) !! sku = Some old ->
          i_updated_at i = now c /\ i_stock_maximo i = i_stock_maximo old)
    /\ (inventario (pending c) !! sku = None ->
          match row !! "stock_maximo" with
          | Some v => v = VInt (i_stock_maximo i)
          | None => i_stock_maximo i = 4 * i_stock_minimo i
          end)
    /\ (forall k, k <> sku ->
          productos (pending c') !! k = productos (pending c) !! k
          /\ inventario (pending c') !! k = inventario (pending c) !! k).
Proof.
  destruct counters as [n1 n2].
  intros (ps & Hps & _ & _ & -> & _)%load_row_ok.
  destruct (row_params_cells _ _ Hps)
    as (_ & _ & Hsku & Hnombre & _ & Hpc & Hpv & Hsa & Hsm & Hsx & Hub).
  eexists (rp_sku ps), _, _, _. split; [exact Hsku|]. split; [reflexivity|].
  cbn [advanced pending].
  rewrite productos_store_row, inventario_store_row, !lookup_insert_eq.
  split; [reflexivity|]. split; [reflexivity|].
  destruct (productos (pending c) !! rp_sku ps) as [oldp|] eqn:Hp;
    destruct (inventario (pending c) !! rp_sku ps) as [oldi|] eqn:Hi;
    cbn [producto_updated producto_inserted inventario_updated inventario_inserted
         p_nombre p_precio_compra p_precio_venta i_stock_actual i_stock_minimo i_ubicacion
         p_updated_at p_categoria_id p_proveedor_id p_numero_parte p_garantia_meses p_activo
         i_updated_at i_stock_maximo];
    repeat split; try done; try congruence;
    try (by intros old [= <-]);
    try (by rewrite lookup_insert_ne);
    try (intros _; unfold row_get in Hsx; destruct (row !! "stock_maximo");
         [done | inversion Hsx; lia]).
Qed.

Lemma upsert_keeps_insert_only_fields_witness :
  exists c' p i,
    connection (fst (load_row (lookup_map (categorias stocked_store))
                       (lookup_map (proveedores stocked_store)) (0%nat, 0%nat) ap001
                       (mkEtl (Some (connect stocked_store 100 [])) []))) = Some c'
    /\ productos (pending c') !! "AP001" = Some p
    /\ inventario (pending c') !! "AP001" = Some i
    /\ ap001 !! "nombre" = Some (VStr (p_nombre p))
    /\ p_categoria_id p = 2 /\ p_proveedor_id p = 2 /\ p_numero_parte p = "OLD-1"
    /\ p_updated_at p = 100 /\ i_stock_maximo i = 99.
Proof.
  destruct (upsert_keeps_insert_only_fields
              (lookup_map (categorias stocked_store)) (lookup_map (proveedores stocked_store))
              (0%nat, 0%nat) ap001 (connect stocked_store 100 []) []
              (fst (load_row (lookup_map (categorias stocked_store))
                      (lookup_map (proveedores stocked_store)) (0%nat, 0%nat) ap001
                      (mkEtl (Some (connect stocked_store 100 [])) [])))
              (1%nat, 0%nat))
    as (sku & c' & p & i & Hsku & Hc & Hp & Hi & Hn & _ & _ & _ & _ & _ & Holdp & Holdi & _).
  - vm_compute. reflexivity.
  - vm_compute in Hsku. inversion Hsku; subst sku.
    destruct (Holdp (mkProducto "Filtro viejo" "OLD-1" 2 2 (F64.dec 100 2) (F64.dec 200 2)
                       6 false 5))
      as (Hts & Hcat & Hprov & Hnp & _); [vm_compute; reflexivity|].
    destruct (Holdi (mkInventario 1 1 99 "OLD" 5)) as (_ & Hmax); [vm_compute; reflexivity|].
    exists c', p, i. repeat split; done.
Defined.

(** ** Loading twice *)

Lemma foldl_store_row_tables cm pm ts s batch :
  ddl (foldl (store_row cm pm ts) s batch) = ddl s
  /\ categorias (foldl (store_row cm pm ts) s batch) = categorias s
  /\ proveedores (foldl (store_row cm pm ts) s batch) = proveedores s.
Proof.
  revert s. induction batch as [|ps batch IH]; intros s; [done|].
  cbn [foldl]. destruct (IH (store_row cm pm ts s ps)) as (-> & -> & ->). done.
Qed.

Lemma productos_foldl cm pm ts s batch k :
  productos (foldl (store_row cm pm ts) s batch) !! k
  = foldl (producto_step cm pm (ddl s) ts k) (productos s !! k) batch.
Proof.
  revert s. induction batch as [|ps batch IH]; intros s; [done|].
  cbn [foldl]. rewrite IH. f_equal.
  rewrite productos_store_row. unfold producto_step.
  destruct (decide (rp_sku ps = k)) as [<-|Hne].
  - by rewrite lookup_insert_eq.
  - by rewrite lookup_insert_ne.
Qed.

Lemma inventario_foldl cm pm ts s batch k :
  inventario (foldl (store_row cm pm ts) s batch) !! k
  = foldl (inventario_step (ddl s) ts k) (inventario s !! k) batch.
Proof.
  revert s. induction batch as [|ps batch IH]; intros s; [done|].
  cbn [foldl]. rewrite IH. f_equal.
  rewrite inventario_store_row. unfold inventario_step.
  destruct (decide (rp_sku ps = k)) as [<-|Hne].
  - by rewrite lookup_insert_eq.
  - by rewrite lookup_insert_ne.
Qed.

(** Updates leave the insert-only fields of an existing row alone. *)
Lemma producto_steps_frame cm pm d ts k q batch :
  exists q',
    foldl (producto_step cm pm d ts k) (Some q) batch = Some q'
    /\ p_numero_parte q' = p_numero_parte q /\ p_categoria_id q' = p_categoria_id q
    /\ p_proveedor_id q' = p_proveedor_id q /\ p_garantia_meses q' = p_garantia_meses q
    /\ p_activo q' = p_activo q.
Proof.
  revert q. induction batch as [|ps batch IH]; intros q; [by exists q|].
  cbn [foldl]. unfold producto_step at 2. destruct (decide (rp_sku ps = k)).
  - destruct (IH (producto_updated ts (rp_nombre ps) (rp_precio_compra ps)
                    (rp_precio_venta ps) q)) as (q' & -> & ? & ? & ? & ? & ?).
    by exists q'.
  - apply IH.
Qed.

Lemma inventario_steps_frame d ts k q batch :
  exists q',
    foldl (inventario_step d ts k) (Some q) batch = Some q'
    /\ i_stock_maximo q' = i_stock_maximo q.
Proof.
  revert q. induction batch as [|ps batch IH]; intros q; [by exists q|].
  cbn [foldl]. unfold inventario_step at 2. destruct (decide (rp_sku ps = k)).
  - destruct (IH (inventario_updated ts (rp_stock_actual ps) (rp_stock_minimo ps)
                    (rp_ubicacion ps) q)) as (q' & -> & ?).
    by exists q'.
  - apply IH.
Qed.

Lemma producto_step_ne cm pm d ts k o ps :
  rp_sku ps <> k -> producto_step cm pm d ts k o ps = o.
Proof. intros. unfold producto_step. by rewrite decide_False. Qed.

Lemma inventario_step_ne d ts k o ps :
  rp_sku ps <> k -> inventario_step d ts k o ps = o.
Proof. intros. unfold inventario_step. by rewrite decide_False. Qed.

Lemma producto_step_eq cm pm d ts k o ps :
  rp_sku ps = k ->
  producto_step cm pm d ts k o ps
  = Some match o with
         | None => producto_inserted d ts (rp_nombre ps) (rp_numero_parte ps)
                     (resolve (map_get cm (rp_categoria ps)))
                     (resolve (map_get pm (rp_proveedor ps)))
                     (rp_precio_compra ps) (rp_precio_venta ps) 12
         | Some old => producto_updated ts (rp_nombre ps) (rp_precio_compra ps)
                         (rp_precio_venta ps) old
         end.
Proof. intros. unfold producto_step. by rewrite decide_True. Qed.

Lemma inventario_step_eq d ts k o ps :
  rp_sku ps = k ->
  inventario_step d ts k o ps
  = Some match o with
         | None => inventario_inserted d ts (rp_stock_actual ps) (rp_stock_minimo ps)
                     (rp_stock_maximo ps) (rp_ubicacion ps)
         | Some old => inventario_updated ts (rp_stock_actual ps) (rp_stock_minimo ps)
                         (rp_ubicacion ps) old
         end.
Proof. intros. unfold inventario_step. by rewrite decide_True. Qed.

Lemma producto_steps_twice cm pm d ts1 ts2 k o batch :
  untimed_producto <$> foldl (producto_step cm pm d ts2 k)
                         (foldl (producto_step cm pm d ts1 k) o batch) batch
  = untimed_producto <$> foldl (producto_step cm pm d ts1 k) o batch.
Proof.
  induction batch as [|ps batch IH] using rev_ind; [done|].
  rewrite !foldl_app. cbn [foldl].
  destruct (decide (rp_sku ps = k)) as [Hk|Hk].
  - rewrite !producto_step_eq by done.
    set (o1 := foldl (producto_step cm pm d ts1 k) o batch).
    set (q := match o1 with None => _ | Some old => _ end).
    destruct (producto_steps_frame cm pm d ts2 k q batch) as (q' & -> & Hnp & Hc & Hp & Hg & Ha).
    cbn [fmap option_fmap option_map]. f_equal.
    unfold untimed_producto, producto_updated. cbn. rewrite Hnp, Hc, Hp, Hg, Ha.
    unfold q. by destruct o1.
  - rewrite !producto_step_ne by done. exact IH.
Qed.

Lemma inventario_steps_twice d ts1 ts2 k o batch :
  untimed_inventario <$> foldl (inventario_step d ts2 k)
                           (foldl (inventario_step d ts1 k) o batch) batch
  = untimed_inventario <$> foldl (inventario_step d ts1 k) o batch.
Proof.
  induction batch as [|ps batch IH] using rev_ind; [done|].
  rewrite !foldl_app. cbn [foldl].
  destruct (decide (rp_sku ps = k)) as [Hk|Hk].
  - rewrite !inventario_step_eq by done.
    set (o1 := foldl (inventario_step d ts1 k) o batch).
    set (q := match o1 with None => _ | Some old => _ end).
    destruct (inventario_steps_frame d ts2 k q batch) as (q' & -> & Hmax).
    cbn [fmap option_fmap option_map]. f_equal.
    unfold untimed_inventario, inventario_updated. cbn. rewrite Hmax.
    unfold q. by destruct o1.
  - rewrite !inventario_step_ne by done. exact IH.
Qed.

(** Loading a batch into the store it was loaded into changes time stamps
    only. *)
Lemma store_batch_twice ts1 ts2 s batch :
  untimed (store_batch ts2 (store_batch ts1 s batch) batch)
  = untimed (store_batch ts1 s batch).
Proof.
  unfold store_batch.
  destruct (foldl_store_row_tables (lookup_map (categorias s)) (lookup_map (proveedores s))
              ts1 s batch) as (Hd & Hc & Hp).
  set (s1 := foldl _ s batch) in *. rewrite Hc, Hp.
  destruct (foldl_store_row_tables (lookup_map (categorias s)) (lookup_map (proveedores s))
              ts2 s1 batch) as (Hd2 & Hc2 & Hp2).
  unfold untimed. rewrite Hd2, Hc2, Hp2.
  set (cm := lookup_map (categorias s)) in *. set (pm := lookup_map (proveedores s)) in *.
  assert (Hprod : untimed_producto <$> productos (foldl (store_row cm pm ts2) s1 batch)
                  = untimed_producto <$> productos s1).
  { apply map_eq. intros k. rewrite !lookup_fmap, productos_foldl.
    unfold s1. rewrite productos_foldl. fold s1. rewrite Hd. apply producto_steps_twice. }
  assert (Hinv : untimed_inventario <$> inventario (foldl (store_row cm pm ts2) s1 batch)
                 = untimed_inventario <$> inventario s1).
  { apply map_eq. intros k. rewrite !lookup_fmap, inventario_foldl.
    unfold s1. rewrite inventario_foldl. fold s1. rewrite Hd. apply inventario_steps_twice. }
  by rewrite Hprod, Hinv.
Qed.

(** Two loads of the same batch that both succeed, the second on what the
    first committed: the stores agree up to time stamps, and the second load,
    like the first, counts every row as new. *)
Lemma load_twice df c1 lines1 self1 c2 lines2 self2 :
  load_to_database df (mkEtl (Some c1) lines1) = (self1, Ok true) ->
  (forall c1', connection self1 = Some c1' -> pending c2 = committed c1') ->
  load_to_database df (mkEtl (Some c2) lines2) = (self2, Ok true) ->
  exists c1' c2',
    connection self1 = Some c1' /\ connection self2 = Some c2'
    /\ untimed (committed c2') = untimed (committed c1')
    /\ (INFO, MDatosCargados (length (rows df)) 0) ∈ logger self2.
Proof.
  intros (b1 & Hb1 & _ & _ & ->)%load_to_database_ok Hpend
         (b2 & Hb2 & _ & _ & ->)%load_to_database_ok.
  rewrite Hb1 in Hb2. inversion Hb2; subst b2.
  exists (loaded c1 b1), (loaded c2 b1). split; [done|]. split; [done|]. split.
  - cbn [loaded conn_commit advanced committed pending now].
    rewrite (Hpend _ eq_refl). cbn [loaded conn_commit advanced committed pending now].
    apply store_batch_twice.
  - cbn [logger]. unfold load_log. rewrite (for_each_length _ _ _ Hb1).
    apply elem_of_app. right. apply elem_of_app. right. apply elem_of_app. left. by left.
Qed.

(** C5 on the sample batch, loaded twice.  Both runs succeed and leave the
    same store up to time stamps, but the second run, which only updates,
    reports six new products and no updated one: the row count of the upsert
    is 1 for an update as for an insert, so the branch that counts updates is
    never taken. *)
Theorem second_load_counts_updates_as_new :
  snd first_run = Ok true /\ snd second_run = Ok true
  /\ untimed (store_after second_run empty_store) = untimed (store_after first_run empty_store)
  /\ (INFO, MDatosCargados 6 0) ∈ logger (fst first_run)
  /\ (INFO, MDatosCargados 6 0) ∈ logger (fst second_run)
  /\ (INFO, MDatosCargados 0 6) ∉ logger (fst second_run).
Proof.
  split; [vm_compute; reflexivity|]. split; [vm_compute; reflexivity|].
  split; [vm_compute; reflexivity|].
  split; [|split].
  - vm_compute. repeat first [by left | right].
  - vm_compute. repeat first [by left | right].
  - intros H. vm_compute in H.
    repeat (apply elem_of_cons in H as [H|H]; [discriminate|]).
    by apply elem_of_nil in H.
Qed.

Lemma elem_of_concat {A} (x : A) (ls : list (list A)) :
  x ∈ concat ls -> exists l, x ∈ l /\ l ∈ ls.
Proof.
  induction ls as [|l ls IH]; cbn [concat]; [by intros ?%elem_of_nil|].
  intros [Hin|Hin]%elem_of_app.
  - exists l. split; [done | by left].
  - destruct (IH Hin) as (l' & ? & ?). exists l'. split; [done | by right].
Qed.

(** Every load that succeeds reports all its rows as new and none as
    updated, whatever the store held. *)
Lemma load_counts_every_row_as_new df c lines self' :
  load_to_database df (mkEtl (Some c) lines) = (self', Ok true) ->
  (INFO, MDatosCargados (length (rows df)) 0) ∈ logger self'
  /\ forall nuevos actualizados,
       (INFO, MDatosCargados nuevos actualizados) ∈ logger self' ->
       (INFO, MDatosCargados nuevos actualizados) ∈ lines
       \/ (nuevos = length (rows df) /\ actualizados = 0%nat).
Proof.
  intros (batch & Hbatch & _ & _ & ->)%load_to_database_ok.
  cbn [logger]. unfold load_log. rewrite (for_each_length _ _ _ Hbatch). split.
  - apply elem_of_app. right. apply elem_of_app. right. apply elem_of_app. left. by left.
  - intros nuevos actualizados [Hin|Hin]%elem_of_app; [by left|]. right.
    apply elem_of_app in Hin as [Hin|Hin].
    + exfalso. unfold batch_log in Hin. apply elem_of_concat in Hin as (l & Hin & Hl).
      apply list_elem_of_fmap in Hl as (ps & -> & _). unfold resolution_log in Hin.
      apply elem_of_app in Hin as [Hin|Hin];
        destruct (falsy _); try (by apply elem_of_nil in Hin);
        apply elem_of_cons in Hin as [?|[]%elem_of_nil]; done.
    + apply elem_of_app in Hin as [Hin|Hin].
      * apply elem_of_cons in Hin as [[= -> ->]|[]%elem_of_nil]. done.
      * exfalso. unfold niveles_log in Hin. apply list_elem_of_fmap in Hin as (vn & ? & _). done.
Qed.

(** ** The stock report *)

Lemma elem_of_join_inventario s sku p i :
  (sku, p, i) ∈ join_inventario s
  <-> productos s !! sku = Some p /\ inventario s !! sku = Some i.
Proof.
  unfold join_inventario. rewrite list_elem_of_omap. split.
  - intros ([k q] & Hin%elem_of_map_to_list & Hf).
    destruct (inventario s !! k) as [j|] eqn:Hj; [|done].
    inversion Hf; subst. done.
  - intros [Hp Hi]. exists (sku, p). split; [by apply elem_of_map_to_list|].
    by rewrite Hi.
Qed.

Lemma join_inventario_keys s :
  sublist ((fun j : string * Producto * Inventario => fst (fst j)) <$> join_inventario s)
          (fst <$> map_to_list (productos s)).
Proof.
  unfold join_inventario. induction (map_to_list (productos s)) as [|[k q] l IH]; [constructor|].
  cbn [omap list_omap fmap list_fmap]. destruct (inventario s !! k).
  - cbn. by apply sublist_skip.
  - cbn. by apply sublist_cons.
Qed.

Lemma low_stock_skus s : NoDup (r_sku <$> low_stock s).
Proof.
  unfold low_stock. rewrite <- list_fmap_compose.
  rewrite (list_fmap_ext _ (fun j : string * Producto * Inventario => fst (fst j))).
  2:{ by intros _ [[? ?] ?] _. }
  apply (sublist_NoDup _ (fst <$> map_to_list (productos s)));
    [apply NoDup_fst_map_to_list|].
  etrans; [|apply join_inventario_keys].
  apply fmap_sublist, sublist_filter.
Qed.

Lemma elem_of_low_stock s row :
  row ∈ low_stock s
  <-> exists p i,
        productos s !! r_sku row = Some p /\ inventario s !! r_sku row = Some i
        /\ p_activo p = true /\ i_stock_actual i <= i_stock_minimo i
        /\ row = mkReportRow (r_sku row) (p_nombre p) (i_stock_actual i) (i_stock_minimo i)
                    (i_ubicacion i) (if i_stock_actual i =? 0 then SIN_STOCK else CRITICO).
Proof.
  unfold low_stock. rewrite list_elem_of_fmap. split.
  - intros ([[sku p] i] & -> & [Hw Hin%elem_of_join_inventario]%list_elem_of_filter).
    cbn [select_report r_sku]. exists p, i. destruct Hin as [Hp Hi].
    unfold where_stock_bajo in Hw. apply andb_true_iff in Hw as [Hle%Z.leb_le Hact].
    repeat split; try done. unfold estado.
    destruct (i_stock_actual i =? 0); [done|]. by rewrite (proj2 (Z.leb_le _ _) Hle).
  - intros (p & i & Hp & Hi & Hact & Hle & Hrow).
    exists (r_sku row, p, i). split.
    + rewrite Hrow at 1. cbn [select_report]. unfold estado.
      destruct (i_stock_actual i =? 0); [done|]. by rewrite (proj2 (Z.leb_le _ _) Hle).
    + apply list_elem_of_filter. split; [|by apply elem_of_join_inventario].
      unfold where_stock_bajo. rewrite Hact, (proj2 (Z.leb_le _ _) Hle). done.
Qed.

Section order.
Variable d : Schema.
Hypothesis collate_total : forall a b, collate_le d a b = true \/ collate_le d b a = true.
Hypothesis collate_trans :
  forall a b c, collate_le d a b = true -> collate_le d b c = true -> collate_le d a c = true.

Lemma report_order_total : Total (report_order d).
Proof.
  intros a b. unfold report_order.
  destruct (Z.lt_trichotomy (r_stock_actual a) (r_stock_actual b)) as [?|[?|?]];
    [by left; left | | by right; left].
  destruct (collate_total (r_nombre a) (r_nombre b)); [left|right]; right; done.
Qed.

Lemma report_order_trans : Transitive (report_order d).
Proof.
  intros a b c [?|[? ?]] [?|[? ?]]; unfold report_order.
  - left. lia.
  - left. lia.
  - left. lia.
  - right. split; [lia|]. by eapply collate_trans.
Qed.

Lemma report_sorted l : StronglySorted (report_order d) (merge_sort (report_order d) l).
Proof.
  apply (@StronglySorted_merge_sort _ _ _ report_order_trans report_order_total).
Qed.
End order.

Lemma string_leb_trans a b c :
  String.leb a b = true -> String.leb b c = true -> String.leb a c = true.
Proof.
  unfold String.leb.
  assert (H : forall a b c, String.compare a b <> Gt -> String.compare b c <> Gt ->
                            String.compare a c <> Gt).
  { clear. induction a as [|x a IH]; intros [|y b] [|z c]; cbn; try congruence.
    unfold Ascii.compare.
    destruct (N.compare_spec (Ascii.N_of_ascii x) (Ascii.N_of_ascii y)) as [Hxy|Hxy|Hxy];
      destruct (N.compare_spec (Ascii.N_of_ascii y) (Ascii.N_of_ascii z)) as [Hyz|Hyz|Hyz];
      destruct (N.compare_spec (Ascii.N_of_ascii x) (Ascii.N_of_ascii z)) as [Hxz|Hxz|Hxz];
      try congruence; try lia; try (intros; apply (IH b c); assumption). }
  intros Hab Hbc. specialize (H a b c).
  destruct (String.compare a b); try discriminate;
    destruct (String.compare b c); try discriminate;
    destruct (String.compare a c); try reflexivity; exfalso; apply H; congruence.
Qed.

(** C9.  On a connection whose store answers the query, the report is the
    list of the rows of active products whose current stock is at most the
    minimum, one per SKU, each with its name, stocks, location and a status
    that is [SIN_STOCK] at zero and [CRÍTICO] otherwise; it is ordered by
    current stock and, within equal stock, by name (in the collation of the
    schema, a total preorder); and it is the empty list when no product
    qualifies. *)
Theorem stock_report_lists_low_stock c lines :
  faults c (executed c) = false ->
  (forall a b, collate_le (ddl (pending c)) a b = true
               \/ collate_le (ddl (pending c)) b a = true) ->
  (forall a b x, collate_le (ddl (pending c)) a b = true ->
                 collate_le (ddl (pending c)) b x = true ->
                 collate_le (ddl (pending c)) a x = true) ->
  exists reporte,
    generate_stock_report (mkEtl (Some c) lines)
    = (mkEtl (Some (advanced c 1 (pending c))) lines, Ok (Some reporte))
    /\ (forall row,
          row ∈ reporte
          <-> exists p i,
                productos (pending c) !! r_sku row = Some p
                /\ inventario (pending c) !! r_sku row = Some i
                /\ p_activo p = true /\ i_stock_actual i <= i_stock_minimo i
                /\ row = mkReportRow (r_sku row) (p_nombre p) (i_stock_actual i)
                           (i_stock_minimo i) (i_ubicacion i)
                           (if i_stock_actual i =? 0 then SIN_STOCK else CRITICO))
    /\ NoDup (r_sku <$> reporte)
    /\ (forall row, row ∈ reporte -> r_estado row <> NORMAL /\ r_estado row <> BAJO)
    /\ StronglySorted (report_order (ddl (pending c))) reporte
    /\ ((forall sku p i,
           productos (pending c) !! sku = Some p -> inventario (pending c) !! sku = Some i ->
           p_activo p = true -> ~ i_stock_actual i <= i_stock_minimo i) ->
        reporte = []).
Proof.
  intros Hf Htotal Htrans.
  exists (merge_sort (report_order (ddl (pending c))) (low_stock (pending c))).
  assert (Hperm := merge_sort_Permutation (report_order (ddl (pending c)))
                     (low_stock (pending c))).
  split; [|split; [|split; [|split; [|split]]]].
  - unfold generate_stock_report, try_except. cbn [connection].
    rewrite bind_execute, Hf. reflexivity.
  - intros row. rewrite Hperm. apply elem_of_low_stock.
  - rewrite Hperm. apply low_stock_skus.
  - intros row Hrow. rewrite Hperm in Hrow.
    apply elem_of_low_stock in Hrow as (p & i & _ & _ & _ & _ & ->). cbn [r_estado].
    by destruct (i_stock_actual i =? 0).
  - by apply report_sorted.
  - intros Hnone. destruct (merge_sort _ _) as [|row l] eqn:Hl; [done|]. exfalso.
    assert (Hrow : row ∈ low_stock (pending c)).
    { rewrite <- Hperm. by left. }
    apply elem_of_low_stock in Hrow as (p & i & Hp & Hi & Hact & Hle & _).
    by apply (Hnone _ _ _ Hp Hi Hact).
Qed.

Lemma stock_report_lists_low_stock_witness :
  exists reporte,
    generate_stock_report (mkEtl (Some (connect report_store 100 [])) [])
    = (mkEtl (Some (advanced (connect report_store 100 []) 1 report_store)) [],
       Ok (Some reporte))
    /\ NoDup (r_sku <$> reporte)
    /\ StronglySorted (report_order example_ddl) reporte
    /\ (mkReportRow "P3" "C" 0 2 "A3" SIN_STOCK ∈ reporte).
Proof.
  destruct (stock_report_lists_low_stock (connect report_store 100 []) [])
    as (reporte & Hrun & Hin & Hnodup & _ & Hsorted & _).
  - reflexivity.
  - intros a b. apply String.leb_total.
  - intros a b x. apply string_leb_trans.
  - exists reporte. split; [exact Hrun|]. split; [exact Hnodup|]. split; [exact Hsorted|].
    apply Hin. exists (mkProducto "C" "" 1 1 F64.zero F64.zero 12 true 0),
                      (mkInventario 0 2 8 "A3" 0).
    repeat split; try (vm_compute; reflexivity). vm_compute. discriminate.
Defined.

(** The report on [report_store]: the part out of stock first, then the two
    parts with a stock of 3 by name; the inactive part, the well stocked one
    and the one without inventory row are left out. *)
Remark stock_report_example :
  snd (generate_stock_report (mkEtl (Some (connect report_store 100 [])) []))
  = Ok (Some [mkReportRow "P3" "C" 0 2 "A3" SIN_STOCK;
              mkReportRow "P2" "A" 3 3 "A2" CRITICO;
              mkReportRow "P1" "B" 3 5 "A1" CRITICO]).
Proof. vm_compute. reflexivity. Qed.

(** A store with no product yields the empty list, not [None]. *)
Remark stock_report_empty :
  snd (generate_stock_report (mkEtl (Some (connect empty_store 100 [])) [])) = Ok (Some []).
Proof. vm_compute. reflexivity. Qed.

(** * Further properties *)

(** ** Transformation *)

Lemma transform_log_error raw :
  (exists e, (ERROR, MErrorTransformando e) ∈ transform_log raw)
  <-> exists e, transform_frame raw = Raise e.
Proof.
  split.
  - intros [e Hin]. destruct (transform_frame raw) as [out|e'] eqn:Hf; [|by exists e'].
    exfalso. pose proof (transform_log_entries _ _ Hf) as Hall.
    rewrite Forall_forall in Hall. destruct (Hall _ Hin) as [?|[?|[?|?]]]; done.
  - intros [e He]. exists e. unfold transform_log. rewrite He.
    apply elem_of_app. right. apply elem_of_app. right. by left.
Qed.

(** The transformation lets no exception out: whatever its body raises is
    logged as one error line and answered with [None].  It returns a batch
    exactly when it logs no error, and it leaves the connection alone. *)
Theorem transform_swallows_exceptions raw self :
  exists out,
    transform_product_data raw self = (logged self (transform_log raw), Ok out)
    /\ connection (fst (transform_product_data raw self)) = connection self
    /\ (out = None <-> exists e, (ERROR, MErrorTransformando e) ∈ transform_log raw)
    /\ (forall df, out = Some df <-> transform_frame raw = Ok df).
Proof.
  rewrite transform_product_data_eq. eexists. split; [reflexivity|]. split; [done|].
  rewrite transform_log_error. split.
  - destruct (transform_frame raw) as [df|e].
    + split; [done | by intros [? ?]].
    + split; [by exists e | done].
  - intros df. destruct (transform_frame raw) as [df'|e].
    + split; by intros [= ->].
    + split; done.
Qed.

Lemma transform_row_keeps_cells (r r' : Row) label :
  transform_row r = Ok r' -> label <> "margen_ganancia" -> label <> "nivel_stock" ->
  r' !! label = r !! label.
Proof.
  unfold transform_row.
  destruct (margen_ganancia r); [|done]. cbn [mbind result_bind].
  destruct (nivel_stock r); [|done]. cbn [mbind result_bind].
  intros [= <-] ? ?. unfold set_cell. by rewrite !lookup_insert_ne.
Qed.

(** A transformed batch has the input's columns, in their order, followed
    by the two derived ones (once each), and its rows are input rows, in
    their order, whose other cells are untouched. *)
Theorem transform_keeps_source_cells raw self self' out :
  transform_product_data raw self = (self', Ok (Some out)) ->
  columns out = add_column (add_column (columns raw) "margen_ganancia") "nivel_stock"
  /\ (forall col, col ∈ columns out
                  <-> col ∈ columns raw \/ col = "margen_ganancia" \/ col = "nivel_stock")
  /\ exists kept,
       sublist kept (rows raw)
       /\ Forall2 (fun r r' : Row =>
                     forall label, label <> "margen_ganancia" -> label <> "nivel_stock" ->
                                   r' !! label = r !! label)
                  kept (rows out).
Proof.
  intros [Hf _]%transform_product_data_ok.
  destruct (transform_frame_ok _ _ Hf) as (_ & _ & Hcols & Hrows & _).
  split; [done|]. split.
  - intros col. rewrite Hcols. unfold add_column.
    repeat case_decide; rewrite ?elem_of_app, ?list_elem_of_singleton in *; split; intros H';
      repeat match goal with
             | H : _ \/ _ |- _ => destruct H
             | H : _ ∈ _ ++ _ |- _ => apply elem_of_app in H
             | H : _ ∈ [_] |- _ => apply list_elem_of_singleton in H
             end; subst; auto 6.
  - exists (drop_from "sku" [] (rows raw)). split; [apply drop_from_sublist|].
    apply for_each_Forall2 in Hrows. cbn [drop_duplicates rows] in Hrows.
    eapply Forall2_impl; [exact Hrows|]. intros r r' Hr label. by apply transform_row_keeps_cells.
Qed.

Lemma transform_keeps_source_cells_witness :
  columns (transformed one_duplicate) = sample_columns ++ ["margen_ganancia"; "nivel_stock"]
  /\ length (rows (transformed one_duplicate)) = 2%nat.
Proof.
  destruct (transform_keeps_source_cells one_duplicate new_etl
              (logged new_etl (transform_log one_duplicate)) (transformed one_duplicate))
    as (Hcols & _ & _).
  - rewrite transform_product_data_eq. vm_compute. reflexivity.
  - split; [rewrite Hcols|]; vm_compute; reflexivity.
Defined.

Lemma count_true_below_cost (l : list Row) invalidos :
  for_each precio_invalido l = Ok invalidos ->
  count_true invalidos = length (filter (fun r => below_cost r = true) l).
Proof.
  intros H%for_each_Forall2. unfold count_true.
  induction H as [|r b l bs Hr _ IH]; [done|].
  assert (Hb : below_cost r = b) by (unfold below_cost; by rewrite Hr).
  rewrite !filter_cons. rewrite Hb.
  destruct (decide (b = true)); cbn [length]; by rewrite IH.
Qed.

(** The price check is not fatal.  A batch that transforms keeps the rows
    sold at or below cost; it logs one warning with their number when there
    are any, and no such warning otherwise. *)
Theorem price_warning_counts_rows raw self self' out :
  transform_product_data raw self = (self', Ok (Some out)) ->
  let n := length (filter (fun r => below_cost r = true) (rows out)) in
  logger self' = logger self ++ transform_log raw
  /\ forall k, (WARNING, MPreciosInvalidos k) ∈ transform_log raw <-> k = n /\ n <> 0%nat.
Proof.
  intros [Hf ->]%transform_product_data_ok n. split; [done|].
  destruct (transform_frame_ok _ _ Hf) as (Hsku & _ & _ & _ & invalidos & Hinv).
  assert (Hn : invalid_prices out = n).
  { unfold invalid_prices. rewrite Hinv. by apply count_true_below_cost. }
  intros k. unfold transform_log. rewrite Hf, Hn, decide_True by done. split.
  - intros Hin.
    apply elem_of_app in Hin as [Hin|Hin]; [|apply elem_of_app in Hin as [Hin|Hin]].
    + apply elem_of_cons in Hin as [?|[]%elem_of_nil]. done.
    + destruct (has_duplicates raw "sku"); [|by apply elem_of_nil in Hin].
      apply elem_of_cons in Hin as [?|[]%elem_of_nil]. done.
    + apply elem_of_app in Hin as [Hin|Hin].
      * case_decide; [by apply elem_of_nil in Hin|].
        apply elem_of_cons in Hin as [[= ->]|[]%elem_of_nil]. done.
      * apply elem_of_cons in Hin as [?|[]%elem_of_nil]. done.
  - intros [-> Hne]. apply elem_of_app. right. apply elem_of_app. right.
    apply elem_of_app. left. rewrite decide_False by done. by left.
Qed.

Lemma price_warning_counts_rows_witness :
  (WARNING, MPreciosInvalidos 2) ∈ transform_log sold_at_loss
  /\ length (rows (transformed sold_at_loss)) = 3%nat.
Proof.
  destruct (price_warning_counts_rows sold_at_loss new_etl
              (logged new_etl (transform_log sold_at_loss)) (transformed sold_at_loss))
    as (_ & Hwarn).
  - rewrite transform_product_data_eq. vm_compute. reflexivity.
  - split; [|vm_compute; reflexivity].
    apply Hwarn. split; vm_compute; [reflexivity | discriminate].
Defined.

Lemma missing_columns_raise_ValueError_witness :
  exists lines,
    transform_product_data without_nombre_minimo new_etl
    = (logged new_etl
         (lines ++ [(ERROR, MErrorTransformando (ValueError ["nombre"; "stock_minimo"]))]),
       Ok None)
    /\ Forall (fun entry : LogEntry => fst entry <> ERROR) lines.
Proof.
  destruct (missing_columns_raise_ValueError without_nombre_minimo new_etl)
    as (lines & Hrun & Hlines).
  - vm_compute. left.
  - vm_compute. discriminate.
  - exists lines. split; [exact Hrun | exact Hlines].
Defined.

(** ** Load *)



(** A well-typed batch without the [nivel_stock] column is committed all
    the same, and the load then returns [False]: the summary that reads the
    column comes after the commit, and the rollback of the handler finds
    nothing to undo. *)
Theorem load_without_nivel_stock_commits df c lines batch :
  for_each row_params (rows df) = Ok batch ->
  (forall k, (k < 2 + 2 * length (rows df))%nat -> faults c (executed c + k) = false) ->
  "nivel_stock" ∉ columns df ->
  exists c' lines',
    load_to_database df (mkEtl (Some c) lines) = (mkEtl (Some c') lines', Ok false)
    /\ committed c' = store_batch (now c) (pending c) batch
    /\ trace c' = trace c ++ [Commit; Rollback]
    /\ (ERROR, MErrorCargando (KeyError "nivel_stock")) ∈ lines'.
Proof.
  intros Hbatch Hf Hcol.
  destruct (load_to_database_cases df c lines) as (self' & b & Heq & Hout).
  inversion Hout as [batch' Hb' Hf' Hcol'|c' lines' e Hcom Hpen Htr|batch' Hb' Hf' Hcol']; subst.
  - done.
  - exfalso. revert Heq. unfold load_to_database, try_except. cbn [connection].
    rewrite load_body_eq.
    rewrite <- (Nat.add_0_r (executed c)) at 1. rewrite Hf by lia.
    rewrite <- (Nat.add_1_r (executed c)). rewrite Hf by lia.
    rewrite (load_rows_run _ _ _ _ _ batch) by
      (try done; intros k Hk; cbn [advanced executed faults];
       rewrite <- Nat.add_assoc; apply Hf; lia).
    cbn [connection logger]. rewrite decide_False by done. rewrite load_handler_eq.
    intros [= Hc _]. apply (f_equal trace) in Hc. cbn in Hc. rewrite Htr in Hc.
    apply (f_equal length) in Hc. rewrite !length_app in Hc. cbn in Hc. lia.
  - rewrite Hbatch in Hb'. inversion Hb'; subst batch'.
    do 2 eexists. split; [exact Heq|]. split; [done|]. split.
    + cbn. by rewrite <- (assoc_L (++)).
    + apply elem_of_app. right. apply elem_of_app. right. right. by left.
Qed.

Lemma load_without_nivel_stock_commits_witness :
  exists c' lines',
    load_to_database (frame_of [ap001]) (mkEtl (Some (connect empty_store 100 [])) [])
    = (mkEtl (Some c') lines', Ok false)
    /\ is_Some (productos (committed c') !! "AP001")
    /\ trace c' = [Commit; Rollback].
Proof.
  destruct (load_without_nivel_stock_commits (frame_of [ap001]) (connect empty_store 100 []) []
              [mkRowParams (VStr "Filtros") (VStr "AutoParts Supply") "AP001"
                 "Filtro Aceite Toyota Corolla" "FT-123" (F64.dec 850 2) (F64.dec 1200 2)
                 25 10 40 "A1-02"])
    as (c' & lines' & Hrun & Hcom & Htr & _).
  - vm_compute. reflexivity.
  - intros k _. reflexivity.
  - vm_compute. intros Hin.
    repeat (apply elem_of_cons in Hin as [Hin|Hin]; [discriminate|]).
    by apply elem_of_nil in Hin.
  - exists c', lines'. split; [exact Hrun|]. split; [|exact Htr].
    rewrite Hcom. vm_compute. eauto.
Defined.

(** ** What a load leaves alone *)

Lemma load_twice_witness :
  exists c1' c2',
    connection (fst first_load) = Some c1' /\ connection (fst second_load) = Some c2'
    /\ untimed (committed c2') = untimed (committed c1')
    /\ (INFO, MDatosCargados (length (rows sample_batch)) 0) ∈ logger (fst second_load).
Proof.
  apply (load_twice sample_batch (connect empty_store 100 []) [] (fst first_load)
           (connect (store_after first_load empty_store) 3700 []) [] (fst second_load)).
  - vm_compute. reflexivity.
  - intros c1' Hc. unfold store_after. rewrite Hc. reflexivity.
  - vm_compute. reflexivity.
Defined.

Lemma load_counts_every_row_as_new_witness :
  is_Some (productos stocked_store !! "AP001")
  /\ (INFO, MDatosCargados 1 0) ∈ logger (fst update_load)
  /\ forall nuevos actualizados,
       (INFO, MDatosCargados nuevos actualizados) ∈ logger (fst update_load) ->
       (INFO, MDatosCargados nuevos actualizados) ∈ @nil LogEntry
       \/ (nuevos = 1%nat /\ actualizados = 0%nat).
Proof.
  split; [vm_compute; eauto|].
  apply (load_counts_every_row_as_new (transformed (frame_of [ap001]))
           (connect stocked_store 100 []) [] (fst update_load)).
  vm_compute. reflexivity.
Defined.

Lemma producto_steps_other cm pm d ts k o batch :
  Forall (fun ps => rp_sku ps <> k) batch ->
  foldl (producto_step cm pm d ts k) o batch = o.
Proof.
  revert o. induction batch as [|ps batch IH]; intros o Hall; [done|].
  inversion Hall as [|? ? Hne Hrest]; subst. cbn [foldl].
  by rewrite producto_step_ne, IH.
Qed.

Lemma inventario_steps_other d ts k o batch :
  Forall (fun ps => rp_sku ps <> k) batch ->
  foldl (inventario_step d ts k) o batch = o.
Proof.
  revert o. induction batch as [|ps batch IH]; intros o Hall; [done|].
  inversion Hall as [|? ? Hne Hrest]; subst. cbn [foldl].
  by rewrite inventario_step_ne, IH.
Qed.

Lemma producto_steps_is_Some cm pm d ts k o batch :
  is_Some o \/ k ∈ rp_sku <$> batch ->
  is_Some (foldl (producto_step cm pm d ts k) o batch).
Proof.
  revert o. induction batch as [|ps batch IH]; intros o; cbn [foldl fmap list_fmap].
  - intros [?|?%elem_of_nil]; done.
  - intros H. apply IH. unfold producto_step.
    destruct (decide (rp_sku ps = k)) as [Heq|Hne]; [left; eauto|].
    destruct H as [?|[?|?]%elem_of_cons]; [by left | congruence | by right].
Qed.

Lemma inventario_steps_is_Some d ts k o batch :
  is_Some o \/ k ∈ rp_sku <$> batch ->
  is_Some (foldl (inventario_step d ts k) o batch).
Proof.
  revert o. induction batch as [|ps batch IH]; intros o; cbn [foldl fmap list_fmap].
  - intros [?|?%elem_of_nil]; done.
  - intros H. apply IH. unfold inventario_step.
    destruct (decide (rp_sku ps = k)) as [Heq|Hne]; [left; eauto|].
    destruct H as [?|[?|?]%elem_of_cons]; [by left | congruence | by right].
Qed.

(** The SKUs the parameters of a batch carry are the [sku] cells of its
    rows, in order. *)
Lemma batch_skus l batch :
  for_each row_params l = Ok batch ->
  (fun r : Row => r !! "sku") <$> l = (fun ps => Some (VStr (rp_sku ps))) <$> batch.
Proof.
  rewrite for_each_Forall2. induction 1 as [|r ps l batch Hr _ IH]; [done|].
  cbn [fmap list_fmap]. f_equal; [|exact IH].
  by destruct (row_params_cells _ _ Hr) as (_ & _ & -> & _).
Qed.

(** A load that succeeds writes the rows of its SKUs and nothing else: the
    lookup tables are as they were, the product and the inventory row of a
    SKU that no row of the batch carries are untouched, no row is deleted,
    and every SKU of the batch has afterwards both a product and an
    inventory row. *)
Theorem load_touches_only_its_skus df c lines c' lines' :
  load_to_database df (mkEtl (Some c) lines) = (mkEtl (Some c') lines', Ok true) ->
  categorias (committed c') = categorias (pending c)
  /\ proveedores (committed c') = proveedores (pending c)
  /\ (forall k, Some (VStr k) ∉ (fun r : Row => r !! "sku") <$> rows df ->
        productos (committed c') !! k = productos (pending c) !! k
        /\ inventario (committed c') !! k = inventario (pending c) !! k)
  /\ (forall k, (is_Some (productos (pending c) !! k) -> is_Some (productos (committed c') !! k))
                /\ (is_Some (inventario (pending c) !! k)
                    -> is_Some (inventario (committed c') !! k)))
  /\ (forall k, Some (VStr k) ∈ (fun r : Row => r !! "sku") <$> rows df ->
        is_Some (productos (committed c') !! k) /\ is_Some (inventario (committed c') !! k)).
Proof.
  intros (batch & Hbatch & _ & _ & Hself)%load_to_database_ok.
  injection Hself as -> _.
  cbn [loaded conn_commit advanced committed pending now]. unfold store_batch.
  destruct (foldl_store_row_tables (lookup_map (categorias (pending c)))
              (lookup_map (proveedores (pending c))) (now c) (pending c) batch)
    as (_ & Hcat & Hprov).
  rewrite (batch_skus _ _ Hbatch).
  split; [exact Hcat|]. split; [exact Hprov|].
  assert (Hskus : forall k, Some (VStr k) ∈ (fun ps => Some (VStr (rp_sku ps))) <$> batch
                            <-> k ∈ rp_sku <$> batch).
  { intros k. rewrite !list_elem_of_fmap. split.
    - intros (ps & [= ->] & Hin). by exists ps.
    - intros (ps & -> & Hin). by exists ps. }
  split; [|split].
  - intros k Hk. rewrite Hskus in Hk.
    assert (Hall : Forall (fun ps => rp_sku ps <> k) batch).
    { apply Forall_forall. intros ps Hin Heq. apply Hk.
      apply list_elem_of_fmap. by exists ps. }
    rewrite productos_foldl, inventario_foldl.
    by rewrite producto_steps_other, inventario_steps_other.
  - intros k. rewrite productos_foldl, inventario_foldl. split; intros Hsome.
    + apply producto_steps_is_Some. by left.
    + apply inventario_steps_is_Some. by left.
  - intros k Hk. rewrite Hskus in Hk. rewrite productos_foldl, inventario_foldl. split.
    + apply producto_steps_is_Some. by right.
    + apply inventario_steps_is_Some. by right.
Qed.

Lemma load_touches_only_its_skus_witness :
  exists c' lines',
    update_load = (mkEtl (Some c') lines', Ok true)
    /\ categorias (committed c') = categorias stocked_store
    /\ is_Some (productos (committed c') !! "AP001").
Proof.
  destruct update_load as [[[c'|] lines'] [[]|e]] eqn:Hrun; try (vm_compute in Hrun; discriminate).
  exists c', lines'. split; [done|].
  destruct (load_touches_only_its_skus (transformed (frame_of [ap001]))
              (connect stocked_store 100 []) [] c' lines' Hrun)
    as (Hcat & _ & _ & Hkeep & _).
  split; [exact Hcat|]. apply (Hkeep "AP001"). vm_compute. eauto.
Defined.

(** ** Name resolution *)

Lemma lookup_map_foldl_last (fetched : list (Z * string)) (m : gmap string Z) nombre :
  foldl (fun (m : gmap string Z) '(id, nombre) => <[nombre := id]> m) m fetched !! nombre
  = match last (filter (fun r : Z * string => snd r = nombre) fetched) with
    | Some r => Some (fst r)
    | None => m !! nombre
    end.
Proof.
  revert m. induction fetched as [|[id n] fetched IH]; intros m; cbn [foldl]; [done|].
  rewrite IH. rewrite filter_cons. cbn [snd].
  destruct (decide (n = nombre)) as [->|Hne].
  - rewrite last_cons. destruct (last (filter _ fetched)); [done|].
    by rewrite lookup_insert_eq.
  - destruct (last (filter _ fetched)); [done|]. by rewrite lookup_insert_ne.
Qed.

(** The mapping built from the fetched rows of a lookup table sends a name
    to the id of the last row that carries it, and to nothing when no row
    does. *)
Theorem lookup_map_last_row_wins (fetched : list (Z * string)) nombre :
  lookup_map fetched !! nombre
  = fst <$> last (filter (fun r : Z * string => snd r = nombre) fetched).
Proof.
  unfold lookup_map. rewrite lookup_map_foldl_last, lookup_empty.
  by destruct (last _).
Qed.

(** ** The report and the run *)

Lemma generate_stock_report_eq c lines :
  generate_stock_report (mkEtl (Some c) lines)
  = (mkEtl (Some (advanced c 1 (pending c))) (lines ++ snd (report_outcome c)),
     Ok (fst (report_outcome c))).
Proof.
  unfold generate_stock_report, try_except, report_outcome. cbn [connection].
  rewrite bind_execute. destruct (faults c (executed c)); [reflexivity|].
  cbn. by rewrite app_nil_r.
Qed.

Lemma log_items_eq items self :
  log_items items self = (logged self (item_line <$> items), Ok tt).
Proof.
  revert self. induction items as [|item items IH]; intros self; cbn [log_items].
  - by rewrite logged_nil.
  - by rewrite bind_log, IH, logged_logged.
Qed.

Lemma log_reporte_eq reporte self :
  log_reporte reporte self = (logged self (reporte_lines reporte), Ok tt).
Proof.
  destruct reporte as [[|item items]|]; [apply log_eq| |apply log_eq].
  unfold log_reporte, reporte_lines.
  rewrite !bind_log, mbind_M, log_items_eq, !logged_logged.
  destruct (decide (5 < length (item :: items))%nat).
  - rewrite log_eq, logged_logged. by rewrite <- !(assoc_L (++)).
  - cbn [mret M_ret]. by rewrite app_nil_r.
Qed.


(** The run shows the first five rows of the report, in order, and the
    number of the others; an empty report and a report that failed are
    written down alike, as the absence of critical stock. *)
Theorem log_reporte_shows_five reporte self :
  log_reporte reporte self = (logged self (reporte_lines reporte), Ok tt)
  /\ filter (fun entry => is_item entry = true) (reporte_lines reporte)
     = item_line <$> take 5 (default [] reporte)
  /\ (forall n, (INFO, MProductosMas n) ∈ reporte_lines reporte
                <-> exists found, reporte = Some found /\ (5 < length found)%nat
                                  /\ n = (length found - 5)%nat)
  /\ ((INFO, MSinStockCritico) ∈ reporte_lines reporte
      <-> reporte = None \/ reporte = Some []).
Proof.
  split; [apply log_reporte_eq|].
  assert (Hitems : forall l : list ReportRow,
             filter (fun entry => is_item entry = true) (item_line <$> l) = item_line <$> l).
  { induction l as [|x l IH]; [done|]. cbn [fmap list_fmap].
    rewrite filter_cons_True by done. by rewrite IH. }
  assert (Hnot : forall l : list ReportRow, forall m,
             (forall a b c d e, m <> MItem a b c d e) -> (INFO, m) ∉ item_line <$> l).
  { intros l m Hm (x & [= ->] & _)%list_elem_of_fmap. by eapply Hm. }
  destruct reporte as [[|item items]|]; cbn [reporte_lines default].
  - split; [done|]. split.
    + intros n. split.
      * intros Hin. apply list_elem_of_singleton in Hin. discriminate.
      * intros (found & [= <-] & Hlen & _). cbn in Hlen. lia.
    + split; [by right | intros _; by left].
  - split; [|split].
    + unfold Log. rewrite !filter_app, Hitems. destruct (decide _); by rewrite app_nil_r.
    + intros n. rewrite !elem_of_app. split.
      * intros [Hin|[Hin|Hin]].
        -- repeat (apply elem_of_cons in Hin as [Hin|Hin]; [discriminate|]).
           by apply elem_of_nil in Hin.
        -- by apply Hnot in Hin.
        -- destruct (decide (5 < length (item :: items))%nat) as [Hlen|];
             [|by apply elem_of_nil in Hin].
           apply list_elem_of_singleton in Hin. injection Hin as ->. eauto.
      * intros (found & [= <-] & Hlen & ->). right. right.
        rewrite decide_True by done. by left.
    + rewrite !elem_of_app. split.
      * intros [Hin|[Hin|Hin]].
        -- repeat (apply elem_of_cons in Hin as [Hin|Hin]; [discriminate|]).
           by apply elem_of_nil in Hin.
        -- by apply Hnot in Hin.
        -- destruct (decide _); [|by apply elem_of_nil in Hin].
           apply list_elem_of_singleton in Hin. discriminate.
      * intros [?|?]; discriminate.
  - split; [done|]. split.
    + intros n. split.
      * intros Hin. apply list_elem_of_singleton in Hin. discriminate.
      * intros (found & ? & _). discriminate.
    + split; [by left | intros _; by left].
Qed.

(** The extraction raises nothing and leaves the connection alone.  It
    returns [None] exactly for a source that is neither [sample] nor [csv]
    and for a CSV file that cannot be read, and then an error is logged; the
    source [csv] without its file gives, with a warning, the batch of the
    source [sample]. *)
Theorem extract_returns_none_iff env source_type self :
  exists out,
    extract_inventory_data env source_type self
    = (logged self (extract_log env source_type), Ok out)
    /\ (out = None
        <-> (source_type <> "sample" /\ source_type <> "csv")
            \/ (source_type = "csv" /\ exists e, csv_file env = Some (Raise e)))
    /\ (out = None -> exists m, (ERROR, m) ∈ extract_log env source_type)
    /\ (source_type = "csv" -> csv_file env = None ->
        out = Some sample_data /\ (WARNING, MCsvNoEncontrado) ∈ extract_log env source_type
        /\ fst (extract_inventory_data env "sample" self)
           = logged self [(INFO, MExtrayendo "sample");
                          (INFO, MDatosEjemplo (length (rows sample_data)))]).
Proof.
  exists (extract_frame env source_type). split; [apply extract_inventory_data_eq|].
  unfold extract_frame, extract_log.
  destruct (decide (source_type = "sample")) as [->|Hs].
  { split; [|split; [done|done]]. split; [done|]. intros [[? _]|[? _]]; done. }
  destruct (decide (source_type = "csv")) as [->|Hc].
  - destruct (csv_file env) as [[df|e]|] eqn:Hfile.
    + split; [|split; [done|done]]. split; [done|].
      intros [[_ ?]|[_ (? & ?)]]; done.
    + split; [|split; [|done]].
      * split; [|done]. intros _. right. eauto.
      * intros _. eexists. right. by left.
    + split; [|split; [done|]].
      * split; [done|]. intros [[_ ?]|[_ (? & ?)]]; done.
      * intros _ _. split; [done|]. split; [right; by left|].
        by rewrite extract_inventory_data_eq.
  - split; [|split; [|done]].
    + split; [|done]. intros _. by left.
    + intros _. eexists. right. by left.
Qed.

(** ** The whole run *)

Lemma run_etl_pipeline_loaded env source_type c raw df batch :
  server env = Ok c ->
  extract_frame env source_type = Some raw ->
  transform_frame raw = Ok df ->
  for_each row_params (rows df) = Ok batch ->
  (forall k, (k < 2 + 2 * length (rows df))%nat -> faults c (executed c + k) = false) ->
  run_etl_pipeline env source_type new_etl
  = (mkEtl (Some (conn_close (advanced (loaded c batch) 1 (pending (loaded c batch)))))
       (before_load env source_type raw ++ load_log (pending c) batch df
        ++ [(INFO, MFase 4)] ++ snd (report_outcome (loaded c batch))
        ++ [(INFO, MCompletado); (INFO, MTiempoTotal)]
        ++ reporte_lines (fst (report_outcome (loaded c batch)))
        ++ [(INFO, MConexionCerrada)]),
     Ok true).
Proof.
  intros Hs Hraw Hdf Hbatch Hf.
  assert (Hcol : "nivel_stock" ∈ columns df).
  { destruct (transform_frame_ok _ _ Hdf) as (_ & _ & -> & _). apply add_column_elem. }
  unfold run_etl_pipeline. rewrite bind_log, mbind_M.
  unfold connect_database. rewrite Hs. rewrite bind_log. cbn [mret M_ret].
  unfold try_finally, try_except, pipeline_phases.
  rewrite bind_log, mbind_M, extract_inventory_data_eq, Hraw.
  rewrite bind_log, mbind_M, transform_product_data_eq, Hdf.
  rewrite bind_log, mbind_M. unfold logged. cbn [connection logger new_etl].
  match goal with
  | |- context [load_to_database df (mkEtl (Some c) ?l)] =>
      replace l with (before_load env source_type raw)
  end.
  2:{ unfold before_load. cbn [app]. by rewrite <- !(assoc_L (++)). }
  rewrite (load_to_database_run df c _ batch Hbatch Hf Hcol).
  rewrite mbind_M, bind_log, mbind_M. unfold logged. cbn [connection logger].
  rewrite generate_stock_report_eq, !bind_log, log_reporte_eq.
  cbn [mret M_ret]. unfold logged. cbn [connection logger].
  rewrite close_connection_eq. cbn [fst]. by rewrite <- !(assoc_L (++)).
Qed.



(** A report that fails does not fail the run: the batch stays committed,
    the run returns [True] and announces its success, and the report that
    could not be made is written down as the absence of critical stock. *)
Theorem report_failure_does_not_fail_the_run env source_type c batch :
  server env = Ok c ->
  loadable env source_type c batch ->
  faults c (executed c + (2 + 2 * length batch)) = true ->
  exists c' lines,
    run_etl_pipeline env source_type new_etl = (mkEtl (Some c') lines, Ok true)
    /\ committed c' = store_batch (now c) (pending c) batch
    /\ (ERROR, MErrorReporte (DatabaseError (executed c + (2 + 2 * length batch)))) ∈ lines
    /\ (INFO, MCompletado) ∈ lines
    /\ (INFO, MSinStockCritico) ∈ lines.
Proof.
  intros Hs (raw & df & Hraw & Hdf & Hbatch & Hf) Hfault.
  rewrite (run_etl_pipeline_loaded env source_type c raw df batch) by done.
  do 2 eexists. split; [done|]. split; [done|].
  unfold report_outcome. cbn [loaded conn_commit advanced faults executed].
  rewrite Hfault. cbn [fst snd reporte_lines].
  rewrite !elem_of_app. split; [|split].
  - right. right. right. left. by left.
  - right. right. right. right. left. by left.
  - right. right. right. right. right. left. by left.
Qed.

Lemma report_failure_does_not_fail_the_run_witness :
  exists c' lines,
    run_etl_pipeline (env_of report_fails) "sample" new_etl = (mkEtl (Some c') lines, Ok true)
    /\ committed c' = store_batch (now report_fails) (pending report_fails) sample_params
    /\ (ERROR, MErrorReporte
                 (DatabaseError (executed report_fails + (2 + 2 * length sample_params)))) ∈ lines
    /\ (INFO, MCompletado) ∈ lines
    /\ (INFO, MSinStockCritico) ∈ lines.
Proof.
  apply (report_failure_does_not_fail_the_run (env_of report_fails) "sample" report_fails
           sample_params).
  - reflexivity.
  - exists sample_data, sample_batch. split; [reflexivity|].
    split; [vm_compute; reflexivity|]. split; [vm_compute; reflexivity|].
    intros k Hk. apply bool_decide_eq_false. intros Hin%list_elem_of_singleton.
    vm_compute in Hk. cbn in Hin. lia.
  - vm_compute. reflexivity.
Defined.


Lemma run_etl_pipeline_no_batch_witness :
  exists lines,
    run_etl_pipeline (env_of (connect empty_store 100 [])) "xml" new_etl
    = (mkEtl (Some (conn_close (connect empty_store 100 []))) lines, Ok false).
Proof.
  apply (run_etl_pipeline_no_batch (env_of (connect empty_store 100 [])) "xml"
           (connect empty_store 100 [])).
  - reflexivity.
  - left. vm_compute. reflexivity.
Defined.

(** ** From the load to the report *)



Lemma producto_steps_is_Some_inv cm pm d ts k o batch :
  is_Some (foldl (producto_step cm pm d ts k) o batch) ->
  is_Some o \/ k ∈ rp_sku <$> batch.
Proof.
  revert o. induction batch as [|ps batch IH]; intros o; cbn [foldl fmap list_fmap]; [by left|].
  intros [Ho|Hin]%IH; [|right; by right].
  unfold producto_step in Ho. destruct (decide (rp_sku ps = k)) as [<-|]; [right; by left|by left].
Qed.

Lemma inventario_steps_is_Some_inv d ts k o batch :
  is_Some (foldl (inventario_step d ts k) o batch) ->
  is_Some o \/ k ∈ rp_sku <$> batch.
Proof.
  revert o. induction batch as [|ps batch IH]; intros o; cbn [foldl fmap list_fmap]; [by left|].
  intros [Ho|Hin]%IH; [|right; by right].
  unfold inventario_step in Ho. destruct (decide (rp_sku ps = k)) as [<-|]; [right; by left|by left].
Qed.



(** A load that succeeds keeps every inventory row with its product: the
    product upsert of a row comes before its inventory upsert, and nothing
    is deleted. *)
Theorem load_keeps_inventory_with_products df c lines c' lines' :
  load_to_database df (mkEtl (Some c) lines) = (mkEtl (Some c') lines', Ok true) ->
  inventory_has_products (pending c) ->
  inventory_has_products (committed c').
Proof.
  intros (batch & _ & _ & _ & Hself)%load_to_database_ok Hinv k.
  injection Hself as -> _.
  cbn [loaded conn_commit advanced committed pending]. unfold store_batch.
  rewrite productos_foldl, inventario_foldl.
  intros [Ho|Hin]%inventario_steps_is_Some_inv; apply producto_steps_is_Some.
  - left. by apply Hinv.
  - by right.
Qed.

Lemma load_keeps_inventory_with_products_witness :
  exists c' lines',
    update_load = (mkEtl (Some c') lines', Ok true) /\ inventory_has_products (committed c').
Proof.
  destruct update_load as [[[c'|] lines'] [[]|e]] eqn:Hrun; try (vm_compute in Hrun; discriminate).
  exists c', lines'. split; [done|].
  apply (load_keeps_inventory_with_products (transformed (frame_of [ap001]))
           (connect stocked_store 100 []) [] c' lines' Hrun).
  intros k. cbn [connect pending stocked_store inventario productos].
  destruct (decide (k = "AP001")) as [->|Hne].
  - intros _. rewrite lookup_singleton_eq. eauto.
  - rewrite lookup_singleton_ne by done. by intros [? ?].
Defined.

(** ** The summary of stock levels *)

Section counts.
Context {A : Type} `{EqDecision A}.

Lemma distinct_from_elem (seen l : list A) v :
  v ∈ distinct_from seen l <-> v ∈ l /\ v ∉ seen.
Proof.
  revert seen. induction l as [|a l IH]; intros seen; cbn [distinct_from].
  - split; [by intros ?%elem_of_nil | by intros [?%elem_of_nil _]].
  - destruct (decide (a ∈ seen)) as [Ha|Ha].
    + rewrite IH, elem_of_cons. split; [intros [? ?]; by auto|].
      intros [[->|?] ?]; [done | by auto].
    + rewrite !elem_of_cons, IH, elem_of_cons. split.
      * intros [->|[? Hn]]; [by auto|]. split; [by right|]. intros ?. apply Hn. by right.
      * intros [[->|?] Hn]; [by left|].
        destruct (decide (v = a)) as [->|?]; [by left|]. right. split; [done|].
        by intros [?|?].
Qed.

Lemma distinct_from_NoDup (seen l : list A) : NoDup (distinct_from seen l).
Proof.
  revert seen. induction l as [|a l IH]; intros seen; cbn [distinct_from]; [apply NoDup_nil_2|].
  destruct (decide (a ∈ seen)); [apply IH|].
  apply NoDup_cons. split; [|apply IH].
  rewrite distinct_from_elem. intros [_ Hn]. apply Hn. by left.
Qed.

Lemma count_of_cons_ne (a v : A) l : v <> a -> count_of v (a :: l) = count_of v l.
Proof. intros. unfold count_of. by rewrite filter_cons_False by congruence. Qed.

Lemma count_of_cons_eq (a : A) l : count_of a (a :: l) = S (count_of a l).
Proof. unfold count_of. by rewrite filter_cons_True. Qed.

Lemma count_of_pos (v : A) l : v ∈ l <-> (0 < count_of v l)%nat.
Proof.
  induction l as [|a l IH].
  - split; [by intros ?%elem_of_nil | cbn; lia].
  - rewrite elem_of_cons. destruct (decide (v = a)) as [->|Hne].
    + rewrite count_of_cons_eq. split; [lia | by left].
    + rewrite count_of_cons_ne by done. rewrite <- IH. split; [by intros [?|?] | by right].
Qed.

Lemma unseen_split (a : A) seen l :
  a ∉ seen ->
  length (filter (fun v => v ∉ seen) l)
  = (count_of a l + length (filter (fun v => v ∉ a :: seen) l))%nat.
Proof.
  intros Ha. induction l as [|b l IH]; [done|].
  destruct (decide (b = a)) as [->|Hne].
  - rewrite count_of_cons_eq, filter_cons_True by done.
    rewrite (filter_cons_False (fun v => v ∉ a :: seen)) by (intros Hn; apply Hn; by left).
    cbn [length]. lia.
  - rewrite count_of_cons_ne by done. destruct (decide (b ∈ seen)) as [Hb|Hb].
    + rewrite filter_cons_False by (by intros ?).
      rewrite (filter_cons_False (fun v => v ∉ a :: seen)) by (intros Hn; apply Hn; by right).
      done.
    + rewrite filter_cons_True by done.
      rewrite (filter_cons_True (fun v => v ∉ a :: seen)) by (by intros [?|?]%elem_of_cons).
      cbn [length]. lia.
Qed.

Lemma unseen_nil (l : list A) : filter (fun v => v ∉ @nil A) l = l.
Proof.
  induction l as [|x l IH]; [done|].
  rewrite filter_cons_True by (by intros ?%elem_of_nil). by f_equal.
Qed.

Lemma sum_counts (seen l : list A) :
  sum_list ((fun v => count_of v l) <$> distinct_from seen l)
  = length (filter (fun v => v ∉ seen) l).
Proof.
  revert seen. induction l as [|a l IH]; intros seen; cbn [distinct_from]; [done|].
  destruct (decide (a ∈ seen)) as [Ha|Ha].
  - rewrite filter_cons_False by (by intros ?). rewrite <- IH. f_equal.
    apply list_fmap_ext. intros i v Hv. apply count_of_cons_ne.
    apply list_elem_of_lookup_2, distinct_from_elem in Hv as [_ Hn]. congruence.
  - rewrite filter_cons_True by done. cbn [fmap list_fmap sum_list length].
    rewrite count_of_cons_eq, (unseen_split a seen l Ha), <- IH.
    assert (Hsame : (fun v => count_of v (a :: l)) <$> distinct_from (a :: seen) l
                    = (fun v => count_of v l) <$> distinct_from (a :: seen) l).
    { apply list_fmap_ext. intros i v Hv. apply count_of_cons_ne.
      apply list_elem_of_lookup_2, distinct_from_elem in Hv as [_ Hn].
      intros ->. apply Hn. by left. }
    rewrite Hsame. cbn [id]. lia.
Qed.

End counts.

Lemma sum_list_perm (l1 l2 : list nat) : l1 ≡ₚ l2 -> sum_list l1 = sum_list l2.
Proof. induction 1; cbn [sum_list]; lia. Qed.

#[local] Instance more_frequent_total : Total more_frequent.
Proof. intros x y. unfold more_frequent. lia. Qed.

#[local] Instance more_frequent_trans : Transitive more_frequent.
Proof. intros x y z. unfold more_frequent. lia. Qed.

(** [value_counts] has one entry per distinct cell, each with the number
    of its occurrences, the most frequent first. *)
Lemma value_counts_spec (cells : list (option value)) :
  NoDup (fst <$> value_counts cells)
  /\ (forall v n, (v, n) ∈ value_counts cells
                  <-> Some v ∈ cells /\ n = count_of (Some v) cells)
  /\ StronglySorted more_frequent (value_counts cells)
  /\ sum_list (snd <$> value_counts cells) = length (omap id cells).
Proof.
  unfold value_counts. set (present := omap id cells).
  set (counted := (fun v => (v, count_of v present)) <$> distinct_from [] present).
  assert (Hperm : merge_sort more_frequent counted ≡ₚ counted) by apply merge_sort_Permutation.
  assert (Hpresent : forall v, v ∈ present <-> Some v ∈ cells).
  { intros v. unfold present. rewrite list_elem_of_omap. split.
    - intros ([x|] & Hin & Hx); [|done]. cbn in Hx. by injection Hx as ->.
    - intros Hin. by exists (Some v). }
  assert (Hcount : forall v, count_of v present = count_of (Some v) cells).
  { intros v. unfold present, count_of. clear. induction cells as [|[x|] cells IH]; [done| |].
    - cbn [omap list_omap id]. destruct (decide (x = v)) as [->|Hne].
      + rewrite !filter_cons_True by done. cbn [length]. by f_equal.
      + rewrite !filter_cons_False by congruence. done.
    - cbn [omap list_omap id]. rewrite (filter_cons_False _ None) by done. done. }
  split; [|split; [|split]].
  - rewrite Hperm. unfold counted. rewrite <- list_fmap_compose.
    rewrite (list_fmap_ext _ id (distinct_from [] present)) by done.
    rewrite list_fmap_id. apply distinct_from_NoDup.
  - intros v n. rewrite Hperm. unfold counted. rewrite list_elem_of_fmap. split.
    + intros (w & [= -> ->] & Hin). apply distinct_from_elem in Hin as [Hin _].
      split; [by apply Hpresent | apply Hcount].
    + intros [Hin ->]. exists v. split; [by rewrite Hcount|].
      apply distinct_from_elem. split; [by apply Hpresent | by intros ?%elem_of_nil].
  - apply (StronglySorted_merge_sort _).
  - rewrite (sum_list_perm _ (snd <$> counted)) by (by apply fmap_Permutation).
    unfold counted. rewrite <- list_fmap_compose.
    rewrite (list_fmap_ext _ (fun v => count_of v present) (distinct_from [] present)) by done.
    rewrite sum_counts. f_equal. apply unseen_nil.
Qed.

Lemma count_of_column (l : list Row) label v :
  count_of (Some v) ((fun r : Row => r !! label) <$> l)
  = length (filter (fun r : Row => r !! label = Some v) l).
Proof.
  unfold count_of. induction l as [|r l IH]; [done|]. cbn [fmap list_fmap].
  destruct (decide (r !! label = Some v)) as [Heq|Hne].
  - rewrite !filter_cons_True by done. cbn [length]. by f_equal.
  - by rewrite !filter_cons_False by done.
Qed.

Lemma present_column (l : list Row) label :
  length (omap id ((fun r : Row => r !! label) <$> l))
  = length (filter (fun r : Row => is_Some (r !! label)) l).
Proof.
  induction l as [|r l IH]; [done|]. cbn [fmap list_fmap omap list_omap].
  destruct (r !! label) as [v|] eqn:Hr.
  - rewrite filter_cons_True by (rewrite Hr; eauto). cbn [id length]. by f_equal.
  - rewrite filter_cons_False by (rewrite Hr; by intros [? ?]). done.
Qed.

(** The summary a load logs after its commit accounts for every row: after
    the line that counts the products there is one line per distinct stock
    level, each with the number of rows of that level, the most frequent
    first, and the numbers add up to the number of rows that have a
    level. *)
Theorem load_summary_accounts_for_every_row df c lines self' :
  load_to_database df (mkEtl (Some c) lines) = (self', Ok true) ->
  exists warnings counts,
    logger self'
    = lines ++ warnings ++ [(INFO, MDatosCargados (length (rows df)) 0)]
      ++ ((fun vn : value * nat => (INFO, MNivel (fst vn) (snd vn))) <$> counts)
    /\ NoDup (fst <$> counts)
    /\ (forall v n,
          (v, n) ∈ counts
          <-> (0 < n)%nat
              /\ n = length (filter (fun r : Row => r !! "nivel_stock" = Some v) (rows df)))
    /\ StronglySorted more_frequent counts
    /\ sum_list (snd <$> counts)
       = length (filter (fun r : Row => is_Some (r !! "nivel_stock")) (rows df)).
Proof.
  intros (batch & Hbatch & _ & _ & ->)%load_to_database_ok.
  destruct (value_counts_spec ((fun r : Row => r !! "nivel_stock") <$> rows df))
    as (Hnd & Hmem & Hsorted & Hsum).
  exists (batch_log (lookup_map (categorias (pending c))) (lookup_map (proveedores (pending c)))
            batch),
         (value_counts ((fun r : Row => r !! "nivel_stock") <$> rows df)).
  split; [|split; [done|split; [|split; [done|]]]].
  - cbn [logger]. unfold load_log, niveles_log. by rewrite (for_each_length _ _ _ Hbatch).
  - intros v n. rewrite Hmem, count_of_pos, count_of_column.
    split; intros [Hpos ->]; done.
  - by rewrite Hsum, present_column.
Qed.

Lemma load_summary_accounts_for_every_row_witness :
  exists warnings counts,
    logger (fst first_load)
    = [] ++ warnings ++ [(INFO, MDatosCargados (length (rows sample_batch)) 0)]
      ++ ((fun vn : value * nat => (INFO, MNivel (fst vn) (snd vn))) <$> counts)
    /\ NoDup (fst <$> counts)
    /\ (forall v n,
          (v, n) ∈ counts
          <-> (0 < n)%nat
              /\ n = length (filter (fun r : Row => r !! "nivel_stock" = Some v)
                               (rows sample_batch)))
    /\ StronglySorted more_frequent counts
    /\ sum_list (snd <$> counts)
       = length (filter (fun r : Row => is_Some (r !! "nivel_stock")) (rows sample_batch)).
Proof.
  apply (load_summary_accounts_for_every_row sample_batch (connect empty_store 100 []) []
           (fst first_load)).
  vm_compute. reflexivity.
Defined.

(** ** Rows that cannot be bound, and the order of the levels *)



(** More stock, or a lower minimum, never makes the level of a row more
    urgent, as long as the stock is not negative. *)
Theorem categorizar_stock_monotone (actual actual' minimo minimo' : Z) :
  0 <= actual <= actual' -> minimo' <= minimo ->
  (nivel_rank (categorizar_stock actual minimo)
   <= nivel_rank (categorizar_stock actual' minimo'))%nat.
Proof.
  intros Ha Hm. unfold categorizar_stock.
  repeat match goal with
         | |- context [?x =? ?y] => destruct (Z.eqb_spec x y)
         | |- context [?x <=? ?y] => destruct (Z.leb_spec x y)
         end; cbn [nivel_rank]; lia.
Qed.

Lemma categorizar_stock_monotone_witness :
  (nivel_rank (categorizar_stock 3 5) <= nivel_rank (categorizar_stock 8 4))%nat.
Proof. apply categorizar_stock_monotone; lia. Defined.
